(** * GPW company scraper: extraction, tab navigation and replace-by-key persistence

    A shallow embedding of [fetch_company_data.py]: the pydantic records, the
    BeautifulSoup extractors, the pandas/SQLite upsert, the scrape log, and the
    per-company task that drives one Playwright page through the tabs.

    Conventions.
    - A Python [str] is a list of code points ([pystr]); identifiers of the
      program text (dict keys, column and table names, CSS selectors) are
      Rocq strings holding the bytes of the source file.
    - BeautifulSoup, pydantic's URL validator and the Playwright page are
      libraries outside the repository: they are interfaces ([Soup],
      [Pydantic], [Env]) and every statement holds for all their
      implementations.
    - The file system and the SQLite store are in-memory values of the
      [world]; they do not fail on their own. The log file is one that
      [save_scrape_log] wrote: a header and rows of a url and a time, the
      time in one of the two prints [to_csv] has for it.
    - [BATCH_SIZE] is 1: the semaphore lets one task run at a time, so the
      tasks run one after the other in the order of the url list, each
      starting when the one before has returned. A task that raises does
      not stop the tasks after it; what those do then is left open, see
      [gathered]. *)

From Stdlib Require Import ZArith NArith List String Ascii Bool Lia.
From stdpp Require Import base option list gmap strings.

Set Warnings "-register-all".
Local Open Scope Z_scope.

(** ** Python strings *)

Abbreviation pychar := N (only parsing).
Abbreviation pystr := (list N) (only parsing).

(** A literal of the source text, read as code points (ASCII literals only). *)
Fixpoint py (s : string) : pystr :=
  match s with
  | EmptyString => []
  | String a s' => N_of_ascii a :: py s'
  end.

Arguments py s : simpl never.

(** U+00A0, the character written ['\xa0'] in the source. *)
Definition NBSP : pychar := 160%N.
Definition SPACE : pychar := 32%N.

(** [s.replace(old, new)] for one-character [old] and [new]. *)
Definition str_replace (old new : pychar) (s : pystr) : pystr :=
  List.map (fun c => if N.eqb c old then new else c) s.

(** [str.isspace] on one character: the Unicode whitespace of CPython. *)
Definition isspace (c : pychar) : bool :=
  ((9 <=? c) && (c <=? 13) || (28 <=? c) && (c <=? 32)
   || (c =? 133) || (c =? 160) || (c =? 5760)
   || (8192 <=? c) && (c <=? 8202)
   || (c =? 8232) || (c =? 8233) || (c =? 8239) || (c =? 8287)
   || (c =? 12288))%N.

Fixpoint lstrip (s : pystr) : pystr :=
  match s with
  | [] => []
  | c :: s' => if isspace c then lstrip s' else s
  end.

Definition rstrip (s : pystr) : pystr := rev (lstrip (rev s)).

(** [s.strip()] *)
Definition strip (s : pystr) : pystr := rstrip (lstrip s).

(** [sep.join(l)] *)
Fixpoint str_join (sep : pystr) (l : list pystr) : pystr :=
  match l with
  | [] => []
  | [s] => s
  | s :: l' => s ++ sep ++ str_join sep l'
  end.

(** [s.split(sep)] for a one-character separator: the reader of a stored
    comma-delimited cell. *)
Fixpoint str_split (sep : pychar) (s : pystr) : list pystr :=
  match s with
  | [] => [[]]
  | c :: s' =>
      if N.eqb c sep then [] :: str_split sep s'
      else match str_split sep s' with
           | w :: ws => (c :: w) :: ws
           | [] => [[c]]
           end
  end.

(** [x or ''] for an optional string: [None] and the empty string are falsy. *)
Definition or_empty (x : option pystr) : pystr :=
  match x with
  | Some (c :: s) => c :: s
  | _ => []
  end.

(** [needle in hay] on identifiers. *)
Fixpoint str_contains (needle hay : string) : bool :=
  String.prefix needle hay
  || match hay with
     | EmptyString => false
     | String _ hay' => str_contains needle hay'
     end.

(** ** Python values and [to_serializable] *)

(** What [model_dump()] puts in a dict: [None], a [str], a pydantic URL
    object (kept as its [str()] form), a list, a dict. *)
Inductive pyval : Type :=
  | VNone
  | VStr (s : pystr)
  | VUrl (u : pystr)
  | VList (l : list pyval)
  | VDict (d : list (string * pyval)).

Abbreviation pydict := (list (string * pyval)) (only parsing).

Definition is_str (v : pyval) : bool :=
  match v with VStr _ => true | _ => false end.

Definition str_of (v : pyval) : pystr :=
  match v with VStr s => s | _ => [] end.

(** The inner function of [process_company_data]. *)
Fixpoint to_serializable (d : pyval) : pyval :=
  match d with
  | VDict kvs =>
      VDict (List.map (fun kv => match kv with (k, v) => (k, to_serializable v) end) kvs)
  | VList l =>
      if forallb is_str l
      then VStr (str_join (py ",") (List.map str_of l))
      else VList (List.map to_serializable l)
  | VUrl u => VStr u
  | _ => d
  end.

(** [d[k]] and [d.get(k)] on a dict in insertion order. *)
Fixpoint dict_get {V : Type} (k : string) (d : list (string * V)) : option V :=
  match d with
  | [] => None
  | (k', v) :: d' => if String.eqb k k' then Some v else dict_get k d'
  end.

(** ** Exceptions *)

Inductive exn : Type :=
  | TimeoutError
  | PlaywrightError
  | ValidationError
  | KeyError (k : string)
  | TypeError
  | DatabaseError
  | InterfaceError.

Inductive result (A : Type) : Type :=
  | Ok (a : A)
  | Raise (e : exn).
Arguments Ok {A} a.
Arguments Raise {A} e.

(** ** pandas frames *)

(** A frame is its column labels and its rows, each row holding one cell per
    column, in column order. *)
Record DataFrame (V : Type) : Type := mkDF {
  columns : list string;
  records : list (list (string * V))
}.
Arguments mkDF {V} columns records.
Arguments columns {V} d.
Arguments records {V} d.

(** [c in df.columns] *)
Definition in_columns (c : string) (cols : list string) : bool :=
  existsb (String.eqb c) cols.

(** The cell of row [r] under column [c]; [na] where the row has none. *)
Definition cell {V : Type} (na : V) (c : string) (r : list (string * V)) : V :=
  default na (dict_get c r).

Definition reindex {V : Type} (na : V) (cols : list string)
    (r : list (string * V)) : list (string * V) :=
  List.map (fun c => (c, cell na c r)) cols.

(** Union of column labels, in order of first appearance. *)
Definition add_columns (cols new : list string) : list string :=
  fold_left (fun acc c => if in_columns c acc then acc else acc ++ [c]) new cols.

(** [pd.DataFrame(rows)] for a list of dicts: a key missing from a dict
    gives a missing value. *)
Definition pd_DataFrame (rows : list pydict) : DataFrame pyval :=
  let cols := fold_left (fun acc r => add_columns acc (List.map fst r)) rows [] in
  mkDF cols (List.map (reindex VNone cols) rows).

(** [pd.concat([a, b], ignore_index=True)] *)
Definition pd_concat {V : Type} (na : V) (a b : DataFrame V) : DataFrame V :=
  let cols := add_columns (columns a) (columns b) in
  mkDF cols (List.map (reindex na cols) (records a ++ records b)).

(** One element of [series != value]: a missing value on either side
    compares unequal (pandas), a [str] is unequal to anything that is not
    the same [str]. *)
Definition py_ne (a b : pyval) : bool :=
  match a, b with
  | VStr s, VStr s' => negb (bool_decide (s = s'))
  | _, _ => true
  end.

(** [df[df[k] != v]] *)
Definition df_where_ne (k : string) (v : pyval) (df : DataFrame pyval) : DataFrame pyval :=
  mkDF (columns df) (List.filter (fun r => py_ne (cell VNone k r) v) (records df)).

(** ** The SQLite store *)

(** A stored cell is TEXT or NULL. *)
Abbreviation sqlcell := (option pystr) (only parsing).
Abbreviation sqlrow := (list (string * option pystr)) (only parsing).
Abbreviation database := (gmap string (DataFrame (option pystr))) (only parsing).

Definition of_sql (c : sqlcell) : pyval :=
  match c with Some s => VStr s | None => VNone end.

(** Binding a Python value as an SQL parameter; only [str] and [None] bind. *)
Definition sql_bind (v : pyval) : option sqlcell :=
  match v with
  | VStr s => Some (Some s)
  | VNone => Some None
  | _ => None
  end.

Definition sql_bind_row (r : pydict) : option sqlrow :=
  mapM (fun kv => match kv with (c, v) => pair c <$> sql_bind v end) r.

(** [SELECT * FROM table]: one cell per column of the table for every
    stored row; [None] when there is no such table. *)
Definition select_all (table : string) (conn : database) : option (DataFrame (option (list N))) :=
  match conn !! table with
  | Some t => Some (mkDF (columns t) (List.map (reindex None (columns t)) (records t)))
  | None => None
  end.

(** [pd.read_sql(f'SELECT * FROM {table}', conn)]: raises when the table
    does not exist. *)
Definition read_sql (table : string) (conn : database) : result (DataFrame pyval) :=
  match select_all table conn with
  | Some t => Ok (mkDF (columns t) (List.map (List.map (prod_map id of_sql)) (records t)))
  | None => Raise DatabaseError
  end.

(** [df.to_sql(table, conn, if_exists='replace', index=False)]: the table
    is dropped and created anew with the columns of the frame, then the
    rows are inserted in one statement. A cell that does not bind makes
    the insert raise: no row of the frame is kept then, and the rows the
    table held before are gone with the dropped table. *)
Definition to_sql (table : string) (df : DataFrame pyval) (conn : database)
    : result unit * database :=
  match mapM sql_bind_row (records df) with
  | Some rs => (Ok tt, <[table := mkDF (columns df) rs]> conn)
  | None => (Raise InterfaceError, <[table := mkDF (columns df) []]> conn)
  end.

(** [update_sqlite(table, rows, url_key)] on the store [conn]: the
    outcome and the store it leaves. *)
Definition update_sqlite (table : string) (rows : list pydict) (url_key : string)
    (conn : database) : result unit * database :=
  match rows with
  | [] => (Ok tt, conn)
  | row0 :: _ =>
      let df_new := pd_DataFrame rows in
      let url_key :=
        if in_columns url_key (columns df_new) then url_key
        else match List.filter (str_contains "url") (columns df_new) with
             | col :: _ => col
             | [] => url_key
             end in
      let df_updated :=
        match read_sql table conn with
        | Ok df_existing =>
            if in_columns url_key (columns df_existing) then
              match dict_get url_key row0 with
              | Some key => pd_concat VNone (df_where_ne url_key key df_existing) df_new
              | None => df_new (* KeyError inside the try: swallowed *)
              end
            else df_new
        | Raise _ => df_new (* table does not exist yet *)
        end in
      to_sql table df_updated conn
  end.

(** ** Sequencing of fallible steps *)

#[global] Instance result_ret : MRet result := fun A a => Ok a.
#[global] Instance result_bind : MBind result := fun A B f m =>
  match m with
  | Ok a => f a
  | Raise e => Raise e
  end.
#[global] Instance result_fmap : FMap result := fun A B f m =>
  match m with
  | Ok a => Ok (f a)
  | Raise e => Raise e
  end.

(** [d[k]], raising [KeyError] on a missing key. *)
Definition getitem {V : Type} (k : string) (d : list (string * V)) : result V :=
  match dict_get k d with
  | Some v => Ok v
  | None => Raise (KeyError k)
  end.

(** ** Constants *)

Definition BASE_URL : pystr := py "https://www.gpw.pl".

Definition TABS : list (string * string) :=
  [("info", "#infoTab");
   ("quotations", "#quotationsTab");
   ("indicators", "#indicatorsTab");
   ("reports1", "#reportsTab1");
   ("reports2", "#reportsTab2");
   ("shareholders", "#shareholdersTab");
   ("notoria", "#showNotoria")].

Definition BATCH_SIZE : nat := 1.

(** ** The pydantic models *)

Module CompanyData.
Record t : Type := mk {
  url : pystr;
  isin : pystr;
  name : option pystr;
  description : option pystr;
  ticker : option pystr;
  full_name : option pystr;
  president : option pystr;
  province : option pystr;
  address : option pystr;
  phone : option pystr;
  fax : option pystr;
  website : option pystr;
  email : option pystr;
  debut_date : option pystr;
  issued_shares : option pystr;
  market_cap_mln : option pystr;
  book_value_mln : option pystr;
  price_to_book : option pystr;
  pe_ratio : option pystr;
  dividend_yield_percent : option pystr;
  index_membership : list pystr;
  last_price : option pystr;
  change : option pystr;
  bid : option pystr;
  ask : option pystr;
  min_price : option pystr;
  max_price : option pystr;
  volume : option pystr;
  turnover_value : option pystr;
  debut_price : option pystr;
  max_52w : option pystr;
  min_52w : option pystr;
  market_segment : option pystr;
  sector : option pystr
}.

(** [cd.description = description] *)
Definition set_description (d : option pystr) (c : t) : t :=
  mk (c.(url)) (c.(isin)) (c.(name)) d (c.(ticker)) (c.(full_name)) (c.(president)) (c.(province)) (c.(address)) (c.(phone)) (c.(fax)) (c.(website)) (c.(email)) (c.(debut_date)) (c.(issued_shares)) (c.(market_cap_mln)) (c.(book_value_mln)) (c.(price_to_book)) (c.(pe_ratio)) (c.(dividend_yield_percent)) (c.(index_membership)) (c.(last_price)) (c.(change)) (c.(bid)) (c.(ask)) (c.(min_price)) (c.(max_price)) (c.(volume)) (c.(turnover_value)) (c.(debut_price)) (c.(max_52w)) (c.(min_52w)) (c.(market_segment)) (c.(sector)).

Definition opt (x : option pystr) : pyval :=
  match x with Some s => VStr s | None => VNone end.

(** [cd.model_dump()]: the fields in declaration order; [url] is still
    the URL object, [index_membership] still a list. *)
Definition model_dump (c : t) : pyval :=
  VDict [
    ("url", VUrl c.(url));
    ("isin", VStr c.(isin));
    ("name", opt c.(name));
    ("description", opt c.(description));
    ("ticker", opt c.(ticker));
    ("full_name", opt c.(full_name));
    ("president", opt c.(president));
    ("province", opt c.(province));
    ("address", opt c.(address));
    ("phone", opt c.(phone));
    ("fax", opt c.(fax));
    ("website", opt c.(website));
    ("email", opt c.(email));
    ("debut_date", opt c.(debut_date));
    ("issued_shares", opt c.(issued_shares));
    ("market_cap_mln", opt c.(market_cap_mln));
    ("book_value_mln", opt c.(book_value_mln));
    ("price_to_book", opt c.(price_to_book));
    ("pe_ratio", opt c.(pe_ratio));
    ("dividend_yield_percent", opt c.(dividend_yield_percent));
    ("index_membership", VList (List.map VStr c.(index_membership)));
    ("last_price", opt c.(last_price));
    ("change", opt c.(change));
    ("bid", opt c.(bid));
    ("ask", opt c.(ask));
    ("min_price", opt c.(min_price));
    ("max_price", opt c.(max_price));
    ("volume", opt c.(volume));
    ("turnover_value", opt c.(turnover_value));
    ("debut_price", opt c.(debut_price));
    ("max_52w", opt c.(max_52w));
    ("min_52w", opt c.(min_52w));
    ("market_segment", opt c.(market_segment));
    ("sector", opt c.(sector))].
End CompanyData.

Module Report.
Record t : Type := mk {
  company_url : pystr;
  tab : pystr;
  date : pystr;
  report_url : pystr
}.

Definition model_dump (r : t) : pyval :=
  VDict [("company_url", VUrl r.(company_url));
         ("tab", VStr r.(tab));
         ("date", VStr r.(date));
         ("report_url", VUrl r.(report_url))].
End Report.

Module Shareholder.
Record t : Type := mk {
  company_url : pystr;
  shareholder : pystr;
  shares_count : pystr;
  shares_pct : pystr;
  votes_count : pystr;
  votes_pct : pystr
}.

Definition model_dump (s : t) : pyval :=
  VDict [("company_url", VUrl s.(company_url));
         ("shareholder", VStr s.(shareholder));
         ("shares_count", VStr s.(shares_count));
         ("shares_pct", VStr s.(shares_pct));
         ("votes_count", VStr s.(votes_count));
         ("votes_pct", VStr s.(votes_pct))].
End Shareholder.

Module NotoriaMetric.
Record t : Type := mk {
  company_url : pystr;
  metric : pystr;
  value : pystr
}.

Definition model_dump (n : t) : pyval :=
  VDict [("company_url", VUrl n.(company_url));
         ("metric", VStr n.(metric));
         ("value", VStr n.(value))].
End NotoriaMetric.

(** ** The libraries the extractors call *)

(** BeautifulSoup with the html.parser backend: a parsed document and its
    elements are [tag]s. *)
Class Soup : Type := {
  tag : Type;
  (** [BeautifulSoup(html, 'html.parser')] *)
  BeautifulSoup : pystr -> tag;
  (** [t.select(css)], in document order *)
  select : tag -> string -> list tag;
  (** [t.find(name)] *)
  find : tag -> string -> option tag;
  (** [t.text] *)
  text : tag -> pystr;
  (** [t.get_text(strip=True)] *)
  get_text_strip : tag -> pystr;
  (** [t[attr]] *)
  attr : tag -> string -> option pystr
}.

(** pydantic's [HttpUrl]: [None] when validation fails, else the [str()]
    of the validated URL. *)
Class Pydantic : Type := {
  HttpUrl : pystr -> option pystr
}.

Section Extractors.
Context {soup_lib : Soup} {pydantic_lib : Pydantic}.

(** [t.select_one(css)]: the first match. *)
Definition select_one (t : tag) (css : string) : option tag :=
  head (select t css).

Definition validate_url (u : pystr) : result pystr :=
  match HttpUrl u with
  | Some u' => Ok u'
  | None => Raise ValidationError
  end.

Definition get_text_from (soup : tag) (selector label_contains : string) : option pystr :=
  match select_one soup
          (selector +:+ " tr:has(th:-soup-contains('" +:+ label_contains +:+ "')) td") with
  | Some row => Some (str_replace NBSP SPACE (get_text_strip row))
  | None => None
  end.

Definition parse_core (html url : pystr) : result CompanyData.t :=
  let soup := BeautifulSoup html in
  indicators ← getitem "indicators" TABS;
  info ← getitem "info" TABS;
  quo ← getitem "quotations" TABS;
  let qs := select soup (quo +:+ " tr:has(th:-soup-contains('Przynale≈ºno≈õƒá do indeksu')) td a") in
  let indexes := List.map get_text_strip qs in
  u ← validate_url url;
  mret {|
        CompanyData.url := u;
        CompanyData.isin := or_empty (get_text_from soup indicators "ISIN");
        CompanyData.name := get_text_from soup info "Nazwa:";
        CompanyData.description := None;
        CompanyData.ticker := get_text_from soup info "Skr√≥t:";
        CompanyData.full_name := get_text_from soup info "Nazwa pe≈Çna:";
        CompanyData.president := get_text_from soup info "Prezes ZarzƒÖdu:";
        CompanyData.province := get_text_from soup info "Wojew√≥dztwo:";
        CompanyData.address := get_text_from soup info "Adres siedziby:";
        CompanyData.phone := get_text_from soup info "Numer telefonu:";
        CompanyData.fax := get_text_from soup info "Numer faksu:";
        CompanyData.website := get_text_from soup info "Strona www:";
        CompanyData.email := get_text_from soup info "E-mail:";
        CompanyData.debut_date := get_text_from soup info "Na gie≈Çdzie od:";
        CompanyData.issued_shares := get_text_from soup indicators "Liczba wyemitowanych akcji";
        CompanyData.market_cap_mln := get_text_from soup indicators "Warto≈õƒá rynkowa";
        CompanyData.book_value_mln := get_text_from soup indicators "Warto≈õƒá ksiƒôgowa";
        CompanyData.price_to_book := get_text_from soup indicators "C/WK";
        CompanyData.pe_ratio := get_text_from soup indicators "C/Z";
        CompanyData.dividend_yield_percent := get_text_from soup indicators "Stopa dywidendy";
        CompanyData.index_membership := indexes;
        CompanyData.last_price := get_text_from soup quo "Kurs ostatni";
        CompanyData.change := get_text_from soup quo "Zmiana";
        CompanyData.bid := get_text_from soup quo "Oferta kupna";
        CompanyData.ask := get_text_from soup quo "Oferta sprzeda≈ºy";
        CompanyData.min_price := get_text_from soup quo "Min.";
        CompanyData.max_price := get_text_from soup quo "Max.";
        CompanyData.volume := get_text_from soup quo "Wol. obrotu";
        CompanyData.turnover_value := get_text_from soup quo "Wart. obrotu";
        CompanyData.debut_price := get_text_from soup quo "Data i kurs debiutu";
        CompanyData.max_52w := get_text_from soup quo "Max historyczny";
        CompanyData.min_52w := get_text_from soup quo "Min historyczny";
        CompanyData.market_segment := get_text_from soup indicators "Rynek/Segment";
        CompanyData.sector := get_text_from soup indicators "Sektor"
  |}.

(** The loop of [extract_reports] over the selected rows. *)
Fixpoint extract_reports_rows (rows : list tag) (tab_key : string) (url : pystr)
    : result (list Report.t) :=
  match rows with
  | [] => mret []
  | row :: rows' =>
      match select_one row "td:nth-of-type(1) a[href^='komunikat']" with
      | None => extract_reports_rows rows' tab_key url
      | Some date_a =>
          if bool_decide (strip (text date_a) = py "Data")
          then extract_reports_rows rows' tab_key url
          else
            href ← match attr date_a "href" with
                   | Some h => Ok h
                   | None => Raise (KeyError "href")
                   end;
            cu ← validate_url url;
            ru ← validate_url (BASE_URL ++ py "/" ++ href);
            out ← extract_reports_rows rows' tab_key url;
            mret ({| Report.company_url := cu;
                     Report.tab := py tab_key;
                     Report.date := strip (text date_a);
                     Report.report_url := ru |} :: out)
      end
  end.

Definition extract_reports (soup : tag) (tab_key : string) (url : pystr)
    : result (list Report.t) :=
  tab ← getitem tab_key TABS;
  let rows := select soup (tab +:+ " table tbody tr") in
  extract_reports_rows rows tab_key url.

(** The loop of [extract_shareholders]. *)
Fixpoint extract_shareholders_rows (rows : list tag) (url : pystr)
    : result (list Shareholder.t) :=
  match rows with
  | [] => mret []
  | row :: rows' =>
      match find row "th" with
      | Some _ => extract_shareholders_rows rows' url
      | None =>
          match select row "td" with
          | c0 :: c1 :: c2 :: c3 :: c4 :: _ =>
              cu ← validate_url url;
              out ← extract_shareholders_rows rows' url;
              mret ({| Shareholder.company_url := cu;
                       Shareholder.shareholder := strip (text c0);
                       Shareholder.shares_count := str_replace NBSP SPACE (strip (text c1));
                       Shareholder.shares_pct := strip (text c2);
                       Shareholder.votes_count := str_replace NBSP SPACE (strip (text c3));
                       Shareholder.votes_pct := strip (text c4) |} :: out)
          | _ => extract_shareholders_rows rows' url (* len(cells) < 5 *)
          end
      end
  end.

Definition extract_shareholders (soup : tag) (url : pystr) : result (list Shareholder.t) :=
  tab ← getitem "shareholders" TABS;
  extract_shareholders_rows (select soup (tab +:+ " table tbody tr")) url.

(** The loop of [extract_notoria]. *)
Fixpoint extract_notoria_rows (rows : list tag) (url : pystr)
    : result (list NotoriaMetric.t) :=
  match rows with
  | [] => mret []
  | row :: rows' =>
      match find row "th", find row "td" with
      | Some th, Some td =>
          cu ← validate_url url;
          out ← extract_notoria_rows rows' url;
          mret ({| NotoriaMetric.company_url := cu;
                   NotoriaMetric.metric := strip (text th);
                   NotoriaMetric.value := str_replace NBSP SPACE (strip (text td)) |} :: out)
      | _, _ => extract_notoria_rows rows' url
      end
  end.

Definition extract_notoria (soup : tag) (url : pystr) : result (list NotoriaMetric.t) :=
  tab ← getitem "notoria" TABS;
  extract_notoria_rows (select soup (tab +:+ " table tbody tr")) url.
End Extractors.

(** ** Stateful, fallible computations *)

(** A computation over a state [S] that returns or raises; the state it
    leaves behind is kept in both cases. *)
Definition St (S A : Type) : Type := S -> result A * S.

#[global] Instance St_ret {S : Type} : MRet (St S) := fun A a s => (Ok a, s).
#[global] Instance St_bind {S : Type} : MBind (St S) := fun A B f m s =>
  match m s with
  | (Ok a, s') => f a s'
  | (Raise e, s') => (Raise e, s')
  end.

Definition raise {S A : Type} (e : exn) : St S A := fun s => (Raise e, s).
Definition lift {S A : Type} (r : result A) : St S A := fun s => (r, s).
Definition gets {S A : Type} (f : S -> A) : St S A := fun s => (Ok (f s), s).
Definition modify {S : Type} (f : S -> S) : St S unit := fun s => (Ok tt, f s).

(** [try: body  except Exception as e: handler(e)] *)
Definition try_except {S A : Type} (body : St S A) (handler : exn -> St S A) : St S A :=
  fun s =>
    match body s with
    | (Ok a, s') => (Ok a, s')
    | (Raise e, s') => handler e s'
    end.

(** [try: body  finally: final]: an exception of [final] replaces the
    outcome of [body]. *)
Definition try_finally {S A : Type} (body : St S A) (final : St S unit) : St S A :=
  fun s =>
    match body s with
    | (r, s') =>
        match final s' with
        | (Ok _, s'') => (r, s'')
        | (Raise e, s'') => (Raise e, s'')
        end
    end.

(** What a [finally] block that ended as [rc] makes of the outcome [r] of
    its [try]. *)
Definition closing {A : Type} (rc : result unit) (r : result A) : result A :=
  match rc with
  | Ok _ => r
  | Raise e => Raise e
  end.

(** ** Extraction and persistence for one company *)

Definition as_dict (v : pyval) : pydict :=
  match v with VDict d => d | _ => [] end.

(** [tab_html[key]] *)
Definition tab_get (tab_html : gmap string (list N)) (key : string) : result pystr :=
  match tab_html !! key with
  | Some html => Ok html
  | None => Raise (KeyError key)
  end.

(** The row lists [process_company_data] builds before it writes. *)
Record CompanyTables : Type := {
  company_data : list pydict;
  reports_data : list pydict;
  shareholders_data : list pydict;
  notoria_data : list pydict
}.

Section Pipeline.
Context {soup_lib : Soup} {pydantic_lib : Pydantic}.

(** The first half of [process_company_data]: everything up to the
    progress line. *)
Definition extract_company_data (url : pystr) (tab_html : gmap string (list N))
    (description : option pystr) : result (CompanyData.t * CompanyTables) :=
  info ← tab_get tab_html "info";
  indicators ← tab_get tab_html "indicators";
  quotations ← tab_get tab_html "quotations";
  let merged_html := info ++ indicators ++ quotations in
  cd ← parse_core merged_html url;
  let cd := CompanyData.set_description description cd in
  let company := [as_dict (to_serializable (CompanyData.model_dump cd))] in
  html1 ← tab_get tab_html "reports1";
  reps1 ← extract_reports (BeautifulSoup html1) "reports1" url;
  html2 ← tab_get tab_html "reports2";
  reps2 ← extract_reports (BeautifulSoup html2) "reports2" url;
  let reports :=
    List.map (fun r => as_dict (to_serializable (Report.model_dump r))) (reps1 ++ reps2) in
  htmls ← tab_get tab_html "shareholders";
  shs ← extract_shareholders (BeautifulSoup htmls) url;
  let shareholders :=
    List.map (fun s => as_dict (to_serializable (Shareholder.model_dump s))) shs in
  htmln ← tab_get tab_html "notoria";
  nts ← extract_notoria (BeautifulSoup htmln) url;
  let notoria :=
    List.map (fun n => as_dict (to_serializable (NotoriaMetric.model_dump n))) nts in
  mret (cd, {| company_data := company; reports_data := reports;
               shareholders_data := shareholders; notoria_data := notoria |}).

Definition process_company_data (url : pystr) (tab_html : gmap string (list N))
    (description : option pystr) : St database unit :=
  x ← lift (extract_company_data url tab_html description);
  let cd := x.1 in
  let tables := x.2 in
  (* the progress line slices [cd.description[:30]] *)
  match CompanyData.description cd with
  | None => raise TypeError
  | Some _ => mret tt
  end;;
  update_sqlite "company_company" (company_data tables) "url";;
  update_sqlite "company_reports" (reports_data tables) "company_url";;
  update_sqlite "company_shareholders" (shareholders_data tables) "company_url";;
  update_sqlite "company_notoria" (notoria_data tables) "company_url".
End Pipeline.

(** ** The scrape log *)

(** A [datetime], in microseconds since the epoch. *)
Abbreviation datetime := Z (only parsing).

(** [timedelta(days=1)] *)
Definition one_day : Z := 86400 * 1000000.

(** [timedelta(hours=n)] *)
Definition hours (n : Z) : Z := n * 3600 * 1000000.

(** A time in the [last_scraped] column of [scrape_log.csv], as [to_csv]
    prints it: to the second when the print has no fraction, to the
    microsecond when it has one. *)
Inductive stamp : Type :=
  | Seconds (s : Z)  (* [2024-05-10 17:05:00] *)
  | Micros (t : Z).  (* [2024-05-10 17:05:00.250000] *)

Definition stamp_time (s : stamp) : Z :=
  match s with
  | Seconds s => s * 1000000
  | Micros t => t
  end.

(** [str(t)] of a time: the fraction is printed unless it is zero. *)
Definition str_of_time (t : Z) : stamp :=
  if t mod 1000000 =? 0 then Seconds (t / 1000000) else Micros t.

(** A value of the [scrape_log] dict: a time, or the text of one that
    [read_csv] left unparsed. *)
Inductive logval : Type :=
  | Time (t : Z)
  | Text (s : stamp).

Definition logval_time (v : logval) : Z :=
  match v with
  | Time t => t
  | Text s => stamp_time s
  end.

Definition is_time (v : logval) : bool :=
  match v with
  | Time _ => true
  | Text _ => false
  end.

(** The rows of [scrape_log.csv] under its header: [(url, last_scraped)]. *)
Abbreviation log_rows := (list (list N * stamp)) (only parsing).

Definition same_format (a b : stamp) : bool :=
  match a, b with
  | Seconds _, Seconds _ => true
  | Micros _, Micros _ => true
  | _, _ => false
  end.

(** Whether [read_csv(parse_dates=["last_scraped"])] makes times of the
    column: the format is taken from the first row and every row has to
    be in it. Otherwise the column stays text; a file without rows gives
    a column of objects too. *)
Definition parses (rows : log_rows) : bool :=
  match rows with
  | [] => false
  | row :: rest => forallb (fun r => same_format row.2 r.2) rest
  end.

(** The frame [read_csv] returns. *)
Definition read_log (rows : log_rows) : list (list N * logval) :=
  if parses rows
  then List.map (fun row => (row.1, Time (stamp_time row.2))) rows
  else List.map (fun row => (row.1, Text row.2)) rows.

(** [load_scrape_log()] on the file (absent: [None]): a later row of the
    same url wins. *)
Definition load_scrape_log (file : option log_rows) : gmap (list N) logval :=
  match file with
  | None => ∅
  | Some rows => fold_left (fun log row => <[row.1 := row.2]> log) (read_log rows) ∅
  end.

(** What [to_csv] prints for a value in a column of objects, *)
Definition print_value (v : logval) : stamp :=
  match v with
  | Time t => str_of_time t
  | Text s => s
  end.

(** and for a column of times, where one format serves the whole column:
    with the fraction when some time has one. *)
Definition print_times (rows : list (list N * Z)) : log_rows :=
  let fraction := existsb (fun row => negb (row.2 mod 1000000 =? 0)) rows in
  List.map (fun row => (row.1, if fraction then Micros row.2 else Seconds (row.2 / 1000000)))
           rows.

(** [save_scrape_log(log)]: the new content of the file. Indexing the
    ["url"] column of an empty frame raises. The entries of [log] are
    written in the order of the map. The column of the written frame is a
    column of times when the file was read as times and every value of
    [log] is a time; in every other case (no file, a file read as text, a
    text among the values) it is a column of objects, printed value by
    value. *)
Definition save_scrape_log (log : gmap (list N) logval) (file : option log_rows)
    : result (option log_rows) :=
  let stored := match file with Some rows => rows | None => [] end in
  let df_existing := read_log stored in
  let df_new := map_to_list log in
  match df_new with
  | [] => Raise (KeyError "url")
  | _ =>
      let urls_to_update := List.map fst df_new in
      let df_existing :=
        List.filter (fun row => negb (bool_decide (row.1 ∈ urls_to_update))) df_existing in
      let df_updated := df_existing ++ df_new in
      if parses stored && forallb (fun row => is_time row.2) df_new
      then Ok (Some (print_times (List.map (fun row => (row.1, logval_time row.2)) df_updated)))
      else Ok (Some (List.map (fun row => (row.1, print_value row.2)) df_updated))
  end.

(** [last and last > skip_threshold], for [last = scrape_log.get(url)]:
    a text does not compare with a [datetime]. *)
Definition recently_scraped (last : option logval) (skip_threshold : Z) : result bool :=
  match last with
  | Some (Time t) => Ok (bool_decide (skip_threshold < t))
  | Some (Text _) => Raise TypeError
  | None => Ok false
  end.

(** ** The browser and the task *)

(** The outside of the program: the headless browser with the page of the
    running task, the remote site, and the wall clock. Every call may
    change it; a page call returns or raises. *)
Class Env : Type := {
  env : Type;
  (** [context.new_page()] *)
  new_page : St env unit;
  (** [page.goto(url, timeout=ms)] *)
  goto : list N -> Z -> St env unit;
  (** [page.locator(sel).inner_text(timeout=ms)] *)
  inner_text : string -> Z -> St env (list N);
  (** [page.click(sel, timeout=ms)] *)
  click : string -> Z -> St env unit;
  (** [page.wait_for_selector(sel, timeout=ms)] *)
  wait_for_selector : string -> Z -> St env unit;
  (** [page.content()] *)
  content : St env (list N);
  (** [page.close()] *)
  close : St env unit;
  (** [datetime.now()] *)
  datetime_now : env -> Z * env
}.

(** The page calls a run makes, in order. *)
Inductive event : Type :=
  | NewPage
  | Goto (url : list N)
  | InnerText (selector : string)
  | Click (selector : string)
  | WaitForSelector (selector : string)
  | Content
  | Close.

(** The selectors clicked, in order. *)
Definition clicks (trace : list event) : list string :=
  flat_map (fun ev => match ev with Click selector => [selector] | _ => [] end) trace.

Definition dquote : string := String (ascii_of_nat 34) EmptyString.

Definition tab_selectors : list (string * string) :=
  [("indicators", "#indicatorsTab table");
   ("quotations", "#quotationsTab table");
   ("reports1", "#reportsTab1 table");
   ("reports2", "#reportsTab2 table");
   ("shareholders", "#shareholdersTab table");
   ("notoria", "#showNotoria table")].

(** [f'a.nav-link[href="{tab}"]'] *)
Definition nav_link (tab : string) : string :=
  "a.nav-link[href=" +:+ dquote +:+ tab +:+ dquote +:+ "]".

Definition description_selector : string :=
  "div.comapny-description > div:nth-child(2)".

Definition tab_order : list string :=
  ["indicators"; "quotations"; "reports1"; "reports2"; "shareholders"; "notoria"].

Section Task.
Context {soup_lib : Soup} {pydantic_lib : Pydantic} {outside : Env}.

Record world : Type := mkWorld {
  w_env : env;
  (** the page calls made so far *)
  w_trace : list event;
  (** the SQLite file *)
  w_conn : gmap string (DataFrame (option (list N)));
  (** [scrape_log.csv] *)
  w_log_file : option (list (list N * stamp));
  (** the [scrape_log] dict every task of the batch shares *)
  w_scrape_log : gmap (list N) logval
}.

(** The world after page calls [evs] that left the outside at [e]. *)
Definition with_env (e : env) (evs : list event) (w : world) : world :=
  mkWorld e (w_trace w ++ evs) (w_conn w) (w_log_file w) (w_scrape_log w).

(** A computation that leaves the log alone, in memory and on disk. *)
Definition keeps_log {A : Type} (m : St world A) : Prop :=
  forall w r w', m w = (r, w') ->
    w_scrape_log w' = w_scrape_log w /\ w_log_file w' = w_log_file w.

(** A page call, recorded in the trace. *)
Definition page_call {A : Type} (ev : event) (op : St env A) : St world A :=
  fun w =>
    match op (w_env w) with
    | (r, e') =>
        (r, mkWorld e' (w_trace w ++ [ev]) (w_conn w) (w_log_file w) (w_scrape_log w))
    end.

Definition now : St world Z :=
  fun w =>
    match datetime_now (w_env w) with
    | (t, e') => (Ok t, mkWorld e' (w_trace w) (w_conn w) (w_log_file w) (w_scrape_log w))
    end.

Definition with_conn {A : Type} (m : St (gmap string (DataFrame (option (list N)))) A)
    : St world A :=
  fun w =>
    match m (w_conn w) with
    | (r, conn') =>
        (r, mkWorld (w_env w) (w_trace w) conn' (w_log_file w) (w_scrape_log w))
    end.

(** [scrape_log[url] = t] *)
Definition scrape_log_set (url : pystr) (t : Z) : St world unit :=
  modify (fun w =>
    mkWorld (w_env w) (w_trace w) (w_conn w) (w_log_file w)
            (<[url := Time t]> (w_scrape_log w))).

(** [save_scrape_log(scrape_log)] *)
Definition save_log : St world unit :=
  fun w =>
    match save_scrape_log (w_scrape_log w) (w_log_file w) with
    | Ok file' =>
        (Ok tt, mkWorld (w_env w) (w_trace w) (w_conn w) file' (w_scrape_log w))
    | Raise e => (Raise e, w)
    end.

Definition extract_description_async : St world pystr :=
  s ← page_call (InnerText description_selector) (inner_text description_selector 3000);
  mret (strip s).

(** One turn of the loop of [collect_tab_html_async]. *)
Definition collect_tab (tab_html : gmap string (list N)) (tab_key : string)
    : St world (gmap string (list N)) :=
  tab ← lift (getitem tab_key TABS);
  let selector := nav_link tab in
  try_except
    (page_call (Click selector) (click selector 15000);;
     table ← lift (getitem tab_key tab_selectors);
     page_call (WaitForSelector table) (wait_for_selector table 5000);;
     html ← page_call Content content;
     mret (<[tab_key := html]> tab_html))
    (fun _ =>
       html ← page_call Content content;
       mret (<[tab_key := html]> tab_html)).

Fixpoint collect_tabs (tab_html : gmap string (list N)) (keys : list string)
    : St world (gmap string (list N)) :=
  match keys with
  | [] => mret tab_html
  | tab_key :: keys' =>
      tab_html' ← collect_tab tab_html tab_key;
      collect_tabs tab_html' keys'
  end.

Definition collect_tab_html_async : St world (gmap string (list N)) :=
  info ← page_call Content content;
  collect_tabs {["info" := info]} tab_order.

(** The first four statements under [try] in [scrape_url_async]:
    navigation, description, tabs, extraction and persistence. *)
Definition scrape_steps (url : pystr) : St world unit :=
  page_call (Goto url) (goto url 30000);;
  description ← extract_description_async;
  tab_html ← collect_tab_html_async;
  with_conn (process_company_data url tab_html (Some description)).

(** The next two: [scrape_log[url] = datetime.now()] and
    [save_scrape_log(scrape_log)]. *)
Definition mark_scraped (url : pystr) : St world unit :=
  t ← now;
  scrape_log_set url t;;
  save_log.

(** The task of one company. The semaphore of [BATCH_SIZE = 1] admits
    one task at a time, so a task runs from start to end on the world.
    The skip check stands before [try]: what it raises leaves the task. *)
Definition scrape_url_async (url : pystr) (skip_threshold : Z) : St world (list N * bool) :=
  last ← gets (fun w => w_scrape_log w !! url);
  skip ← lift (recently_scraped last skip_threshold);
  if skip : bool then mret (url, false)
  else
    page_call NewPage new_page;;
    try_finally
      (try_except
         (scrape_steps url;;
          mark_scraped url;;
          mret (url, true))
         (fun _ => mret (url, false)))
      (page_call Close close).

(** What awaiting [asyncio.gather] over the tasks comes to. Either every task has
    returned: the outcomes in the order of the urls, and the world the
    last task left. Or a task has raised: [gather] hands the exception
    to its awaiter and stops no task. [Raised e rs w pending] holds the
    exception, the outcomes [rs] of the tasks before, and the world [w]
    as the raising task left it; the tasks of [pending] are still
    scheduled then, and the first of them goes on from [w] as soon as
    the semaphore is free, before the exception is delivered. What they
    do from there, while the browser is shut down under them, is not
    part of this model. *)
Inductive gathered : Type :=
  | Returned (rs : list (list N * bool)) (w : world)
  | Raised (e : exn) (rs : list (list N * bool)) (w : world) (pending : list (list N)).

(** One more outcome in front. *)
Definition and_then (r : list N * bool) (g : gathered) : gathered :=
  match g with
  | Returned rs w => Returned (r :: rs) w
  | Raised e rs w pending => Raised e (r :: rs) w pending
  end.

(** The tasks run one at a time, in the order of the urls. *)
Fixpoint gather (urls : list (list N)) (skip_threshold : Z) (w : world) : gathered :=
  match urls with
  | [] => Returned [] w
  | url :: urls' =>
      match scrape_url_async url skip_threshold w with
      | (Ok r, w') => and_then r (gather urls' skip_threshold w')
      | (Raise e, w') => Raised e [] w' urls'
      end
  end.

(** [scrape_all_async()] for the urls read from [URLS_FILE]: the log is
    loaded, the clock is read once, and the tasks are gathered. *)
Definition scrape_all_async (urls : list (list N)) (w : world) : gathered :=
  let log := load_scrape_log (w_log_file w) in
  match datetime_now (w_env w) with
  | (t, e') =>
      let skip_threshold := t - one_day in
      gather urls skip_threshold (mkWorld e' (w_trace w) (w_conn w) (w_log_file w) log)
  end.
End Task.

(** ** A small site to run the program on

    One implementation of each interface, used where a statement is
    evaluated on a concrete run. The simulated page shows, after a
    successful click, a document that names the clicked tab; the simulated
    parser finds one shareholder row, one report row and one metric row in
    the documents that name the matching tab, and nothing elsewhere. *)
Module Sim.

(** [needle in hay] on text. *)
Fixpoint starts_with (needle hay : pystr) : bool :=
  match needle, hay with
  | [], _ => true
  | c :: needle', d :: hay' => N.eqb c d && starts_with needle' hay'
  | _ :: _, [] => false
  end.

Fixpoint contains (needle hay : pystr) : bool :=
  starts_with needle hay
  || match hay with
     | [] => false
     | _ :: hay' => contains needle hay'
     end.

Inductive node : Type :=
  | Doc (html : pystr)
  | ShareholderRow (cells : list pystr)
  | ReportRow (date href : pystr)
  | MetricRow (th td : pystr)
  | Cell (s : pystr)
  | Anchor (s href : pystr).

(** ["Jan\xa0Kowalski"], [" 1\xa0000 "], ... : the cells of the one
    shareholder row, as the site formats them. *)
Definition shareholder_cells : list pystr :=
  [py "Jan" ++ [NBSP] ++ py "Kowalski";
   py " 1" ++ [NBSP] ++ py "000 ";
   py "10,00" ++ [NBSP] ++ py "%";
   py "1" ++ [NBSP] ++ py "000";
   py "10,00" ++ [NBSP] ++ py "%"].

Definition sim_select (t : node) (css : string) : list node :=
  match t with
  | Doc html =>
      if String.eqb css "#shareholdersTab table tbody tr"
         && contains (py "#shareholdersTab") html
      then [ShareholderRow shareholder_cells]
      else if String.eqb css "#reportsTab1 table tbody tr"
              && contains (py "#reportsTab1") html
      then [ReportRow (py "Data") (py "komunikat?id=0");
            ReportRow (py " 2024-05-10" ++ [NBSP] ++ py "17:05 ") (py "komunikat?id=17")]
      else if String.eqb css "#showNotoria table tbody tr"
              && contains (py "#showNotoria") html
      then [MetricRow (py "Zysk" ++ [NBSP] ++ py "netto") (py "12" ++ [NBSP] ++ py "500")]
      else []
  | ShareholderRow cells => if String.eqb css "td" then List.map Cell cells else []
  | ReportRow date href =>
      if String.eqb css "td:nth-of-type(1) a[href^='komunikat']"
      then [Anchor date href] else []
  | _ => []
  end.

Definition sim_find (t : node) (name : string) : option node :=
  match t with
  | MetricRow th td =>
      if String.eqb name "th" then Some (Cell th)
      else if String.eqb name "td" then Some (Cell td) else None
  | _ => None
  end.

Definition sim_text (t : node) : pystr :=
  match t with
  | Cell s => s
  | Anchor s _ => s
  | _ => []
  end.

Definition sim_attr (t : node) (a : string) : option pystr :=
  match t with
  | Anchor _ href => if String.eqb a "href" then Some href else None
  | _ => None
  end.

#[export] Instance soup : Soup := {|
  tag := node;
  BeautifulSoup := Doc;
  select := sim_select;
  find := sim_find;
  text := sim_text;
  get_text_strip := fun t => strip (sim_text t);
  attr := sim_attr
|}.

(** Accepts what starts with [http], unchanged. *)
#[export] Instance pydantic : Pydantic := {|
  HttpUrl := fun u => if starts_with (py "http") u then Some u else None
|}.

(** The simulated outside: the clock, the document the page shows, and
    the calls that are set to fail (a selector, or the name of a call).
    Reading the content of the page never fails. *)
Record state : Type := mkState {
  clock : Z;
  shown : pystr;
  failing : list string
}.

Definition fails (what : string) (s : state) : bool :=
  existsb (String.eqb what) (failing s).

Definition call {A : Type} (what : string) (e : exn) (ok : state -> A * state)
    : St state A :=
  fun s =>
    if fails what s then (Raise e, s)
    else match ok s with (a, s') => (Ok a, s') end.

#[export] Instance outside : Env := {|
  env := state;
  new_page := call "new_page" PlaywrightError (fun s => (tt, s));
  goto := fun url _ =>
    call "goto" TimeoutError
         (fun s => (tt, mkState (clock s) (py "<html>#infoTab</html>") (failing s)));
  inner_text := fun sel _ =>
    call sel TimeoutError (fun s => (py "  Spolka testowa  ", s));
  click := fun sel _ =>
    call sel TimeoutError
         (fun s => (tt, mkState (clock s) (py "<html>" ++ py sel ++ py "</html>") (failing s)));
  wait_for_selector := fun sel _ =>
    call sel TimeoutError (fun s => (tt, s));
  content := fun s => (Ok (shown s), s);
  close := call "close" PlaywrightError (fun s => (tt, s));
  datetime_now := fun s => (clock s, mkState (clock s + 1000000) (shown s) (failing s))
|}.

(** A world that starts at time [t] with the given failures, files and
    in-memory log. *)
Definition start (t : Z) (failing : list string)
    (conn : gmap string (DataFrame (option (list N))))
    (file : option (list (list N * stamp))) (log : gmap (list N) logval) : world :=
  mkWorld (mkState t [] failing) [] conn file log.

Definition ABC : pystr := py "https://www.gpw.pl/spolka?isin=ABC".

(** A world whose page has loaded the company document. *)
Definition loaded (t : Z) (failing : list string) : world :=
  mkWorld (mkState t (py "<html>#infoTab</html>") failing) [] ∅ None ∅.

Definition XYZ : pystr := py "https://www.gpw.pl/spolka?isin=XYZ".

(** Noon of some day, in microseconds. *)
Definition noon : Z := 1700000000000000.

(** A world at noon with empty store, no log file and an empty log. *)
Definition clean_start (failing : list string) : world :=
  start noon failing ∅ None ∅.

Definition every_tab_link : list string :=
  List.map nav_link
    ["#indicatorsTab"; "#quotationsTab"; "#reportsTab1"; "#reportsTab2";
     "#shareholdersTab"; "#showNotoria"].

(** The snapshots of a page on which the shareholders tab shows its
    table and the other tabs show the landing document. *)
Definition partial_bundle : gmap string (list N) :=
  list_to_map
    [("info", py "<html>#infoTab</html>");
     ("indicators", py "<html>#infoTab</html>");
     ("quotations", py "<html>#infoTab</html>");
     ("reports1", py "<html>#infoTab</html>");
     ("reports2", py "<html>#infoTab</html>");
     ("shareholders", py "<html>#shareholdersTab</html>");
     ("notoria", py "<html>#infoTab</html>")].
End Sim.

(** ** Reading the store *)

(** The rows and the columns a [SELECT *] on [table] returns; nothing when
    there is no such table. *)
Definition rows_of (table : string) (conn : database) : list sqlrow :=
  match select_all table conn with
  | Some t => records t
  | None => []
  end.

Definition columns_of (table : string) (conn : database) : list string :=
  match select_all table conn with
  | Some t => columns t
  | None => []
  end.

(** The rows whose cell under [k] is the text [X], and the others. *)
Definition keyed (k : string) (X : pystr) (rows : list sqlrow) : list sqlrow :=
  List.filter (fun r => bool_decide (cell None k r = Some X)) rows.

Definition not_keyed (k : string) (X : pystr) (rows : list sqlrow) : list sqlrow :=
  List.filter (fun r => negb (bool_decide (cell None k r = Some X))) rows.

(** The rows [update_sqlite] keeps and the columns it writes, for a key
    column [k], a key [X] and the columns of the new rows. *)
Definition survivors (table k : string) (X : list N)
    (conn : gmap string (DataFrame (option (list N)))) : list (list (string * option (list N))) :=
  if in_columns k (columns_of table conn) then not_keyed k X (rows_of table conn) else [].

Definition columns_after (table k : string) (new_columns : list string)
    (conn : gmap string (DataFrame (option (list N)))) : list string :=
  if in_columns k (columns_of table conn)
  then add_columns (columns_of table conn) new_columns
  else new_columns.

(** Replace-by-key as the specification words it: every stored row whose
    key is the key of some row of [new] goes, then [new] is appended. *)
Definition replace_by_key (k : string) (stored new : list sqlrow) : list sqlrow :=
  List.filter
    (fun r => negb (existsb (fun n => bool_decide (cell None k r = cell None k n)) new))
    stored
  ++ new.

(** ** Sample stores and record sets *)
Module Samples.
Definition X : pystr := py "https://www.gpw.pl/spolka?isin=XXX".
Definition Y : pystr := py "https://www.gpw.pl/spolka?isin=YYY".

Definition holder (company name : pystr) : sqlrow :=
  [("company_url", Some company); ("shareholder", Some name)].

Definition holder_dict (company name : pystr) : pydict :=
  [("company_url", VStr company); ("shareholder", VStr name)].

(** [company_shareholders] holding two rows of [X] and one of [Y]. *)
Definition seeded : database :=
  {[ "company_shareholders" :=
       mkDF ["company_url"; "shareholder"]
            [holder X (py "Fund A"); holder X (py "Fund B"); holder Y (py "Fund C")] ]}.

(** A new scrape of [X] with one shareholder left. *)
Definition one_holder : list pydict := [holder_dict X (py "Fund A")].

(** A record set that carries two keys. *)
Definition two_keys : list pydict :=
  [holder_dict X (py "Fund A"); holder_dict Y (py "Fund D")].

(** The rows of the table once [update_sqlite] returned. *)
Definition rows_after (table : string) (r : result unit * database)
    : option (list sqlrow) :=
  match r with
  | (Ok _, conn) => Some (rows_of table conn)
  | (Raise _, _) => None
  end.
End Samples.

(** The company record of a page on which no selector matches: the url,
    an empty [isin], the description, and nothing else. *)
Definition blank_company (u : pystr) (description : option pystr) : CompanyData.t :=
  CompanyData.mk u [] None description None None None None None None None None None None None None None None None None [] None None None None None None None None None None None None None.

Definition bundle_keys : list string :=
  ["info"; "indicators"; "quotations"; "reports1"; "reports2"; "shareholders"; "notoria"].


(** ** Values, once more *)

(** Whether a URL object is left anywhere in a value. *)
Fixpoint has_url (v : pyval) : bool :=
  match v with
  | VUrl _ => true
  | VList l => existsb has_url l
  | VDict d => existsb (fun kv => has_url kv.2) d
  | _ => false
  end.

(** Induction on values, through the lists and dicts they nest. *)
Fixpoint pyval_nested_ind (P : pyval -> Prop)
    (HNone : P VNone) (HStr : forall s, P (VStr s)) (HUrl : forall u, P (VUrl u))
    (HList : forall l, Forall P l -> P (VList l))
    (HDict : forall d, Forall (fun kv : string * pyval => P kv.2) d -> P (VDict d))
    (v : pyval) {struct v} : P v :=
  match v with
  | VNone => HNone
  | VStr s => HStr s
  | VUrl u => HUrl u
  | VList l =>
      HList l
        ((fix go (l : list pyval) : Forall P l :=
            match l with
            | [] => @List.Forall_nil _ P
            | x :: l' =>
                @List.Forall_cons _ P x l'
                  (pyval_nested_ind P HNone HStr HUrl HList HDict x) (go l')
            end) l)
  | VDict d =>
      HDict d
        ((fix go (d : list (string * pyval)) : Forall (fun kv => P kv.2) d :=
            match d with
            | [] => @List.Forall_nil _ (fun kv => P kv.2)
            | kv :: d' =>
                @List.Forall_cons _ (fun kv => P kv.2) kv d'
                  (pyval_nested_ind P HNone HStr HUrl HList HDict kv.2) (go d')
            end) d)
  end.

(** The four tables the pipeline writes. *)
Definition pipeline_tables : list string :=
  ["company_company"; "company_reports"; "company_shareholders"; "company_notoria"].

(** The key column of each of them. *)
Definition pipeline_keys : list (string * string) :=
  [("company_company", "url");
   ("company_reports", "company_url");
   ("company_shareholders", "company_url");
   ("company_notoria", "company_url")].

(** A computation that leaves the SQLite file alone. *)
Definition keeps_conn `{Env} {A : Type} (m : St world A) : Prop :=
  forall w r w', m w = (r, w') -> w_conn w' = w_conn w.

(** ** A browser that has lost its page

    Every page call raises; the state counts the calls made. *)
Module Offline.
Definition fail {A : Type} (e : exn) : St nat A := fun n => (Raise e, S n).

Definition outside : Env := {|
  env := nat;
  new_page := fail PlaywrightError;
  goto := fun _ _ => fail TimeoutError;
  inner_text := fun _ _ => fail TimeoutError;
  click := fun _ _ => fail TimeoutError;
  wait_for_selector := fun _ _ => fail TimeoutError;
  content := fail PlaywrightError;
  close := fail PlaywrightError;
  datetime_now := fun n => (0, n)
|}.

Definition start : @world outside := @mkWorld outside 0%nat [] ∅ None ∅.
End Offline.

(** ** The log file, read as urls and times *)

(** The url and the time of every row, whatever the print. *)
Definition row_times (rows : list (list N * stamp)) : list (list N * Z) :=
  List.map (fun row => (row.1, stamp_time row.2)) rows.

(** The time every value of the dict stands for. *)
Definition log_times (log : gmap (list N) logval) : gmap (list N) Z :=
  logval_time <$> log.

(** A computation that only adds page calls to the trace. *)
Definition extends_trace `{Env} {A : Type} (m : St world A) : Prop :=
  forall w r w', m w = (r, w') -> exists evs, w_trace w' = w_trace w ++ evs.

(** ** The fields of the company record

    Every optional text field of [CompanyData] that [parse_core] fills,
    with the tab and the label of the row it is read from. *)
Definition text_fields : list ((CompanyData.t -> option pystr) * string * string) :=
  [
    (CompanyData.name, "#infoTab", "Nazwa:");
    (CompanyData.ticker, "#infoTab", "Skr√≥t:");
    (CompanyData.full_name, "#infoTab", "Nazwa pe≈Çna:");
    (CompanyData.president, "#infoTab", "Prezes ZarzƒÖdu:");
    (CompanyData.province, "#infoTab", "Wojew√≥dztwo:");
    (CompanyData.address, "#infoTab", "Adres siedziby:");
    (CompanyData.phone, "#infoTab", "Numer telefonu:");
    (CompanyData.fax, "#infoTab", "Numer faksu:");
    (CompanyData.website, "#infoTab", "Strona www:");
    (CompanyData.email, "#infoTab", "E-mail:");
    (CompanyData.debut_date, "#infoTab", "Na gie≈Çdzie od:");
    (CompanyData.issued_shares, "#indicatorsTab", "Liczba wyemitowanych akcji");
    (CompanyData.market_cap_mln, "#indicatorsTab", "Warto≈õƒá rynkowa");
    (CompanyData.book_value_mln, "#indicatorsTab", "Warto≈õƒá ksiƒôgowa");
    (CompanyData.price_to_book, "#indicatorsTab", "C/WK");
    (CompanyData.pe_ratio, "#indicatorsTab", "C/Z");
    (CompanyData.dividend_yield_percent, "#indicatorsTab", "Stopa dywidendy");
    (CompanyData.last_price, "#quotationsTab", "Kurs ostatni");
    (CompanyData.change, "#quotationsTab", "Zmiana");
    (CompanyData.bid, "#quotationsTab", "Oferta kupna");
    (CompanyData.ask, "#quotationsTab", "Oferta sprzeda≈ºy");
    (CompanyData.min_price, "#quotationsTab", "Min.");
    (CompanyData.max_price, "#quotationsTab", "Max.");
    (CompanyData.volume, "#quotationsTab", "Wol. obrotu");
    (CompanyData.turnover_value, "#quotationsTab", "Wart. obrotu");
    (CompanyData.debut_price, "#quotationsTab", "Data i kurs debiutu");
    (CompanyData.max_52w, "#quotationsTab", "Max historyczny");
    (CompanyData.min_52w, "#quotationsTab", "Min historyczny");
    (CompanyData.market_segment, "#indicatorsTab", "Rynek/Segment");
    (CompanyData.sector, "#indicatorsTab", "Sektor")
  ].

(** The selector of the index links. *)
Definition index_links : string :=
  "#quotationsTab tr:has(th:-soup-contains('Przynale≈ºno≈õƒá do indeksu')) td a".

(** The selector [get_text_from] builds for a tab and a label. *)
Definition label_cell (selector label_contains : string) : string :=
  selector +:+ " tr:has(th:-soup-contains('" +:+ label_contains +:+ "')) td".

Section ReportLinks.
Context {soup_lib : Soup} {pydantic_lib : Pydantic}.

(** A row of a reports table whose link, when [extract_reports] takes
    one from it, has an [href] that makes a valid URL under [BASE_URL]. *)
Definition report_link_ok (row : tag) : Prop :=
  forall a,
    select_one row "td:nth-of-type(1) a[href^='komunikat']" = Some a ->
    strip (text a) <> py "Data" ->
    exists h, attr a "href" = Some h /\ is_Some (HttpUrl (BASE_URL ++ py "/" ++ h)).

Definition report_links_ok (html : pystr) (tab : string) : Prop :=
  Forall report_link_ok (select (BeautifulSoup html) (tab +:+ " table tbody tr")).
End ReportLinks.

(** Two more bundles of the simulated site: one whose snapshots all show
    the landing document, where no selector finds anything, and one in
    which every tab shows its own document. *)
Definition blank_bundle : gmap string (list N) :=
  list_to_map
    [("info", py "<html>#infoTab</html>");
     ("indicators", py "<html>#infoTab</html>");
     ("quotations", py "<html>#infoTab</html>");
     ("reports1", py "<html>#infoTab</html>");
     ("reports2", py "<html>#infoTab</html>");
     ("shareholders", py "<html>#infoTab</html>");
     ("notoria", py "<html>#infoTab</html>")].

Definition full_bundle : gmap string (list N) :=
  list_to_map
    [("info", py "<html>#infoTab</html>");
     ("indicators", py "<html>#indicatorsTab</html>");
     ("quotations", py "<html>#quotationsTab</html>");
     ("reports1", py "<html>#reportsTab1</html>");
     ("reports2", py "<html>#reportsTab2</html>");
     ("shareholders", py "<html>#shareholdersTab</html>");
     ("notoria", py "<html>#showNotoria</html>")].

(** * Properties *)

(** ** Strings *)



Lemma str_split_app (sep : N) (s rest : list N) :
  ~ In sep s -> str_split sep (s ++ sep :: rest) = s :: str_split sep rest.
Proof.
  induction s as [|c s IH]; intros Hs; simpl.
  - rewrite N.eqb_refl. reflexivity.
  - destruct (N.eqb_spec c sep) as [->|Hc].
    + exfalso. apply Hs. left. reflexivity.
    + rewrite IH by (intros H; apply Hs; right; exact H). reflexivity.
Qed.

Lemma str_split_word (sep : N) (s : list N) :
  ~ In sep s -> str_split sep s = [s].
Proof.
  induction s as [|c s IH]; intros Hs; simpl; [reflexivity|].
  destruct (N.eqb_spec c sep) as [->|Hc].
  - exfalso. apply Hs. left. reflexivity.
  - rewrite IH by (intros H; apply Hs; right; exact H). reflexivity.
Qed.

Lemma str_split_join (sep : N) (l : list (list N)) :
  l <> [] -> Forall (fun w => ~ In sep w) l ->
  str_split sep (str_join [sep] l) = l.
Proof.
  induction l as [|s l IH]; intros Hne Hall; [congruence|].
  inversion Hall as [|? ? Hs Hl]; subst.
  destruct l as [|s2 l].
  - simpl. apply str_split_word. exact Hs.
  - change (str_join [sep] (s :: s2 :: l)) with (s ++ sep :: str_join [sep] (s2 :: l)).
    rewrite str_split_app by exact Hs.
    rewrite IH by (congruence || exact Hl). reflexivity.
Qed.

(** ** [to_serializable] *)

Lemma forallb_is_str_VStr (l : list (list N)) : forallb is_str (List.map VStr l) = true.
Proof. induction l; simpl; auto. Qed.

Lemma str_of_VStr (l : list (list N)) : List.map str_of (List.map VStr l) = l.
Proof. induction l; simpl; congruence. Qed.

Lemma to_serializable_str_list (l : list (list N)) :
  to_serializable (VList (List.map VStr l)) = VStr (str_join (py ",") l).
Proof. simpl. rewrite forallb_is_str_VStr, str_of_VStr. reflexivity. Qed.

(** C8. The [index_membership] list of a company record is stored as one
    string, the names joined by commas in list order: the serialized dict
    holds [','.join(index_membership)] under that key and the cell binds
    as TEXT; [["WIG20", "WIG"]] becomes ["WIG20,WIG"]; and when no name
    holds a comma, splitting the cell at the commas gives the list back. *)
Theorem index_membership_serialized :
  (forall cd : CompanyData.t,
     dict_get "index_membership" (as_dict (to_serializable (CompanyData.model_dump cd)))
     = Some (VStr (str_join (py ",") (CompanyData.index_membership cd)))
     /\ sql_bind (VStr (str_join (py ",") (CompanyData.index_membership cd)))
        = Some (Some (str_join (py ",") (CompanyData.index_membership cd))))
  /\ to_serializable (VList [VStr (py "WIG20"); VStr (py "WIG")]) = VStr (py "WIG20,WIG")
  /\ (forall names : list (list N),
        names <> [] -> Forall (fun w => ~ In 44%N w) names ->
        str_split 44 (str_join (py ",") names) = names).
Proof.
  split; [|split].
  - intros cd. split; [|reflexivity].
    unfold CompanyData.model_dump.
    cbn [to_serializable List.map as_dict].
    cbn [dict_get String.eqb Ascii.eqb Bool.eqb].
    rewrite forallb_is_str_VStr, str_of_VStr. reflexivity.
  - reflexivity.
  - intros names Hne Hall. apply (str_split_join 44 names Hne Hall).
Qed.

(** ["WIG20,WIG"] read back: the two names, in order. *)
Lemma index_membership_serialized_witness :
  str_split 44 (str_join (py ",") [py "WIG20"; py "WIG"]) = [py "WIG20"; py "WIG"].
Proof.
  apply (proj2 (proj2 index_membership_serialized)).
  - discriminate.
  - repeat constructor; vm_compute; intuition discriminate.
Defined.

(** ** Frames: columns and cells *)

Section Frames.
Context {V : Type} (na : V).

Lemma in_columns_In (c : string) (cols : list string) :
  in_columns c cols = true <-> In c cols.
Proof.
  unfold in_columns. rewrite existsb_exists. split.
  - intros [x [Hx He]]. apply String.eqb_eq in He. subst. exact Hx.
  - intros H. exists c. split; [exact H | apply String.eqb_refl].
Qed.

Lemma in_columns_false (c : string) (cols : list string) :
  in_columns c cols = false <-> ~ In c cols.
Proof.
  rewrite <- in_columns_In. destruct (in_columns c cols); intuition congruence.
Qed.

Lemma dict_get_keys (c : string) (r : list (string * V)) (v : V) :
  dict_get c r = Some v -> In c (List.map fst r).
Proof.
  induction r as [|[k x] r IH]; simpl; [discriminate|].
  destruct (String.eqb_spec c k) as [->|Hne]; intros H.
  - left. reflexivity.
  - right. apply IH. exact H.
Qed.

Lemma dict_get_not_key (c : string) (r : list (string * V)) :
  ~ In c (List.map fst r) -> dict_get c r = None.
Proof.
  intros Hn. destruct (dict_get c r) eqn:E; [|reflexivity].
  exfalso. apply Hn. eapply dict_get_keys. exact E.
Qed.

Lemma dict_get_reindex (c : string) (cols : list string) (r : list (string * V)) :
  In c cols -> dict_get c (reindex na cols r) = Some (cell na c r).
Proof.
  unfold reindex. induction cols as [|a cols IH]; simpl; [tauto|].
  destruct (String.eqb_spec c a) as [->|Hne]; [reflexivity|].
  intros [H|H]; [congruence | apply IH; exact H].
Qed.

Lemma reindex_keys (cols : list string) (r : list (string * V)) :
  List.map fst (reindex na cols r) = cols.
Proof.
  unfold reindex. rewrite List.map_map. simpl. apply List.map_id.
Qed.

Lemma cell_reindex (c : string) (cols : list string) (r : list (string * V)) :
  In c cols -> cell na c (reindex na cols r) = cell na c r.
Proof. intros H. unfold cell at 1. rewrite dict_get_reindex by exact H. reflexivity. Qed.

Lemma cell_reindex_out (c : string) (cols : list string) (r : list (string * V)) :
  ~ In c cols -> cell na c (reindex na cols r) = na.
Proof.
  intros H. unfold cell. rewrite dict_get_not_key; [reflexivity|].
  rewrite reindex_keys. exact H.
Qed.

Lemma cell_not_key (c : string) (r : list (string * V)) :
  ~ In c (List.map fst r) -> cell na c r = na.
Proof. intros H. unfold cell. rewrite dict_get_not_key by exact H. reflexivity. Qed.

Lemma reindex_ext (cols : list string) (r r' : list (string * V)) :
  (forall c, In c cols -> cell na c r = cell na c r') ->
  reindex na cols r = reindex na cols r'.
Proof.
  intros H. unfold reindex. apply List.map_ext_in.
  intros c Hc. rewrite (H c Hc). reflexivity.
Qed.

(** Re-aligning twice is re-aligning once, when the first alignment
    covers the second or the row has no cell outside the first. *)
Lemma reindex_reindex (cols cols' : list string) (r : list (string * V)) :
  incl cols' cols -> reindex na cols' (reindex na cols r) = reindex na cols' r.
Proof.
  intros Hi. apply reindex_ext. intros c Hc. apply cell_reindex. apply Hi. exact Hc.
Qed.

Lemma reindex_idem (cols : list string) (r : list (string * V)) :
  reindex na cols (reindex na cols r) = reindex na cols r.
Proof. apply reindex_reindex. apply incl_refl. Qed.

Lemma reindex_widen (cols cols' : list string) (r : list (string * V)) :
  incl (List.map fst r) cols -> reindex na cols' (reindex na cols r) = reindex na cols' r.
Proof.
  intros Hi. apply reindex_ext. intros c _.
  destruct (in_dec String.string_dec c cols) as [Hc|Hc].
  - apply cell_reindex. exact Hc.
  - rewrite cell_reindex_out by exact Hc.
    symmetry. apply cell_not_key. intros Hk. apply Hc. apply Hi. exact Hk.
Qed.

Lemma add_columns_spec (new cols : list string) (c : string) :
  In c (add_columns cols new) <-> In c cols \/ In c new.
Proof.
  unfold add_columns. revert cols.
  induction new as [|a new IH]; intros cols; simpl; [tauto|].
  rewrite IH. destruct (in_columns a cols) eqn:E.
  - apply in_columns_In in E. intuition (subst; auto).
  - rewrite in_app_iff. simpl. intuition (subst; auto).
Qed.

Lemma add_columns_absorb (new cols : list string) :
  incl new cols -> add_columns cols new = cols.
Proof.
  unfold add_columns. revert cols.
  induction new as [|a new IH]; intros cols Hi; simpl; [reflexivity|].
  assert (Ha : in_columns a cols = true).
  { apply in_columns_In. apply Hi. left. reflexivity. }
  rewrite Ha. apply IH. intros x Hx. apply Hi. right. exact Hx.
Qed.
End Frames.

Lemma pd_DataFrame_columns_acc (rows : list (list (string * pyval))) (acc : list string) (c : string) :
  In c (fold_left (fun acc r => add_columns acc (List.map fst r)) rows acc)
  <-> In c acc \/ exists r, In r rows /\ In c (List.map fst r).
Proof.
  revert acc. induction rows as [|r rows IH]; intros acc; simpl.
  - split; [auto | intros [H|[r [[] _]]]; exact H].
  - rewrite IH, add_columns_spec. split.
    + intros [[H|H]|[r' [Hr' Hc]]]; eauto.
    + intros [H|[r' [[->|Hr'] Hc]]]; eauto.
Qed.

Lemma pd_DataFrame_columns (rows : list (list (string * pyval))) (c : string) :
  In c (columns (pd_DataFrame rows)) <-> exists r, In r rows /\ In c (List.map fst r).
Proof.
  unfold pd_DataFrame. simpl. rewrite pd_DataFrame_columns_acc. simpl. tauto.
Qed.

Lemma pd_DataFrame_records (rows : list (list (string * pyval))) :
  records (pd_DataFrame rows)
  = List.map (reindex VNone (columns (pd_DataFrame rows))) rows.
Proof. reflexivity. Qed.

(** ** Binding rows to SQL *)

Lemma sql_bind_of_sql (c : option (list N)) : sql_bind (of_sql c) = Some c.
Proof. destruct c; reflexivity. Qed.

Lemma sql_bind_row_cons (k : string) (v : pyval) (r : list (string * pyval)) :
  sql_bind_row ((k, v) :: r)
  = match sql_bind v, sql_bind_row r with
    | Some v', Some r' => Some ((k, v') :: r')
    | _, _ => None
    end.
Proof.
  unfold sql_bind_row. simpl. destruct (sql_bind v); simpl; [|reflexivity].
  destruct (mapM _ r); reflexivity.
Qed.

Lemma sql_bind_row_of_sql (r : list (string * option (list N))) :
  sql_bind_row (List.map (prod_map id of_sql) r) = Some r.
Proof.
  induction r as [|[k v] r IH]; [reflexivity|].
  simpl List.map. rewrite sql_bind_row_cons, IH. simpl.
  rewrite sql_bind_of_sql. reflexivity.
Qed.

Lemma sql_bind_cell (c : string) (r : list (string * pyval)) (r' : list (string * option (list N))) :
  sql_bind_row r = Some r' -> sql_bind (cell VNone c r) = Some (cell None c r').
Proof.
  revert r'. induction r as [|[k v] r IH]; intros r'.
  - intros H. injection H as <-. reflexivity.
  - rewrite sql_bind_row_cons.
    destruct (sql_bind v) as [v'|] eqn:Ev; [|discriminate].
    destruct (sql_bind_row r) as [r1|] eqn:Er; [|discriminate].
    intros H. injection H as <-. unfold cell. simpl.
    destruct (String.eqb c k); [exact Ev|]. apply (IH r1). reflexivity.
Qed.

Lemma sql_bind_row_keys (r : list (string * pyval)) (r' : list (string * option (list N))) :
  sql_bind_row r = Some r' -> List.map fst r' = List.map fst r.
Proof.
  revert r'. induction r as [|[k v] r IH]; intros r'.
  - intros H. injection H as <-. reflexivity.
  - rewrite sql_bind_row_cons.
    destruct (sql_bind v) as [v'|]; [|discriminate].
    destruct (sql_bind_row r) as [r1|]; [|discriminate].
    intros H. injection H as <-. simpl. f_equal. apply IH. reflexivity.
Qed.

Lemma sql_bind_row_reindex_cells (cols : list string) (r : list (string * pyval))
    (f : string -> option (list N)) :
  (forall c, In c cols -> sql_bind (cell VNone c r) = Some (f c)) ->
  sql_bind_row (reindex VNone cols r) = Some (List.map (fun c => (c, f c)) cols).
Proof.
  unfold reindex. induction cols as [|a cols IH]; intros H; [reflexivity|].
  simpl List.map. rewrite sql_bind_row_cons.
  rewrite (H a) by (left; reflexivity).
  rewrite IH by (intros c Hc; apply H; right; exact Hc). reflexivity.
Qed.

Lemma sql_bind_row_reindex (cols : list string) (r : list (string * pyval))
    (r' : list (string * option (list N))) :
  sql_bind_row r = Some r' ->
  sql_bind_row (reindex VNone cols r) = Some (reindex None cols r').
Proof.
  intros H. apply (sql_bind_row_reindex_cells cols r (fun c => cell None c r')).
  intros c _. apply sql_bind_cell. exact H.
Qed.

(** A row that binds after re-alignment is aligned, and its cells are the
    bound cells. *)
Lemma sql_bind_row_reindex_inv (cols : list string) (r : list (string * pyval))
    (y : list (string * option (list N))) :
  sql_bind_row (reindex VNone cols r) = Some y ->
  reindex None cols y = y
  /\ forall c, In c cols -> sql_bind (cell VNone c r) = Some (cell None c y).
Proof.
  intros H. split.
  - assert (Hk := sql_bind_row_keys _ _ H). rewrite reindex_keys in Hk.
    pose proof (sql_bind_row_reindex cols _ _ H) as H2.
    rewrite reindex_idem in H2. congruence.
  - intros c Hc. rewrite <- (cell_reindex VNone c cols r Hc).
    apply sql_bind_cell. exact H.
Qed.

Lemma mapM_app_Some {A B : Type} (f : A -> option B) (l1 l2 : list A) (k1 k2 : list B) :
  mapM f l1 = Some k1 -> mapM f l2 = Some k2 -> mapM f (l1 ++ l2) = Some (k1 ++ k2).
Proof.
  intros H1 H2. apply mapM_Some_2. apply Forall2_app; apply mapM_Some_1; assumption.
Qed.

Lemma mapM_map_Some {A B C : Type} (f : A -> option B) (g : C -> A) (h : C -> B) (l : list C) :
  (forall x, In x l -> f (g x) = Some (h x)) ->
  mapM f (List.map g l) = Some (List.map h l).
Proof.
  induction l as [|x l IH]; intros H; [reflexivity|].
  simpl. rewrite (H x) by (left; reflexivity). simpl.
  rewrite IH by (intros y Hy; apply H; right; exact Hy). reflexivity.
Qed.

Lemma mapM_app_inv {A B : Type} (f : A -> option B) (l1 l2 : list A) (k : list B) :
  mapM f (l1 ++ l2) = Some k ->
  exists k1 k2, k = k1 ++ k2 /\ mapM f l1 = Some k1 /\ mapM f l2 = Some k2.
Proof.
  intros H. apply mapM_Some_1 in H. apply Forall2_app_inv_l in H.
  destruct H as [k1 [k2 [H1 [H2 ->]]]].
  exists k1, k2. split; [reflexivity|]. split; apply mapM_Some_2; assumption.
Qed.

(** ** [update_sqlite] *)

Lemma filter_map_comm {A B : Type} (p : B -> bool) (g : A -> B) (l : list A) :
  List.filter p (List.map g l) = List.map g (List.filter (fun x => p (g x)) l).
Proof.
  induction l as [|x l IH]; simpl; [reflexivity|].
  destruct (p (g x)); simpl; rewrite IH; reflexivity.
Qed.

Lemma filter_none {A : Type} (p : A -> bool) (l : list A) :
  (forall x, In x l -> p x = false) -> List.filter p l = [].
Proof.
  induction l as [|x l IH]; intros H; simpl; [reflexivity|].
  rewrite (H x) by (left; reflexivity). apply IH. intros y Hy. apply H. right. exact Hy.
Qed.

Lemma filter_all {A : Type} (p : A -> bool) (l : list A) :
  (forall x, In x l -> p x = true) -> List.filter p l = l.
Proof.
  induction l as [|x l IH]; intros H; simpl; [reflexivity|].
  rewrite (H x) by (left; reflexivity). f_equal. apply IH. intros y Hy. apply H. right. exact Hy.
Qed.

Lemma filter_filter_absorb {A : Type} (p q : A -> bool) (l : list A) :
  (forall x, p x = true -> q x = true) ->
  List.filter p (List.filter q l) = List.filter p l.
Proof.
  intros H. induction l as [|x l IH]; simpl; [reflexivity|].
  destruct (q x) eqn:Eq; simpl.
  - destruct (p x); rewrite IH; reflexivity.
  - destruct (p x) eqn:Ep; [rewrite (H x Ep) in Eq; discriminate | exact IH].
Qed.

Lemma mapM_app {A B : Type} (f : A -> option B) (l1 l2 : list A) :
  mapM f (l1 ++ l2)
  = match mapM f l1, mapM f l2 with
    | Some k1, Some k2 => Some (k1 ++ k2)
    | _, _ => None
    end.
Proof.
  induction l1 as [|x l1 IH]; simpl.
  - destruct (mapM f l2); reflexivity.
  - destruct (f x); simpl; [|reflexivity]. rewrite IH.
    destruct (mapM f l1); simpl; [|reflexivity].
    destruct (mapM f l2); reflexivity.
Qed.

Lemma mapM_Forall2_map {A B C D : Type} (f : A -> option B) (g : C -> A) (h : D -> B)
    (l : list C) (k : list D) :
  Forall2 (fun x y => f (g x) = Some (h y)) l k ->
  mapM f (List.map g l) = Some (List.map h k).
Proof.
  induction 1 as [|x y l k Hxy _ IH]; [reflexivity|].
  simpl. rewrite Hxy. simpl. rewrite IH. reflexivity.
Qed.

Lemma cell_of_sql (c : string) (r : list (string * option (list N))) :
  cell VNone c (List.map (prod_map id of_sql) r) = of_sql (cell None c r).
Proof.
  unfold cell. induction r as [|[k v] r IH]; simpl; [reflexivity|].
  destruct (String.eqb c k); [reflexivity | exact IH].
Qed.

Lemma py_ne_of_sql (v : option (list N)) (X : list N) :
  py_ne (of_sql v) (VStr X) = negb (bool_decide (v = Some X)).
Proof.
  destruct v as [s|]; simpl; [|reflexivity].
  f_equal. apply bool_decide_ext. split; congruence.
Qed.

(** One equation for the three ways through [update_sqlite], for rows
    that all carry the text [X] under [k]. *)
Lemma update_sqlite_single_key (table k : string) (X : list N)
    (row0 : list (string * pyval)) (rest : list (list (string * pyval)))
    (conn : gmap string (DataFrame (option (list N)))) :
  (forall r, In r (row0 :: rest) -> dict_get k r = Some (VStr X)) ->
  let new_columns := columns (pd_DataFrame (row0 :: rest)) in
  let cols := columns_after table k new_columns conn in
  update_sqlite table (row0 :: rest) k conn
  = match mapM sql_bind_row
            (List.map (reindex VNone cols)
               (List.map (reindex VNone new_columns) (row0 :: rest))) with
    | Some bound =>
        (Ok tt,
         <[table := mkDF cols
             (List.map (reindex None cols) (survivors table k X conn) ++ bound)]> conn)
    | None => (Raise InterfaceError, <[table := mkDF cols []]> conn)
    end.
Proof.
  intros H new_columns cols.
  assert (Hk : in_columns k new_columns = true).
  { apply in_columns_In. apply pd_DataFrame_columns. exists row0. split; [left; reflexivity|].
    eapply dict_get_keys. apply H. left. reflexivity. }
  unfold update_sqlite. cbv beta iota zeta. fold new_columns. rewrite Hk.
  rewrite (H row0) by (left; reflexivity).
  unfold cols, columns_after, survivors, columns_of, rows_of, read_sql.
  destruct (select_all table conn) as [t|] eqn:Esel; cbn [columns records].
  - destruct (in_columns k (columns t)) eqn:Ekt.
    + unfold to_sql, pd_concat, df_where_ne. cbn [columns records].
      rewrite pd_DataFrame_records. fold new_columns.
      rewrite List.map_app, mapM_app.
      rewrite filter_map_comm.
      rewrite (List.filter_ext
                 (fun x => py_ne (cell VNone k (List.map (prod_map id of_sql) x)) (VStr X))
                 (fun r => negb (bool_decide (cell None k r = Some X))))
        by (intros r; rewrite cell_of_sql; apply py_ne_of_sql).
      rewrite List.map_map.
      rewrite (mapM_map_Some sql_bind_row _
                 (reindex None (add_columns (columns t) new_columns)))
        by (intros r _; apply sql_bind_row_reindex; apply sql_bind_row_of_sql).
      unfold not_keyed. destruct (mapM sql_bind_row _); reflexivity.
    + unfold to_sql. rewrite pd_DataFrame_records. fold new_columns.
      rewrite List.map_map.
      rewrite (List.map_ext _ _ (fun r => reindex_idem VNone new_columns r)).
      reflexivity.
  - unfold to_sql. rewrite pd_DataFrame_records. fold new_columns.
    rewrite List.map_map.
    rewrite (List.map_ext _ _ (fun r => reindex_idem VNone new_columns r)).
    reflexivity.
Qed.

Lemma select_all_insert (table : string) (t : DataFrame (option (list N)))
    (conn : gmap string (DataFrame (option (list N)))) :
  select_all table (<[table := t]> conn)
  = Some (mkDF (columns t) (List.map (reindex None (columns t)) (records t))).
Proof. unfold select_all. rewrite lookup_insert_eq. reflexivity. Qed.

Lemma rows_of_aligned (table : string) (conn : gmap string (DataFrame (option (list N))))
    (r : list (string * option (list N))) :
  In r (rows_of table conn) -> reindex None (columns_of table conn) r = r.
Proof.
  unfold rows_of, columns_of, select_all.
  destruct (conn !! table) as [t|]; cbn [records columns]; [|intros []].
  intros Hr. apply in_map_iff in Hr. destruct Hr as [r0 [<- _]]. apply reindex_idem.
Qed.

Lemma keyed_map (k : string) (Y : list N) (cols : list string)
    (l : list (list (string * option (list N)))) :
  In k cols ->
  keyed k Y (List.map (reindex None cols) l) = List.map (reindex None cols) (keyed k Y l).
Proof.
  intros Hk. unfold keyed. rewrite filter_map_comm. f_equal.
  apply List.filter_ext. intros r. rewrite cell_reindex by exact Hk. reflexivity.
Qed.

Lemma keyed_no_column (k : string) (Y : list N) (table : string)
    (conn : gmap string (DataFrame (option (list N)))) :
  in_columns k (columns_of table conn) = false -> keyed k Y (rows_of table conn) = [].
Proof.
  intros Hk. apply filter_none. intros r Hr.
  rewrite <- (rows_of_aligned table conn r Hr).
  rewrite cell_reindex_out by (apply in_columns_false; exact Hk).
  reflexivity.
Qed.

Lemma columns_after_has_key (table k : string) (new_columns : list string)
    (conn : gmap string (DataFrame (option (list N)))) :
  In k new_columns -> In k (columns_after table k new_columns conn).
Proof.
  intros H. unfold columns_after. destruct (in_columns k _); [|exact H].
  apply add_columns_spec. right. exact H.
Qed.

Lemma columns_after_covers (table k : string) (new_columns : list string)
    (conn : gmap string (DataFrame (option (list N)))) :
  incl new_columns (columns_after table k new_columns conn).
Proof.
  intros c H. unfold columns_after. destruct (in_columns k _); [|exact H].
  apply add_columns_spec. right. exact H.
Qed.

Lemma bound_rows_keyed (k : string) (X : list N) (R : list (list (string * pyval)))
    (R' : list (list (string * option (list N)))) :
  (forall r, In r R -> dict_get k r = Some (VStr X)) ->
  mapM sql_bind_row R = Some R' ->
  forall r', In r' R' -> cell None k r' = Some X.
Proof.
  intros H HB. apply mapM_Some_1 in HB.
  induction HB as [|r r' R R' Hb _ IH]; intros x Hx; [destruct Hx|].
  destruct Hx as [<-|Hx].
  - pose proof (sql_bind_cell k r r' Hb) as Hc.
    unfold cell at 1 in Hc. rewrite (H r) in Hc by (left; reflexivity).
    simpl in Hc. congruence.
  - apply IH; [|exact Hx]. intros y Hy. apply H. right. exact Hy.
Qed.

Lemma bound_rows_columns (R : list (list (string * pyval)))
    (R' : list (list (string * option (list N)))) :
  mapM sql_bind_row R = Some R' ->
  forall r', In r' R' -> incl (List.map fst r') (columns (pd_DataFrame R)).
Proof.
  intros HB r' Hr' c Hc. apply mapM_Some_1 in HB.
  apply pd_DataFrame_columns.
  induction HB as [|r x R R' Hb _ IH]; [destruct Hr'|].
  destruct Hr' as [<-|Hr'].
  - exists r. split; [left; reflexivity|].
    rewrite <- (sql_bind_row_keys r x Hb). exact Hc.
  - destruct (IH Hr') as [y [Hy Hcy]]. exists y. split; [right; exact Hy | exact Hcy].
Qed.

Lemma bind_new_rows (cols : list string) (R : list (list (string * pyval)))
    (R' : list (list (string * option (list N)))) :
  mapM sql_bind_row R = Some R' ->
  mapM sql_bind_row
    (List.map (reindex VNone cols) (List.map (reindex VNone (columns (pd_DataFrame R))) R))
  = Some (List.map (reindex None cols) R').
Proof.
  intros HB. rewrite List.map_map.
  apply mapM_Forall2_map.
  assert (Hin : forall r, In r R -> incl (List.map fst r) (columns (pd_DataFrame R))).
  { intros r Hr c Hc. apply pd_DataFrame_columns. exists r. split; assumption. }
  apply mapM_Some_1 in HB. revert Hin. generalize (columns (pd_DataFrame R)) as colsN.
  induction HB as [|r r' R R' Hb _ IH]; intros colsN Hin; constructor.
  - rewrite reindex_widen by (apply Hin; left; reflexivity).
    apply sql_bind_row_reindex. exact Hb.
  - apply IH. intros y Hy. apply Hin. right. exact Hy.
Qed.

(** C1 (amended). For a non-empty record set [R] all of whose rows carry
    the same key [X] under [k] (and bind as SQL rows [R']),
    [update_sqlite] succeeds, touches no other table, and leaves in the
    table: as rows keyed [X] exactly the rows of [R]; as rows keyed by any
    other [Y] exactly those that were there. Rows are re-aligned to the
    columns of the written table, which keeps every cell. *)
Theorem update_sqlite_replaces_key :
  forall (table k : string) (X : list N) (R : list (list (string * pyval)))
         (R' : list (list (string * option (list N))))
         (conn : gmap string (DataFrame (option (list N)))),
    R <> [] ->
    (forall r, In r R -> dict_get k r = Some (VStr X)) ->
    mapM sql_bind_row R = Some R' ->
    exists conn',
      update_sqlite table R k conn = (Ok tt, conn')
      /\ (forall t, t <> table -> conn' !! t = conn !! t)
      /\ keyed k X (rows_of table conn')
         = List.map (reindex None (columns_of table conn')) R'
      /\ (forall Y, Y <> X ->
            keyed k Y (rows_of table conn')
            = List.map (reindex None (columns_of table conn')) (keyed k Y (rows_of table conn)))
      /\ (forall r c, In r R' \/ (exists Y, Y <> X /\ In r (keyed k Y (rows_of table conn))) ->
            cell None c (reindex None (columns_of table conn') r) = cell None c r).
Proof.
  intros table k X R R' conn Hne H HB.
  destruct R as [|row0 rest]; [congruence|].
  pose proof (update_sqlite_single_key table k X row0 rest conn H) as Hupd.
  cbv zeta in Hupd.
  rewrite (bind_new_rows _ _ _ HB) in Hupd.
  set (new_columns := columns (pd_DataFrame (row0 :: rest))) in *.
  set (cols := columns_after table k new_columns conn) in *.
  set (conn' := <[table := _]> conn) in Hupd.
  assert (Hk : In k new_columns).
  { apply pd_DataFrame_columns. exists row0. split; [left; reflexivity|].
    eapply dict_get_keys. apply H. left. reflexivity. }
  assert (Hkc : In k cols) by (apply columns_after_has_key; exact Hk).
  assert (Hcols : columns_of table conn' = cols).
  { unfold columns_of, conn'. rewrite select_all_insert. reflexivity. }
  assert (Hrows : rows_of table conn'
                  = List.map (reindex None cols) (survivors table k X conn)
                    ++ List.map (reindex None cols) R').
  { unfold rows_of, conn'. rewrite select_all_insert. cbn [records columns].
    rewrite List.map_app, !List.map_map.
    f_equal; apply List.map_ext; intros r; apply reindex_idem. }
  assert (HX : forall r', In r' R' -> cell None k r' = Some X)
    by (apply (bound_rows_keyed k X _ _ H HB)).
  exists conn'. split; [exact Hupd|]. split; [|split; [|split]].
  - intros t Ht. unfold conn'. apply lookup_insert_ne. congruence.
  - rewrite Hcols, Hrows. unfold keyed at 1. rewrite List.filter_app.
    fold (keyed k X (List.map (reindex None cols) (survivors table k X conn))).
    fold (keyed k X (List.map (reindex None cols) R')).
    rewrite !keyed_map by exact Hkc.
    unfold keyed at 1, survivors, not_keyed.
    rewrite (filter_none _ (if in_columns k (columns_of table conn) then _ else _)).
    + simpl. f_equal. apply filter_all. intros r' Hr'.
      apply bool_decide_eq_true. apply HX. exact Hr'.
    + intros r Hr. destruct (in_columns k (columns_of table conn)); [|destruct Hr].
      apply List.filter_In in Hr. destruct Hr as [_ Hr].
      apply negb_true_iff in Hr. exact Hr.
  - intros Y HY. rewrite Hcols, Hrows. unfold keyed at 1. rewrite List.filter_app.
    fold (keyed k Y (List.map (reindex None cols) (survivors table k X conn))).
    fold (keyed k Y (List.map (reindex None cols) R')).
    rewrite !keyed_map by exact Hkc.
    assert (HY' : keyed k Y R' = []).
    { apply filter_none. intros r' Hr'. apply bool_decide_eq_false.
      rewrite (HX r' Hr'). congruence. }
    rewrite HY'.
    simpl. rewrite List.app_nil_r. f_equal.
    unfold survivors. destruct (in_columns k (columns_of table conn)) eqn:Ek.
    + unfold keyed, not_keyed. apply filter_filter_absorb.
        intros r Hr. apply bool_decide_eq_true in Hr. apply negb_true_iff.
        apply bool_decide_eq_false. congruence.
    + symmetry. apply keyed_no_column. exact Ek.
  - intros r c Hr. rewrite Hcols.
    destruct (in_dec String.string_dec c cols) as [Hc|Hc]; [apply cell_reindex; exact Hc|].
    rewrite cell_reindex_out by exact Hc. symmetry.
    destruct Hr as [Hr|[Y [HY Hr]]].
    + apply cell_not_key. intros Hk'. apply Hc.
      apply (columns_after_covers table k new_columns conn).
      apply (bound_rows_columns _ _ HB r Hr). exact Hk'.
    + destruct (in_columns k (columns_of table conn)) eqn:Ek.
      * apply List.filter_In in Hr. destruct Hr as [Hr _].
        rewrite <- (rows_of_aligned table conn r Hr).
        apply cell_reindex_out. intros Hc'. apply Hc.
        unfold cols, columns_after. rewrite Ek. apply add_columns_spec. left. exact Hc'.
      * rewrite (keyed_no_column k Y table conn Ek) in Hr. destruct Hr.
Qed.

(** C1, as stated, fails on the code in two ways. A record set with two
    keys [X], [Y] removes only the stored rows of the first key: the old
    row of [Y] stays beside the new one, where replace-by-key over every
    key of the set would have dropped it. And an empty record set removes
    nothing: the rows stored for [X] all stay. *)
Lemma update_sqlite_removes_first_key_only :
  Samples.rows_after "company_shareholders"
    (update_sqlite "company_shareholders" Samples.two_keys "company_url" Samples.seeded)
  = Some [Samples.holder Samples.Y (py "Fund C");
          Samples.holder Samples.X (py "Fund A");
          Samples.holder Samples.Y (py "Fund D")]
  /\ replace_by_key "company_url" (rows_of "company_shareholders" Samples.seeded)
       [Samples.holder Samples.X (py "Fund A"); Samples.holder Samples.Y (py "Fund D")]
     = [Samples.holder Samples.X (py "Fund A"); Samples.holder Samples.Y (py "Fund D")]
  /\ update_sqlite "company_shareholders" [] "company_url" Samples.seeded
     = (Ok tt, Samples.seeded)
  /\ keyed "company_url" Samples.X (rows_of "company_shareholders" Samples.seeded)
     = [Samples.holder Samples.X (py "Fund A"); Samples.holder Samples.X (py "Fund B")].
Proof. repeat split; vm_compute; reflexivity. Qed.

(** The amended C1 on a table seeded with rows of [X] and [Y]: a scrape of
    [X] with fewer rows than stored. *)
Lemma update_sqlite_replaces_key_witness :
  exists conn',
    update_sqlite "company_shareholders" Samples.one_holder "company_url" Samples.seeded
    = (Ok tt, conn')
    /\ keyed "company_url" Samples.X (rows_of "company_shareholders" conn')
       = [Samples.holder Samples.X (py "Fund A")]
    /\ keyed "company_url" Samples.Y (rows_of "company_shareholders" conn')
       = [Samples.holder Samples.Y (py "Fund C")].
Proof.
  destruct (update_sqlite_replaces_key "company_shareholders" "company_url" Samples.X
              Samples.one_holder [Samples.holder Samples.X (py "Fund A")] Samples.seeded)
    as [conn' [Hupd [_ [HX [HY _]]]]].
  - discriminate.
  - intros r [<-|[]]. reflexivity.
  - reflexivity.
  - exists conn'. split; [exact Hupd|].
    assert (Hc : conn' = <[ "company_shareholders" :=
                   mkDF ["company_url"; "shareholder"]
                        [Samples.holder Samples.Y (py "Fund C");
                         Samples.holder Samples.X (py "Fund A")] ]> Samples.seeded).
    { assert (E : update_sqlite "company_shareholders" Samples.one_holder "company_url"
                    Samples.seeded
                  = (Ok tt,
                     <[ "company_shareholders" :=
                       mkDF ["company_url"; "shareholder"]
                            [Samples.holder Samples.Y (py "Fund C");
                             Samples.holder Samples.X (py "Fund A")] ]> Samples.seeded))
        by (vm_compute; reflexivity).
      rewrite E in Hupd. injection Hupd as <-. reflexivity. }
    subst conn'. split.
    + rewrite HX. vm_compute. reflexivity.
    + rewrite (HY Samples.Y) by discriminate. vm_compute. reflexivity.
Defined.

Lemma bound_aligned_keyed (k : string) (X : list N) (cols new_columns : list string)
    (R : list (list (string * pyval))) (bound : list (list (string * option (list N)))) :
  In k cols -> In k new_columns ->
  (forall r, In r R -> dict_get k r = Some (VStr X)) ->
  mapM sql_bind_row (List.map (reindex VNone cols) (List.map (reindex VNone new_columns) R))
  = Some bound ->
  forall b, In b bound -> reindex None cols b = b /\ cell None k b = Some X.
Proof.
  intros Hkc Hkn H HB. rewrite List.map_map in HB. apply mapM_Some_1 in HB.
  remember (List.map _ R) as L eqn:EL. revert R H EL.
  induction HB as [|x b L bound Hb _ IH]; intros R H EL c Hc; [destruct Hc|].
  destruct R as [|r R]; [discriminate|]. simpl in EL. injection EL as -> ->.
  destruct Hc as [<-|Hc].
  - destruct (sql_bind_row_reindex_inv cols _ _ Hb) as [Ha Hcell]. split; [exact Ha|].
    specialize (Hcell k Hkc). rewrite cell_reindex in Hcell by exact Hkn.
    unfold cell at 1 in Hcell. rewrite (H r) in Hcell by (left; reflexivity).
    simpl in Hcell. congruence.
  - apply (IH R); [|reflexivity|exact Hc]. intros y Hy. apply H. right. exact Hy.
Qed.

Lemma survivors_not_keyed (table k : string) (X : list N)
    (conn : gmap string (DataFrame (option (list N)))) :
  not_keyed k X (survivors table k X conn) = survivors table k X conn.
Proof.
  unfold survivors. destruct (in_columns k _); [|reflexivity].
  unfold not_keyed. apply filter_all. intros r Hr.
  apply List.filter_In in Hr. tauto.
Qed.

Lemma not_keyed_map (k : string) (X : list N) (cols : list string)
    (l : list (list (string * option (list N)))) :
  In k cols ->
  not_keyed k X (List.map (reindex None cols) l)
  = List.map (reindex None cols) (not_keyed k X l).
Proof.
  intros Hk. unfold not_keyed. rewrite filter_map_comm. f_equal.
  apply List.filter_ext. intros r. rewrite cell_reindex by exact Hk. reflexivity.
Qed.

(** Writing the same single-key record set again changes nothing. *)
Lemma update_sqlite_twice (table k : string) (X : list N)
    (R : list (list (string * pyval)))
    (conn conn1 : gmap string (DataFrame (option (list N)))) :
  (forall r, In r R -> dict_get k r = Some (VStr X)) ->
  update_sqlite table R k conn = (Ok tt, conn1) ->
  update_sqlite table R k conn1 = (Ok tt, conn1).
Proof.
  intros H. destruct R as [|row0 rest]; [intros E; reflexivity|].
  rewrite !(update_sqlite_single_key table k X row0 rest _ H). cbv zeta.
  set (new_columns := columns (pd_DataFrame (row0 :: rest))).
  set (cols := columns_after table k new_columns conn).
  assert (Hk : In k new_columns).
  { apply pd_DataFrame_columns. exists row0. split; [left; reflexivity|].
    eapply dict_get_keys. apply H. left. reflexivity. }
  assert (Hkc : In k cols) by (apply columns_after_has_key; exact Hk).
  destruct (mapM sql_bind_row _) as [bound|] eqn:HB; [|discriminate].
  intros E. injection E as <-.
  set (conn1 := <[table := _]> conn).
  assert (Hcols1 : columns_of table conn1 = cols).
  { unfold columns_of, conn1. rewrite select_all_insert. reflexivity. }
  assert (Hbound := bound_aligned_keyed k X cols new_columns _ bound Hkc Hk H HB).
  assert (Hafter : columns_after table k new_columns conn1 = cols).
  { unfold columns_after. rewrite Hcols1.
    rewrite (proj2 (in_columns_In k cols) Hkc).
    apply add_columns_absorb. apply columns_after_covers. }
  assert (Hsurv : survivors table k X conn1
                  = List.map (reindex None cols) (survivors table k X conn)).
  { unfold survivors at 1. rewrite Hcols1, (proj2 (in_columns_In k cols) Hkc).
    unfold rows_of, conn1. rewrite select_all_insert. cbn [records columns].
    rewrite List.map_app, List.map_map.
    rewrite (List.map_ext _ _ (fun r => reindex_idem None cols r)).
    unfold not_keyed at 1. rewrite List.filter_app.
    fold (not_keyed k X (List.map (reindex None cols) (survivors table k X conn))).
    rewrite not_keyed_map by exact Hkc. rewrite survivors_not_keyed.
    rewrite filter_none; [apply List.app_nil_r|].
    intros b Hb. apply in_map_iff in Hb. destruct Hb as [b0 [<- Hb0]].
    destruct (Hbound b0 Hb0) as [Ha Hx]. rewrite Ha.
    apply negb_false_iff. apply bool_decide_eq_true. exact Hx. }
  rewrite Hafter, Hsurv. fold cols. rewrite HB.
  rewrite List.map_map. rewrite (List.map_ext _ _ (fun r => reindex_idem None cols r)).
  unfold conn1. rewrite insert_insert_eq. reflexivity.
Qed.

(** ** Whitespace in extracted text *)







(** Case analysis on the outcome of one step of a [result] computation. *)
Ltac step_result x :=
  destruct x eqn:?; cbn [mbind result_bind mret result_ret fmap result_fmap];
  try discriminate.

Section ExtractedText.
Context {soup_lib : Soup} {pydantic_lib : Pydantic}.


Lemma get_text_from_absent (soup : tag) (selector label : string) :
  select soup (selector +:+ " tr:has(th:-soup-contains('" +:+ label +:+ "')) td") = [] ->
  get_text_from soup selector label = None.
Proof. intros H. unfold get_text_from, select_one. rewrite H. reflexivity. Qed.








End ExtractedText.

Section ExtractedTextOnTheSite.
Import Sim.


End ExtractedTextOnTheSite.

(** ** The extractor on any bundle *)

Section Extractor.
Context {soup_lib : Soup} {pydantic_lib : Pydantic}.

Lemma extract_shareholders_rows_total (rows : list tag) (url u : list N) :
  HttpUrl url = Some u ->
  exists l, extract_shareholders_rows rows url = Ok l.
Proof.
  intros Hu. induction rows as [|row rows [l IH]]; cbn [extract_shareholders_rows].
  - exists []. reflexivity.
  - destruct (find row "th"); [exists l; exact IH|].
    destruct (select row "td") as [|c0 [|c1 [|c2 [|c3 [|c4 cs]]]]];
      try (exists l; exact IH).
    unfold validate_url. rewrite Hu, IH. eexists. reflexivity.
Qed.

Lemma extract_notoria_rows_total (rows : list tag) (url u : list N) :
  HttpUrl url = Some u ->
  exists l, extract_notoria_rows rows url = Ok l.
Proof.
  intros Hu. induction rows as [|row rows [l IH]]; cbn [extract_notoria_rows].
  - exists []. reflexivity.
  - destruct (find row "th"); [|exists l; exact IH].
    destruct (find row "td"); [|exists l; exact IH].
    unfold validate_url. rewrite Hu, IH. eexists. reflexivity.
Qed.

Lemma extract_reports_rows_total (rows : list tag) (tab_key : string) (url u : list N) :
  HttpUrl url = Some u ->
  Forall report_link_ok rows ->
  exists l, extract_reports_rows rows tab_key url = Ok l.
Proof.
  intros Hu Hrows.
  induction Hrows as [|row rows Hrow _ [l IH]]; cbn [extract_reports_rows].
  - exists []. reflexivity.
  - destruct (select_one row _) as [date_a|] eqn:Ea; [|exists l; exact IH].
    destruct (bool_decide (strip (text date_a) = py "Data")) eqn:Ed;
      [exists l; exact IH|].
    apply bool_decide_eq_false in Ed.
    destruct (Hrow date_a Ea Ed) as [h [-> [ru Hru]]].
    cbn [mbind result_bind]. unfold validate_url. rewrite Hu.
    cbn [mbind result_bind]. rewrite Hru, IH. eexists. reflexivity.
Qed.

Lemma tab_get_Some (tab_html : gmap string (list N)) (key : string) (html : list N) :
  tab_html !! key = Some html -> tab_get tab_html key = Ok html.
Proof. intros H. unfold tab_get. rewrite H. reflexivity. Qed.

Lemma get_text_from_none (soup : tag) (selector label_contains : string) :
  select_one soup (label_cell selector label_contains) = None ->
  get_text_from soup selector label_contains = None.
Proof. intros H. unfold get_text_from. fold (label_cell selector label_contains). rewrite H. reflexivity. Qed.

(** C9 (amended). On a bundle that holds the seven snapshots, whatever
    HTML they are. When the url does not validate, the extractor raises
    the validation error. When it does, and every report link found in
    the two report snapshots makes a valid URL, the extractor returns:
    one company record and the rows the three list extractors return on
    their snapshots (all possibly empty). The [url] of the record is the
    validated url, its description the one given, its [isin] the text of
    the ISIN row, or the empty string when there is no such row; every
    other text field is what [get_text_from] finds under its label, so
    [None] when the selector of the label matches nothing, and the index
    names are the texts of the index links. When no selector matches
    anything in the snapshots, the record is the blank one and the three
    lists are empty. *)
Theorem extractor_total_on_any_bundle :
  forall (url : list N) (tab_html : gmap string (list N)) (description : option (list N))
         (info indicators quotations reports1 reports2 shareholders notoria : list N),
    tab_html !! "info" = Some info ->
    tab_html !! "indicators" = Some indicators ->
    tab_html !! "quotations" = Some quotations ->
    tab_html !! "reports1" = Some reports1 ->
    tab_html !! "reports2" = Some reports2 ->
    tab_html !! "shareholders" = Some shareholders ->
    tab_html !! "notoria" = Some notoria ->
    let soup := BeautifulSoup (info ++ indicators ++ quotations) in
    (HttpUrl url = None ->
     extract_company_data url tab_html description = Raise ValidationError)
    /\ (forall u,
          HttpUrl url = Some u ->
          report_links_ok reports1 "#reportsTab1" ->
          report_links_ok reports2 "#reportsTab2" ->
          exists cd reps1 reps2 shs nts,
            extract_company_data url tab_html description
            = Ok (cd,
                  {| company_data := [as_dict (to_serializable (CompanyData.model_dump cd))];
                     reports_data :=
                       List.map (fun r => as_dict (to_serializable (Report.model_dump r)))
                                (reps1 ++ reps2);
                     shareholders_data :=
                       List.map (fun s => as_dict (to_serializable (Shareholder.model_dump s)))
                                shs;
                     notoria_data :=
                       List.map (fun n => as_dict (to_serializable (NotoriaMetric.model_dump n)))
                                nts |})
            /\ extract_reports (BeautifulSoup reports1) "reports1" url = Ok reps1
            /\ extract_reports (BeautifulSoup reports2) "reports2" url = Ok reps2
            /\ extract_shareholders (BeautifulSoup shareholders) url = Ok shs
            /\ extract_notoria (BeautifulSoup notoria) url = Ok nts
            /\ CompanyData.url cd = u
            /\ CompanyData.description cd = description
            /\ CompanyData.isin cd = or_empty (get_text_from soup "#indicatorsTab" "ISIN")
            /\ (select_one soup (label_cell "#indicatorsTab" "ISIN") = None ->
                CompanyData.isin cd = [])
            /\ CompanyData.index_membership cd
               = List.map get_text_strip (select soup index_links)
            /\ Forall (fun f => f.1.1 cd = get_text_from soup f.1.2 f.2) text_fields
            /\ Forall (fun f => select_one soup (label_cell f.1.2 f.2) = None ->
                                f.1.1 cd = None) text_fields)
    /\ (forall u,
          HttpUrl url = Some u ->
          (forall css, select soup css = []) ->
          (forall css, select (BeautifulSoup reports1) css = []) ->
          (forall css, select (BeautifulSoup reports2) css = []) ->
          (forall css, select (BeautifulSoup shareholders) css = []) ->
          (forall css, select (BeautifulSoup notoria) css = []) ->
          extract_company_data url tab_html description
          = Ok (blank_company u description,
                {| company_data :=
                     [as_dict (to_serializable
                                 (CompanyData.model_dump (blank_company u description)))];
                   reports_data := [];
                   shareholders_data := [];
                   notoria_data := [] |})).
Proof.
  intros url tab_html description info ind quo r1 r2 sh nt
         Hinfo Hind Hquo Hr1 Hr2 Hsh Hnt soup.
  unfold extract_company_data.
  rewrite (tab_get_Some _ _ _ Hinfo), (tab_get_Some _ _ _ Hind), (tab_get_Some _ _ _ Hquo),
    (tab_get_Some _ _ _ Hr1), (tab_get_Some _ _ _ Hr2), (tab_get_Some _ _ _ Hsh),
    (tab_get_Some _ _ _ Hnt).
  cbn [mbind result_bind].
  unfold parse_core.
  cbn [getitem dict_get TABS String.eqb Ascii.eqb Bool.eqb].
  cbn [mbind result_bind mret result_ret].
  fold soup.
  split; [|split].
  - intros Hu. unfold validate_url. rewrite Hu. reflexivity.
  - intros u Hu Hl1 Hl2.
    unfold extract_reports, extract_shareholders, extract_notoria.
    cbn [getitem dict_get TABS String.eqb Ascii.eqb Bool.eqb].
    cbn [mbind result_bind mret result_ret].
    unfold validate_url at 1. rewrite Hu. cbn [mbind result_bind mret result_ret].
    destruct (extract_reports_rows_total _ "reports1" url u Hu Hl1) as [l1 E1].
    destruct (extract_reports_rows_total _ "reports2" url u Hu Hl2) as [l2 E2].
    destruct (extract_shareholders_rows_total
                (select (BeautifulSoup sh) ("#shareholdersTab" +:+ " table tbody tr"))
                url u Hu) as [l3 E3].
    destruct (extract_notoria_rows_total
                (select (BeautifulSoup nt) ("#showNotoria" +:+ " table tbody tr"))
                url u Hu) as [l4 E4].
    unfold report_links_ok in Hl1, Hl2.
    rewrite E1, E2, E3, E4.
    cbn [mbind result_bind mret result_ret].
    eexists _, l1, l2, l3, l4. split; [reflexivity|].
    repeat (split; [reflexivity|]).
    split.
    { intros Hnone. cbn [CompanyData.set_description CompanyData.isin].
      rewrite (get_text_from_none _ _ _ Hnone). reflexivity. }
    split; [reflexivity|]. split.
    + unfold text_fields. repeat (constructor; [reflexivity|]). constructor.
    + unfold text_fields.
      repeat (constructor; [cbn [fst snd]; apply get_text_from_none|]). constructor.
  - intros u Hu Hnone H1 H2 H3 H4.
    unfold extract_reports, extract_shareholders, extract_notoria.
    cbn [getitem dict_get TABS String.eqb Ascii.eqb Bool.eqb].
    cbn [mbind result_bind mret result_ret].
    unfold validate_url. rewrite !Hu. cbn [mbind result_bind mret result_ret].
    rewrite H1, H2, H3, H4, !Hnone.
    cbn [extract_reports_rows extract_shareholders_rows
         extract_notoria_rows mbind result_bind mret result_ret List.map app].
    unfold get_text_from, select_one. rewrite !Hnone.
    reflexivity.
Qed.
End Extractor.

Section ExtractorOnTheSite.
Import Sim.

(** C9, as stated, fails on the code: on a bundle in which no selector
    matches anything the record is returned with an empty [isin]. *)
Lemma extractor_leaves_isin_empty :
  extract_company_data ABC blank_bundle None
  = Ok (blank_company ABC None,
        {| company_data :=
             [as_dict (to_serializable (CompanyData.model_dump (blank_company ABC None)))];
           reports_data := [];
           shareholders_data := [];
           notoria_data := [] |})
  /\ CompanyData.isin (blank_company ABC None) = []
  /\ dict_get "isin" (as_dict (to_serializable
                                 (CompanyData.model_dump (blank_company ABC None))))
     = Some (VStr []).
Proof. repeat split; vm_compute; reflexivity. Qed.

Lemma sim_report_links_ok (html : list N) (tab : string) : report_links_ok html tab.
Proof.
  unfold report_links_ok. apply Forall_forall. intros row _ a Ha Hd.
  destruct row; try (vm_compute in Ha; discriminate Ha).
  revert Ha. unfold select_one. cbn [select soup sim_select].
  cbn [String.eqb Ascii.eqb Bool.eqb head]. intros Ha. injection Ha as <-.
  exists href. split; [reflexivity|]. vm_compute. eauto.
Qed.

Lemma sim_select_nothing (html : list N) (css : string) :
  contains (py "#shareholdersTab") html = false ->
  contains (py "#reportsTab1") html = false ->
  contains (py "#showNotoria") html = false ->
  select (BeautifulSoup html) css = [].
Proof.
  intros H1 H2 H3. cbn [select BeautifulSoup soup sim_select].
  rewrite H1, H2, H3, !andb_false_r. reflexivity.
Qed.

(** The amended C9 on the bundle in which every tab shows its document,
    and on the bundle in which no selector matches. *)
Lemma extractor_total_on_any_bundle_witness :
  (exists cd reps1 shs nts,
      extract_company_data ABC full_bundle (Some (py "opis"))
      = Ok (cd,
            {| company_data := [as_dict (to_serializable (CompanyData.model_dump cd))];
               reports_data :=
                 List.map (fun r => as_dict (to_serializable (Report.model_dump r))) reps1;
               shareholders_data :=
                 List.map (fun s => as_dict (to_serializable (Shareholder.model_dump s))) shs;
               notoria_data :=
                 List.map (fun n => as_dict (to_serializable (NotoriaMetric.model_dump n)))
                          nts |})
      /\ length reps1 = 1%nat /\ length shs = 1%nat /\ length nts = 1%nat
      /\ CompanyData.url cd = ABC
      /\ CompanyData.description cd = Some (py "opis")
      /\ CompanyData.isin cd = [])
  /\ extract_company_data ABC blank_bundle None
     = Ok (blank_company ABC None,
           {| company_data :=
                [as_dict (to_serializable (CompanyData.model_dump (blank_company ABC None)))];
              reports_data := [];
              shareholders_data := [];
              notoria_data := [] |}).
Proof.
  split.
  - destruct (proj1 (proj2
                (@extractor_total_on_any_bundle Sim.soup Sim.pydantic
                   ABC full_bundle (Some (py "opis")) _ _ _ _ _ _ _
                   eq_refl eq_refl eq_refl eq_refl eq_refl eq_refl eq_refl))
                ABC eq_refl (sim_report_links_ok _ _) (sim_report_links_ok _ _))
      as (cd & reps1 & reps2 & shs & nts & E & E1 & E2 & E3 & E4 & Hu & Hd & Hi & _).
    vm_compute in E1. injection E1 as <-.
    vm_compute in E2. injection E2 as <-.
    vm_compute in E3. injection E3 as <-.
    vm_compute in E4. injection E4 as <-.
    eexists cd, _, _, _. split; [exact E|].
    repeat (split; [reflexivity|]).
    split; [exact Hu|]. split; [exact Hd|]. rewrite Hi. vm_compute. reflexivity.
  - apply (proj2 (proj2
             (@extractor_total_on_any_bundle Sim.soup Sim.pydantic
                ABC blank_bundle None _ _ _ _ _ _ _
                eq_refl eq_refl eq_refl eq_refl eq_refl eq_refl eq_refl)) ABC eq_refl);
      intros css; apply sim_select_nothing; vm_compute; reflexivity.
Defined.
End ExtractorOnTheSite.

(** ** Running stateful computations *)

Lemma bind_Ok {S A B : Type} (m : St S A) (f : A -> St S B) (s s' : S) (a : A) :
  m s = (Ok a, s') -> (m ≫= f) s = f a s'.
Proof. intros H. unfold mbind, St_bind. rewrite H. reflexivity. Qed.

Lemma bind_Raise {S A B : Type} (m : St S A) (f : A -> St S B) (s s' : S) (e : exn) :
  m s = (Raise e, s') -> (m ≫= f) s = (Raise e, s').
Proof. intros H. unfold mbind, St_bind. rewrite H. reflexivity. Qed.

(** Unfold the plumbing of [St] in the goal. *)
Ltac st_unfold :=
  unfold try_finally, try_except, lift, gets, modify, raise;
  unfold mbind, mret, St_bind, St_ret; cbn beta iota.

(** ** The skip check *)

Section SkipCheck.
Context {soup_lib : Soup} {pydantic_lib : Pydantic} {outside : Env}.

Lemma recently_scraped_spec (last : option logval) (t : Z) :
  recently_scraped last (t - one_day) = Ok true
  <-> exists l, last = Some (Time l) /\ t - l < one_day.
Proof.
  unfold recently_scraped. destruct last as [[l|s]|].
  - split.
    + intros H. injection H as H. apply bool_decide_eq_true in H.
      exists l. split; [reflexivity | lia].
    + intros [l' [E H]]. injection E as ->. f_equal. apply bool_decide_eq_true. lia.
  - split; [discriminate | intros [l [E _]]; discriminate].
  - split; [discriminate | intros [l [E _]]; discriminate].
Qed.

Lemma recently_scraped_stale (last : option logval) (t : Z) :
  recently_scraped last (t - one_day) = Ok false
  <-> last = None \/ exists l, last = Some (Time l) /\ one_day <= t - l.
Proof.
  unfold recently_scraped. destruct last as [[l|s]|].
  - split.
    + intros H. injection H as H. apply bool_decide_eq_false in H.
      right. exists l. split; [reflexivity | lia].
    + intros [E|[l' [E H]]]; [discriminate|]. injection E as ->. f_equal.
      apply bool_decide_eq_false. lia.
  - split; [discriminate | intros [E|[l [E _]]]; discriminate].
  - split; [left; reflexivity | reflexivity].
Qed.

Lemma scrape_url_async_skips (url : list N) (skip_threshold : Z) (w : world) :
  recently_scraped (w_scrape_log w !! url) skip_threshold = Ok true ->
  scrape_url_async url skip_threshold w = (Ok (url, false), w).
Proof.
  intros H. unfold scrape_url_async. st_unfold. rewrite H. reflexivity.
Qed.

(** A text in the log makes the check raise, before any page is opened. *)
Lemma scrape_url_async_check_raises (url : list N) (skip_threshold : Z) (w : world)
    (e : exn) :
  recently_scraped (w_scrape_log w !! url) skip_threshold = Raise e ->
  scrape_url_async url skip_threshold w = (Raise e, w).
Proof.
  intros H. unfold scrape_url_async. st_unfold. rewrite H. reflexivity.
Qed.

(** The batch loads the log, reads the clock once and gives every task
    the threshold [now - 1 day]. *)
Lemma scrape_all_async_threshold (urls : list (list N)) (w : world) :
  scrape_all_async urls w
  = gather urls ((datetime_now (w_env w)).1 - one_day)
      (mkWorld (datetime_now (w_env w)).2 (w_trace w) (w_conn w) (w_log_file w)
         (load_scrape_log (w_log_file w))).
Proof.
  unfold scrape_all_async. destruct (datetime_now (w_env w)) as [t e']. reflexivity.
Qed.
End SkipCheck.

(** ** Collecting the tabs *)

Section Tabs.
Context {soup_lib : Soup} {pydantic_lib : Pydantic} {outside : Env}.

Lemma page_call_run {A : Type} (ev : event) (op : St env A) (w : world)
    (r : result A) (e' : env) :
  op (w_env w) = (r, e') -> page_call ev op w = (r, with_env e' [ev] w).
Proof. intros H. unfold page_call. rewrite H. reflexivity. Qed.

Lemma with_env_with_env (e1 e2 : env) (evs1 evs2 : list event) (w : world) :
  with_env e2 evs2 (with_env e1 evs1 w) = with_env e2 (evs1 ++ evs2) w.
Proof. unfold with_env. simpl. rewrite <- app_assoc. reflexivity. Qed.

Lemma page_call_next {A : Type} (ev : event) (op : St env A) (e e' : env)
    (evs : list event) (w : world) (r : result A) :
  op e = (r, e') ->
  page_call ev op (with_env e evs w) = (r, with_env e' (evs ++ [ev]) w).
Proof.
  intros H. rewrite (page_call_run ev op (with_env e evs w) r e' H).
  rewrite with_env_with_env. reflexivity.
Qed.

(** Replace a page call by its outcome [H]. *)
Ltac run_call H :=
  first [ rewrite (page_call_run _ _ _ _ _ H)
        | rewrite (page_call_next _ _ _ _ _ _ _ H) ];
  cbn [app].

Lemma collect_tab_click_fails (tab_key tab : string) (tab_html : gmap string (list N))
    (w : world) (e : exn) (e1 e2 : env) (html : list N) :
  dict_get tab_key TABS = Some tab ->
  click (nav_link tab) 15000 (w_env w) = (Raise e, e1) ->
  content e1 = (Ok html, e2) ->
  collect_tab tab_html tab_key w
  = (Ok (<[tab_key := html]> tab_html), with_env e2 [Click (nav_link tab); Content] w).
Proof.
  intros Ht Hclick Hcontent. unfold collect_tab, getitem. rewrite Ht. st_unfold.
  run_call Hclick.
  run_call Hcontent.
  reflexivity.
Qed.

Lemma collect_tab_wait_fails (tab_key tab table : string)
    (tab_html : gmap string (list N)) (w : world) (e : exn) (e1 e2 e3 : env)
    (html : list N) :
  dict_get tab_key TABS = Some tab ->
  dict_get tab_key tab_selectors = Some table ->
  click (nav_link tab) 15000 (w_env w) = (Ok tt, e1) ->
  wait_for_selector table 5000 e1 = (Raise e, e2) ->
  content e2 = (Ok html, e3) ->
  collect_tab tab_html tab_key w
  = (Ok (<[tab_key := html]> tab_html),
     with_env e3 [Click (nav_link tab); WaitForSelector table; Content] w).
Proof.
  intros Ht Hs Hclick Hwait Hcontent. unfold collect_tab, getitem. rewrite Ht, Hs. st_unfold.
  run_call Hclick.
  run_call Hwait.
  run_call Hcontent.
  reflexivity.
Qed.

(** Whatever happens in a turn that returns, it sets the entry of its
    tab, makes page calls only, and clicks the tab's link once. *)
Lemma collect_tab_returns (tab_key : string) (tab_html tab_html' : gmap string (list N))
    (w w' : world) :
  collect_tab tab_html tab_key w = (Ok tab_html', w') ->
  exists tab html e' evs,
    dict_get tab_key TABS = Some tab
    /\ tab_html' = <[tab_key := html]> tab_html
    /\ w' = with_env e' (Click (nav_link tab) :: evs) w
    /\ clicks evs = [].
Proof.
  unfold collect_tab, getitem.
  destruct (dict_get tab_key TABS) as [tab|] eqn:Ht; st_unfold; [|discriminate].
  destruct (click (nav_link tab) 15000 (w_env w)) as [[[]|e] e1] eqn:Hclick;
    run_call Hclick.
  - destruct (dict_get tab_key tab_selectors) as [table|] eqn:Hs.
    + destruct (wait_for_selector table 5000 e1) as [[[]|e] e2] eqn:Hwait;
        run_call Hwait.
      * destruct (content e2) as [[html|e] e3] eqn:Hc;
          run_call Hc.
        -- intros H. injection H as <- <-.
           exists tab, html, e3, [WaitForSelector table; Content]. repeat split.
        -- destruct (content e3) as [[html|e'] e4] eqn:Hc2;
             run_call Hc2; [|discriminate].
           intros H. injection H as <- <-.
           exists tab, html, e4, [WaitForSelector table; Content; Content]. repeat split.
      * destruct (content e2) as [[html|e'] e3] eqn:Hc;
          run_call Hc; [|discriminate].
        intros H. injection H as <- <-.
        exists tab, html, e3, [WaitForSelector table; Content]. repeat split.
    + destruct (content e1) as [[html|e'] e2] eqn:Hc;
        run_call Hc; [|discriminate].
      intros H. injection H as <- <-.
      exists tab, html, e2, [Content]. repeat split.
  - destruct (content e1) as [[html|e'] e2] eqn:Hc;
      run_call Hc; [|discriminate].
    intros H. injection H as <- <-.
    exists tab, html, e2, [Content]. repeat split.
Qed.

(** When the page can always be read, a turn returns for every tab of
    the list, whatever its click and its wait do. *)
Lemma collect_tab_total (tab_key tab : string) (tab_html : gmap string (list N))
    (w : world) :
  (forall e0, exists html e1, content e0 = (Ok html, e1)) ->
  dict_get tab_key TABS = Some tab ->
  exists tab_html' w', collect_tab tab_html tab_key w = (Ok tab_html', w').
Proof.
  intros Hcontent Ht. unfold collect_tab, getitem. rewrite Ht. st_unfold.
  destruct (click (nav_link tab) 15000 (w_env w)) as [[[]|e] e1] eqn:Hclick;
    run_call Hclick.
  - destruct (dict_get tab_key tab_selectors) as [table|] eqn:Hs.
    + destruct (wait_for_selector table 5000 e1) as [[[]|e] e2] eqn:Hwait;
        run_call Hwait;
        destruct (Hcontent e2) as [html [e3 Hc]];
        run_call Hc; eauto.
    + destruct (Hcontent e1) as [html [e2 Hc]];
        run_call Hc; eauto.
  - destruct (Hcontent e1) as [html [e2 Hc]];
      run_call Hc; eauto.
Qed.

Lemma collect_tabs_returns (keys : list string) (tab_html tab_html' : gmap string (list N))
    (w w' : world) :
  collect_tabs tab_html keys w = (Ok tab_html', w') ->
  (forall key, is_Some (tab_html' !! key) <-> is_Some (tab_html !! key) \/ In key keys)
  /\ (forall key, ~ In key keys -> tab_html' !! key = tab_html !! key)
  /\ exists e' evs tabs,
       w' = with_env e' evs w
       /\ Forall2 (fun key tab => dict_get key TABS = Some tab) keys tabs
       /\ clicks evs = List.map nav_link tabs.
Proof.
  revert tab_html w. induction keys as [|key keys IH]; intros tab_html w.
  - cbn [collect_tabs]. unfold mret, St_ret. intros H. injection H as <- <-.
    split; [intros key; simpl; tauto|]. split; [reflexivity|].
    exists (w_env w), [], []. split; [|split; [constructor|reflexivity]].
    unfold with_env. rewrite app_nil_r. destruct w; reflexivity.
  - cbn [collect_tabs]. unfold mbind, St_bind.
    destruct (collect_tab tab_html key w) as [[th1|e] w1] eqn:H1; [|discriminate].
    intros H2.
    destruct (collect_tab_returns _ _ _ _ _ H1) as [tab [html [e1 [evs1 [Ht [-> [-> Hc1]]]]]]].
    destruct (IH _ _ H2) as [Hdom [Hkeep [e2 [evs2 [tabs [-> [Htabs Hc2]]]]]]].
    split; [|split].
    + intros k. rewrite Hdom. rewrite lookup_insert_is_Some. simpl.
      destruct (decide (key = k)); intuition congruence.
    + intros k Hk. rewrite Hkeep by (intros Hin; apply Hk; right; exact Hin).
      apply lookup_insert_ne. intros ->. apply Hk. left. reflexivity.
    + exists e2, (Click (nav_link tab) :: evs1 ++ evs2), (tab :: tabs).
      split; [apply with_env_with_env|]. split; [constructor; assumption|].
      unfold clicks in *. simpl. rewrite flat_map_app, Hc1, Hc2. reflexivity.
Qed.

Lemma collect_tabs_total (keys : list string) (tab_html : gmap string (list N)) (w : world) :
  (forall e0, exists html e1, content e0 = (Ok html, e1)) ->
  (forall key, In key keys -> is_Some (dict_get key TABS)) ->
  exists tab_html' w', collect_tabs tab_html keys w = (Ok tab_html', w').
Proof.
  intros Hcontent. revert tab_html w.
  induction keys as [|key keys IH]; intros tab_html w Hkeys.
  - cbn [collect_tabs]. unfold mret, St_ret. eauto.
  - cbn [collect_tabs]. unfold mbind, St_bind.
    destruct (Hkeys key) as [tab Ht]; [left; reflexivity|].
    destruct (collect_tab_total key tab tab_html w Hcontent Ht) as [th1 [w1 ->]].
    apply IH. intros k Hk. apply Hkeys. right. exact Hk.
Qed.

Lemma tab_order_in_TABS (key : string) : In key tab_order -> is_Some (dict_get key TABS).
Proof.
  unfold tab_order. simpl.
  intros H. repeat (destruct H as [<-|H]; [vm_compute; eauto|]). destruct H.
Qed.

Lemma tab_order_tabs (tabs : list string) :
  Forall2 (fun key tab => dict_get key TABS = Some tab) tab_order tabs ->
  tabs = ["#indicatorsTab"; "#quotationsTab"; "#reportsTab1"; "#reportsTab2";
          "#shareholdersTab"; "#showNotoria"].
Proof.
  unfold tab_order. intros H.
  repeat match goal with
         | H : Forall2 _ (_ :: _) _ |- _ => inversion H; subst; clear H
         | H : Forall2 _ [] _ |- _ => inversion H; subst; clear H
         | H : dict_get _ TABS = Some _ |- _ => vm_compute in H; injection H as <-
         end.
  reflexivity.
Qed.

Lemma bundle_keys_spec (key : string) :
  In key bundle_keys <-> "info" = key \/ In key tab_order.
Proof. unfold bundle_keys, tab_order. simpl. tauto. Qed.

(** The whole collection, when it returns. *)
Lemma collect_tab_html_async_returns (tab_html : gmap string (list N)) (w w' : world) :
  collect_tab_html_async w = (Ok tab_html, w') ->
  (forall key, is_Some (tab_html !! key) <-> In key bundle_keys)
  /\ exists info e1 e' evs,
       content (w_env w) = (Ok info, e1)
       /\ tab_html !! "info" = Some info
       /\ w' = with_env e' (Content :: evs) w
       /\ clicks evs
          = List.map nav_link
              ["#indicatorsTab"; "#quotationsTab"; "#reportsTab1"; "#reportsTab2";
               "#shareholdersTab"; "#showNotoria"].
Proof.
  unfold collect_tab_html_async. unfold mbind, St_bind.
  destruct (content (w_env w)) as [[info|e] e1] eqn:Hc;
    run_call Hc; [|discriminate].
  intros H. destruct (collect_tabs_returns _ _ _ _ _ H)
    as [Hdom [Hkeep [e' [evs [tabs [-> [Htabs Hcl]]]]]]].
  split.
  - intros key. rewrite Hdom, bundle_keys_spec.
    rewrite lookup_singleton_is_Some. tauto.
  - exists info, e1, e', evs. split; [reflexivity|]. split; [|split].
    + rewrite Hkeep; [apply lookup_singleton_eq|].
      unfold tab_order. simpl. intuition discriminate.
    + rewrite with_env_with_env. reflexivity.
    + rewrite Hcl, (tab_order_tabs tabs Htabs). reflexivity.
Qed.

(** C5. A tab whose click fails, or whose wait fails after the click,
    gets the page content read right after the failure as its entry,
    with one click and no further attempt, and the loop goes on. When
    the page can be read, the collection returns for every outcome of
    the clicks and waits, with an entry under each of the seven keys and
    each of the six links clicked once, in the fixed order. *)
Theorem tab_failure_is_soft :
  (forall (tab_key tab : string) (tab_html : gmap string (list N)) (w : world)
          (e : exn) (e1 e2 : env) (html : list N),
      dict_get tab_key TABS = Some tab ->
      click (nav_link tab) 15000 (w_env w) = (Raise e, e1) ->
      content e1 = (Ok html, e2) ->
      collect_tab tab_html tab_key w
      = (Ok (<[tab_key := html]> tab_html),
         with_env e2 [Click (nav_link tab); Content] w))
  /\ (forall (tab_key tab table : string) (tab_html : gmap string (list N)) (w : world)
             (e : exn) (e1 e2 e3 : env) (html : list N),
         dict_get tab_key TABS = Some tab ->
         dict_get tab_key tab_selectors = Some table ->
         click (nav_link tab) 15000 (w_env w) = (Ok tt, e1) ->
         wait_for_selector table 5000 e1 = (Raise e, e2) ->
         content e2 = (Ok html, e3) ->
         collect_tab tab_html tab_key w
         = (Ok (<[tab_key := html]> tab_html),
            with_env e3 [Click (nav_link tab); WaitForSelector table; Content] w))
  /\ ((forall e0, exists html e1, content e0 = (Ok html, e1)) ->
      forall w : world,
      exists tab_html w',
        collect_tab_html_async w = (Ok tab_html, w')
        /\ (forall key, is_Some (tab_html !! key) <-> In key bundle_keys)
        /\ clicks (w_trace w')
           = clicks (w_trace w)
             ++ List.map nav_link
                  ["#indicatorsTab"; "#quotationsTab"; "#reportsTab1"; "#reportsTab2";
                   "#shareholdersTab"; "#showNotoria"]).
Proof.
  split; [exact collect_tab_click_fails|]. split; [exact collect_tab_wait_fails|].
  intros Hcontent w.
  assert (Hrun : exists tab_html w', collect_tab_html_async w = (Ok tab_html, w')).
  { unfold collect_tab_html_async. unfold mbind, St_bind.
    destruct (Hcontent (w_env w)) as [info [e1 Hc]].
    run_call Hc.
    apply collect_tabs_total; [exact Hcontent | exact tab_order_in_TABS]. }
  destruct Hrun as [tab_html [w' Hrun]]. exists tab_html, w'.
  split; [exact Hrun|].
  destruct (collect_tab_html_async_returns _ _ _ Hrun)
    as [Hdom [info [e1 [e' [evs [_ [_ [-> Hcl]]]]]]]].
  split; [exact Hdom|].
  unfold with_env, clicks in *. cbn [w_trace].
  rewrite flat_map_app. cbn [flat_map]. rewrite Hcl. reflexivity.
Qed.

(** C10. Every bundle the collection returns has an entry under exactly
    the seven keys; the entry under [info] is the content of the page as
    the collection found it, read by the first page call the collection
    makes, before any click, and no later turn changes it. *)
Theorem bundle_has_seven_keys_info_first :
  forall (w w' : world) (tab_html : gmap string (list N)),
    collect_tab_html_async w = (Ok tab_html, w') ->
    (forall key, is_Some (tab_html !! key) <-> In key bundle_keys)
    /\ exists info e1 evs,
         content (w_env w) = (Ok info, e1)
         /\ tab_html !! "info" = Some info
         /\ w_trace w' = w_trace w ++ Content :: evs.
Proof.
  intros w w' tab_html H.
  destruct (collect_tab_html_async_returns _ _ _ H)
    as [Hdom [info [e1 [e' [evs [Hc [Hi [-> _]]]]]]]].
  split; [exact Hdom|]. exists info, e1, evs. repeat split; assumption.
Qed.
End Tabs.

Section TabsOnTheSite.
Import Sim.

(** C5 on a page whose shareholders link cannot be clicked: the
    shareholders entry is the document the page still shows, and the
    collection returns all seven entries. *)
Lemma tab_failure_is_soft_witness :
  collect_tab ∅ "shareholders" (loaded 0 [nav_link "#shareholdersTab"])
  = (Ok {[ "shareholders" := py "<html>#infoTab</html>" ]},
     with_env (mkState 0 (py "<html>#infoTab</html>") [nav_link "#shareholdersTab"])
              [Click (nav_link "#shareholdersTab"); Content]
              (loaded 0 [nav_link "#shareholdersTab"]))
  /\ exists tab_html w',
       collect_tab_html_async (loaded 0 [nav_link "#shareholdersTab"]) = (Ok tab_html, w')
       /\ (forall key, is_Some (tab_html !! key) <-> In key bundle_keys)
       /\ clicks (w_trace w') = clicks [] ++ every_tab_link.
Proof.
  destruct (@tab_failure_is_soft Sim.outside) as [H1 [_ H3]].
  split.
  - apply (H1 "shareholders" "#shareholdersTab" ∅
              (loaded 0 [nav_link "#shareholdersTab"]) TimeoutError
              (mkState 0 (py "<html>#infoTab</html>") [nav_link "#shareholdersTab"]));
      vm_compute; reflexivity.
  - apply (H3 ltac:(intros e0; exists (shown e0), e0; reflexivity)
              (loaded 0 [nav_link "#shareholdersTab"])).
Defined.

(** C10 on a page none of whose six links can be clicked. *)
Lemma bundle_has_seven_keys_info_first_witness :
  exists tab_html w',
    collect_tab_html_async (loaded 0 every_tab_link) = (Ok tab_html, w')
    /\ (forall key, is_Some (tab_html !! key) <-> In key bundle_keys)
    /\ exists info e1 evs,
         content (w_env (loaded 0 every_tab_link)) = (Ok info, e1)
         /\ tab_html !! "info" = Some info
         /\ w_trace w' = w_trace (loaded 0 every_tab_link) ++ Content :: evs.
Proof.
  destruct (collect_tab_html_async (loaded 0 every_tab_link)) as [[tab_html|e] w'] eqn:E.
  - exists tab_html, w'. split; [reflexivity|].
    exact (@bundle_has_seven_keys_info_first Sim.outside
             (loaded 0 every_tab_link) w' tab_html E).
  - exfalso. vm_compute in E. discriminate E.
Defined.
End TabsOnTheSite.
(** ** The scrape log on disk *)

Section FoldInsert.
Context {V : Type}.

Lemma fold_insert_other (rows : list (list N * V)) (acc : gmap (list N) V) (k : list N) :
  ~ In k (List.map fst rows) ->
  fold_left (fun log row => <[row.1 := row.2]> log) rows acc !! k = acc !! k.
Proof.
  revert acc. induction rows as [|[k' v'] rows IH]; intros acc Hk; simpl; [reflexivity|].
  rewrite IH by (intros H; apply Hk; right; exact H).
  apply lookup_insert_ne. intros ->. apply Hk. left. reflexivity.
Qed.

Lemma fold_insert_last (rows : list (list N * V)) (acc : gmap (list N) V) (k : list N) (v : V) :
  List.NoDup (List.map fst rows) -> In (k, v) rows ->
  fold_left (fun log row => <[row.1 := row.2]> log) rows acc !! k = Some v.
Proof.
  revert acc. induction rows as [|[k' v'] rows IH]; intros acc Hnd Hin; [destruct Hin|].
  simpl in Hnd. inversion Hnd as [|? ? Hnotin Hnd']; subst.
  destruct Hin as [E|Hin].
  - injection E as -> ->. simpl. rewrite fold_insert_other by exact Hnotin.
    apply lookup_insert_eq.
  - simpl. apply IH; assumption.
Qed.

Lemma fold_insert_is_Some (rows : list (list N * V)) (acc : gmap (list N) V) (k : list N) :
  In k (List.map fst rows) ->
  is_Some (fold_left (fun log row => <[row.1 := row.2]> log) rows acc !! k).
Proof.
  revert acc. induction rows as [|[k' v'] rows IH]; intros acc Hin; [destruct Hin|].
  cbn [List.map fold_left fst snd] in *.
  destruct (in_dec (fun x y : list N => decide (x = y)) k (List.map fst rows)) as [Hk|Hk].
  - apply IH. exact Hk.
  - destruct Hin as [->|Hin]; [|contradiction].
    rewrite fold_insert_other by exact Hk. rewrite lookup_insert_eq. eauto.
Qed.

Lemma fold_insert_fmap {W : Type} (f : V -> W) (rows : list (list N * V))
    (acc : gmap (list N) V) :
  f <$> fold_left (fun log row => <[row.1 := row.2]> log) rows acc
  = fold_left (fun log row => <[row.1 := row.2]> log)
              (List.map (fun row => (row.1, f row.2)) rows) (f <$> acc).
Proof.
  revert acc. induction rows as [|[k v] rows IH]; intros acc; [reflexivity|].
  cbn [fold_left List.map fst snd]. rewrite IH, fmap_insert. reflexivity.
Qed.
End FoldInsert.

(** *** Prints keep the time *)

Lemma stamp_time_str_of_time (t : Z) : stamp_time (str_of_time t) = t.
Proof.
  unfold str_of_time. destruct (t mod 1000000 =? 0) eqn:E; [|reflexivity].
  apply Z.eqb_eq in E. cbn [stamp_time].
  pose proof (Z.div_mod t 1000000 ltac:(lia)). lia.
Qed.

Lemma logval_time_print_value (v : logval) : stamp_time (print_value v) = logval_time v.
Proof. destruct v; [apply stamp_time_str_of_time | reflexivity]. Qed.

Lemma row_times_print_times (rows : list (list N * Z)) : row_times (print_times rows) = rows.
Proof.
  unfold print_times, row_times. rewrite List.map_map.
  destruct (existsb _ rows) eqn:E.
  - rewrite <- (List.map_id rows) at 2. apply List.map_ext. intros [u t]. reflexivity.
  - rewrite <- (List.map_id rows) at 2. apply List.map_ext_in. intros [u t] Hin.
    cbn [fst snd stamp_time]. f_equal.
    assert (Ht : negb (t mod 1000000 =? 0) = false).
    { destruct (negb (t mod 1000000 =? 0)) eqn:Ht; [|reflexivity].
      rewrite <- E. symmetry. apply existsb_exists. exists (u, t). split; assumption. }
    apply negb_false_iff, Z.eqb_eq in Ht.
    pose proof (Z.div_mod t 1000000 ltac:(lia)). lia.
Qed.

Lemma row_times_print_values (l : list (list N * logval)) :
  row_times (List.map (fun row => (row.1, print_value row.2)) l)
  = List.map (fun row => (row.1, logval_time row.2)) l.
Proof.
  unfold row_times. rewrite List.map_map. apply List.map_ext. intros [u v].
  cbn [fst snd]. rewrite logval_time_print_value. reflexivity.
Qed.

Lemma read_log_times (rows : list (list N * stamp)) :
  List.map (fun row => (row.1, logval_time row.2)) (read_log rows) = row_times rows.
Proof.
  unfold read_log, row_times. destruct (parses rows); rewrite List.map_map; reflexivity.
Qed.

Lemma read_log_urls (rows : list (list N * stamp)) :
  List.map fst (read_log rows) = List.map fst rows.
Proof. unfold read_log. destruct (parses rows); rewrite List.map_map; reflexivity. Qed.

(** The times [load_scrape_log] returns, as times or as text. *)
Lemma load_scrape_log_times (rows : list (list N * stamp)) :
  log_times (load_scrape_log (Some rows))
  = fold_left (fun log row => <[row.1 := row.2]> log) (row_times rows) ∅.
Proof.
  unfold log_times, load_scrape_log. rewrite fold_insert_fmap, read_log_times.
  rewrite fmap_empty. reflexivity.
Qed.

(** The urls and times a save leaves in the file: the stored rows of
    the urls the dict does not have, then the entries of the dict. *)
Lemma save_scrape_log_times (log : gmap (list N) logval)
    (file file' : option (list (list N * stamp))) :
  save_scrape_log log file = Ok file' ->
  exists rows',
    file' = Some rows'
    /\ row_times rows'
       = List.filter
           (fun row => negb (bool_decide (row.1 ∈ List.map fst (map_to_list log))))
           (row_times (match file with Some rows => rows | None => [] end))
         ++ List.map (fun row => (row.1, logval_time row.2)) (map_to_list log).
Proof.
  unfold save_scrape_log.
  set (stored := match file with Some rows => rows | None => [] end).
  destruct (map_to_list log) as [|row rows] eqn:E; [discriminate|]. rewrite <- E.
  set (kept := List.filter _ (read_log stored)).
  assert (Hkept : List.map (fun row => (row.1, logval_time row.2)) kept
                  = List.filter
                      (fun row => negb (bool_decide (row.1 ∈ List.map fst (map_to_list log))))
                      (row_times stored)).
  { unfold kept. rewrite <- read_log_times, filter_map_comm. reflexivity. }
  destruct (parses stored && forallb _ (map_to_list log));
    intros H; injection H as <-; eexists; (split; [reflexivity|]).
  - rewrite row_times_print_times, List.map_app, Hkept. reflexivity.
  - rewrite row_times_print_values, List.map_app, Hkept. reflexivity.
Qed.

Lemma map_to_list_keys (log : gmap (list N) logval) (k : list N) :
  In k (List.map fst (map_to_list log)) <-> is_Some (log !! k).
Proof.
  rewrite in_map_iff. split.
  - intros [[k' v] [<- Hin]]. exists v. apply elem_of_map_to_list.
    apply list_elem_of_In. exact Hin.
  - intros [v Hv]. exists (k, v). split; [reflexivity|].
    apply list_elem_of_In. apply elem_of_map_to_list. exact Hv.
Qed.

Lemma saved_urls_NoDup (log : gmap (list N) logval) :
  List.NoDup (List.map fst
                (List.map (fun row : list N * logval => (row.1, logval_time row.2))
                          (map_to_list log))).
Proof.
  rewrite List.map_map. cbn [fst]. apply NoDup_ListNoDup.
  change (List.map (fun x : list N * logval => x.1) (map_to_list log))
    with ((map_to_list log).*1).
  apply NoDup_fst_map_to_list.
Qed.

(** The time that is saved is the time that is loaded back, for every
    url of the log. *)
Lemma load_after_save (log : gmap (list N) logval)
    (file file' : option (list (list N * stamp))) (k : list N) (v : logval) :
  save_scrape_log log file = Ok file' -> log !! k = Some v ->
  log_times (load_scrape_log file') !! k = Some (logval_time v).
Proof.
  intros Hsave Hk.
  destruct (save_scrape_log_times _ _ _ Hsave) as [rows' [-> Hrows]].
  rewrite load_scrape_log_times, Hrows, fold_left_app.
  apply fold_insert_last; [apply saved_urls_NoDup|].
  apply in_map_iff. exists (k, v). split; [reflexivity|].
  apply list_elem_of_In. apply elem_of_map_to_list. exact Hk.
Qed.

Lemma save_scrape_log_insert (log : gmap (list N) logval)
    (file : option (list (list N * stamp))) (k : list N) (v : logval) :
  exists rows', save_scrape_log (<[k := v]> log) file = Ok (Some rows').
Proof.
  unfold save_scrape_log.
  destruct (map_to_list (<[k := v]> log)) as [|row rows] eqn:E.
  - apply map_to_list_empty_iff in E. exfalso. exact (insert_non_empty _ _ _ E).
  - destruct (parses _ && _); eauto.
Qed.

(** ** The task of one company *)

Section TaskRuns.
Context {soup_lib : Soup} {pydantic_lib : Pydantic} {outside : Env}.

Lemma keeps_log_ret {A : Type} (a : A) : keeps_log (mret a).
Proof. intros w r w' H. injection H as <- <-. split; reflexivity. Qed.

Lemma keeps_log_lift {A : Type} (x : result A) : keeps_log (lift x).
Proof. intros w r w' H. injection H as <- <-. split; reflexivity. Qed.

Lemma keeps_log_page_call {A : Type} (ev : event) (op : St env A) :
  keeps_log (page_call ev op).
Proof.
  intros w r w'. unfold page_call. destruct (op (w_env w)) as [r0 e'].
  intros H. injection H as <- <-. split; reflexivity.
Qed.

Lemma keeps_log_with_conn {A : Type}
    (m : St (gmap string (DataFrame (option (list N)))) A) :
  keeps_log (with_conn m).
Proof.
  intros w r w'. unfold with_conn. destruct (m (w_conn w)) as [r0 c'].
  intros H. injection H as <- <-. split; reflexivity.
Qed.

Lemma keeps_log_bind {A B : Type} (m : St world A) (f : A -> St world B) :
  keeps_log m -> (forall a, keeps_log (f a)) -> keeps_log (m ≫= f).
Proof.
  intros Hm Hf w r w'. unfold mbind, St_bind.
  destruct (m w) as [[a|e] w1] eqn:E; intros H.
  - destruct (Hm w _ _ E) as [H1 H2]. destruct (Hf a w1 _ _ H) as [H3 H4].
    split; congruence.
  - injection H as <- <-. exact (Hm w _ _ E).
Qed.

Lemma keeps_log_try_except {A : Type} (m : St world A) (h : exn -> St world A) :
  keeps_log m -> (forall e, keeps_log (h e)) -> keeps_log (try_except m h).
Proof.
  intros Hm Hh w r w'. unfold try_except.
  destruct (m w) as [[a|e] w1] eqn:E; intros H.
  - injection H as <- <-. exact (Hm w _ _ E).
  - destruct (Hm w _ _ E) as [H1 H2]. destruct (Hh e w1 _ _ H) as [H3 H4].
    split; congruence.
Qed.

Lemma keeps_log_collect_tab (tab_html : gmap string (list N)) (tab_key : string) :
  keeps_log (collect_tab tab_html tab_key).
Proof.
  unfold collect_tab.
  apply keeps_log_bind; [apply keeps_log_lift|]. intros tab.
  apply keeps_log_try_except.
  - apply keeps_log_bind; [apply keeps_log_page_call|]. intros _.
    apply keeps_log_bind; [apply keeps_log_lift|]. intros table.
    apply keeps_log_bind; [apply keeps_log_page_call|]. intros _.
    apply keeps_log_bind; [apply keeps_log_page_call|]. intros html.
    apply keeps_log_ret.
  - intros _. apply keeps_log_bind; [apply keeps_log_page_call|]. intros html.
    apply keeps_log_ret.
Qed.

Lemma keeps_log_collect_tabs (keys : list string) (tab_html : gmap string (list N)) :
  keeps_log (collect_tabs tab_html keys).
Proof.
  revert tab_html. induction keys as [|key keys IH]; intros tab_html; cbn [collect_tabs].
  - apply keeps_log_ret.
  - apply keeps_log_bind; [apply keeps_log_collect_tab | exact IH].
Qed.

Lemma keeps_log_scrape_steps (url : list N) : keeps_log (scrape_steps url).
Proof.
  unfold scrape_steps.
  apply keeps_log_bind; [apply keeps_log_page_call|]. intros _.
  apply keeps_log_bind.
  { unfold extract_description_async.
    apply keeps_log_bind; [apply keeps_log_page_call|]. intros s. apply keeps_log_ret. }
  intros description.
  apply keeps_log_bind.
  { unfold collect_tab_html_async.
    apply keeps_log_bind; [apply keeps_log_page_call|]. intros info.
    apply keeps_log_collect_tabs. }
  intros tab_html. apply keeps_log_with_conn.
Qed.

(** Marking a company as scraped cannot fail: it stamps the clock
    reading in the dict and saves the dict, which leaves a row of that
    url and time in the file. *)
Lemma mark_scraped_run (url : list N) (w : world) (t : Z) (e' : env) :
  datetime_now (w_env w) = (t, e') ->
  exists rows',
    save_scrape_log (<[url := Time t]> (w_scrape_log w)) (w_log_file w) = Ok (Some rows')
    /\ mark_scraped url w
       = (Ok tt, mkWorld e' (w_trace w) (w_conn w) (Some rows')
                   (<[url := Time t]> (w_scrape_log w)))
    /\ log_times (load_scrape_log (Some rows')) !! url = Some t.
Proof.
  intros Hnow.
  destruct (save_scrape_log_insert (w_scrape_log w) (w_log_file w) url (Time t))
    as [rows' Hsave].
  exists rows'. split; [exact Hsave|]. split.
  - unfold mark_scraped, now, scrape_log_set, save_log. st_unfold.
    rewrite Hnow. cbn [w_env w_trace w_conn w_log_file w_scrape_log].
    rewrite Hsave. reflexivity.
  - apply (load_after_save _ _ _ url (Time t) Hsave). apply lookup_insert_eq.
Qed.

(** The task once the page is open: the guarded statements, then the
    page is closed whatever happened. *)
Lemma scrape_url_async_run (url : list N) (skip_threshold : Z) (w w1 : world) :
  recently_scraped (w_scrape_log w !! url) skip_threshold = Ok false ->
  page_call NewPage new_page w = (Ok tt, w1) ->
  scrape_url_async url skip_threshold w
  = try_finally
      (try_except (scrape_steps url;; mark_scraped url;; mret (url, true))
                  (fun _ => mret (url, false)))
      (page_call Close close) w1.
Proof.
  intros Hskip Hpage. unfold scrape_url_async.
  unfold gets, lift. unfold mbind at 1. unfold St_bind at 1.
  unfold mbind at 1. unfold St_bind at 1. rewrite Hskip.
  unfold mbind at 1. unfold St_bind at 1. rewrite Hpage. reflexivity.
Qed.

Lemma scrape_url_async_no_page (url : list N) (skip_threshold : Z) (w w1 : world) (e : exn) :
  recently_scraped (w_scrape_log w !! url) skip_threshold = Ok false ->
  page_call NewPage new_page w = (Raise e, w1) ->
  scrape_url_async url skip_threshold w = (Raise e, w1).
Proof.
  intros Hskip Hpage. unfold scrape_url_async.
  unfold gets, lift. unfold mbind at 1. unfold St_bind at 1.
  unfold mbind at 1. unfold St_bind at 1. rewrite Hskip.
  unfold mbind at 1. unfold St_bind at 1. rewrite Hpage. reflexivity.
Qed.

(** The ways a task ends, once it is not skipped and its page is open:
    with the outcome of the close in both. *)
Lemma scrape_url_async_ends (url : list N) (skip_threshold : Z) (w w1 w' : world)
    (r : result (list N * bool)) :
  recently_scraped (w_scrape_log w !! url) skip_threshold = Ok false ->
  page_call NewPage new_page w = (Ok tt, w1) ->
  scrape_url_async url skip_threshold w = (r, w') ->
  (exists w2 w3 rc,
      scrape_steps url w1 = (Ok tt, w2)
      /\ mark_scraped url w2 = (Ok tt, w3)
      /\ page_call Close close w3 = (rc, w')
      /\ r = closing rc (Ok (url, true)))
  \/ (exists e w2 rc,
        scrape_steps url w1 = (Raise e, w2)
        /\ page_call Close close w2 = (rc, w')
        /\ r = closing rc (Ok (url, false))).
Proof.
  intros Hskip Hpage. rewrite (scrape_url_async_run url skip_threshold w w1 Hskip Hpage).
  unfold try_finally, try_except.
  destruct (scrape_steps url w1) as [[[]|e] w2] eqn:Hsteps.
  - rewrite (bind_Ok _ _ w1 w2 tt Hsteps).
    destruct (datetime_now (w_env w2)) as [t e3] eqn:Hnow.
    destruct (mark_scraped_run url w2 t e3 Hnow) as [file' [_ [Hmark _]]].
    rewrite (bind_Ok _ _ w2 _ tt Hmark). unfold mret, St_ret.
    destruct (page_call Close close _) as [rc w4] eqn:Hclose.
    intros H. left. eexists w2, _, rc. split; [reflexivity|]. split; [exact Hmark|].
    split; [rewrite Hclose; destruct rc; injection H as _ <-; reflexivity|].
    destruct rc; injection H as <- _; reflexivity.
  - rewrite (bind_Raise _ _ w1 w2 e Hsteps). unfold mret, St_ret.
    destruct (page_call Close close w2) as [rc w4] eqn:Hclose.
    intros H. right. exists e, w2, rc. split; [reflexivity|].
    split; [rewrite Hclose; destruct rc; injection H as _ <-; reflexivity|].
    destruct rc; injection H as <- _; reflexivity.
Qed.

(** C3 (amended). For a task that is not skipped. When opening the page
    raises, that exception is the outcome of the task and the log is as
    it was. When the page is open: if navigation, description, tabs,
    extraction and persistence complete, the clock is read, that reading
    becomes the entry of the url in the dict and the time of its row in
    the file, and the task returns [(url, True)]; if any of them raises,
    the exception is caught, the dict and the file are left as they were,
    and the task returns [(url, False)]. In both cases the page is then
    closed, which leaves the log alone: when the close returns the
    outcome stands, when it raises its exception is the outcome of the
    task. A task that returns lets the batch go on with the next url. *)
Theorem log_written_iff_steps_complete :
  forall (url : list N) (skip_threshold : Z) (w : world),
    recently_scraped (w_scrape_log w !! url) skip_threshold = Ok false ->
    (forall e w1,
        page_call NewPage new_page w = (Raise e, w1) ->
        scrape_url_async url skip_threshold w = (Raise e, w1)
        /\ w_scrape_log w1 = w_scrape_log w
        /\ w_log_file w1 = w_log_file w)
    /\ (forall w1,
          page_call NewPage new_page w = (Ok tt, w1) ->
          (forall w2,
              scrape_steps url w1 = (Ok tt, w2) ->
              exists w3,
                mark_scraped url w2 = (Ok tt, w3)
                /\ w_scrape_log w3
                   = <[url := Time (datetime_now (w_env w2)).1]> (w_scrape_log w)
                /\ log_times (load_scrape_log (w_log_file w3)) !! url
                   = Some (datetime_now (w_env w2)).1
                /\ forall rc w',
                     page_call Close close w3 = (rc, w') ->
                     scrape_url_async url skip_threshold w
                     = (closing rc (Ok (url, true)), w')
                     /\ w_scrape_log w' = w_scrape_log w3
                     /\ w_log_file w' = w_log_file w3)
          /\ (forall e w2,
                scrape_steps url w1 = (Raise e, w2) ->
                forall rc w',
                  page_call Close close w2 = (rc, w') ->
                  scrape_url_async url skip_threshold w
                  = (closing rc (Ok (url, false)), w')
                  /\ w_scrape_log w' = w_scrape_log w
                  /\ w_log_file w' = w_log_file w))
    /\ (forall (r : result (list N * bool)) (e : exn),
          closing (Ok tt) r = r /\ closing (Raise e) r = Raise e)
    /\ (forall r w' urls,
          scrape_url_async url skip_threshold w = (Ok r, w') ->
          gather (url :: urls) skip_threshold w
          = and_then r (gather urls skip_threshold w')).
Proof.
  intros url skip_threshold w Hskip. split; [|split; [|split]].
  - intros e w1 Hpage.
    destruct (keeps_log_page_call NewPage new_page w _ _ Hpage) as [Hl1 Hf1].
    split; [|split; assumption].
    apply scrape_url_async_no_page; assumption.
  - intros w1 Hpage.
    pose proof (scrape_url_async_run url skip_threshold w w1 Hskip Hpage) as Hrun.
    destruct (keeps_log_page_call NewPage new_page w _ _ Hpage) as [Hl1 Hf1].
    split.
    + intros w2 Hsteps.
      destruct (keeps_log_scrape_steps url w1 _ _ Hsteps) as [Hl2 Hf2].
      destruct (datetime_now (w_env w2)) as [t e3] eqn:Hnow.
      destruct (mark_scraped_run url w2 t e3 Hnow) as [rows' [Hsave [Hmark Hload]]].
      eexists. split; [exact Hmark|]. cbn [w_scrape_log w_log_file fst].
      split; [congruence|]. split; [exact Hload|].
      intros rc w' Hclose.
      destruct (keeps_log_page_call Close close _ _ _ Hclose) as [Hl4 Hf4].
      split; [|split; assumption].
      rewrite Hrun. unfold try_finally, try_except.
      unfold mbind at 1. unfold St_bind at 1. rewrite Hsteps.
      unfold mbind at 1. unfold St_bind at 1. rewrite Hmark.
      unfold mret, St_ret. rewrite Hclose. destruct rc; reflexivity.
    + intros e w2 Hsteps rc w' Hclose.
      destruct (keeps_log_scrape_steps url w1 _ _ Hsteps) as [Hl2 Hf2].
      destruct (keeps_log_page_call Close close w2 _ _ Hclose) as [Hl4 Hf4].
      split; [|split; congruence].
      rewrite Hrun. unfold try_finally, try_except.
      unfold mbind at 1. unfold St_bind at 1. rewrite Hsteps.
      unfold mret, St_ret. rewrite Hclose. destruct rc; reflexivity.
  - intros r e. split; reflexivity.
  - intros r w' urls Htask. cbn [gather]. rewrite Htask. reflexivity.
Qed.

(** X16. When the page has opened and loaded and the read of the description
    region raises, the task makes no further page call but the close: no
    tab is clicked, nothing is extracted or stored, the log is untouched,
    and the outcome is [(url, False)] (or the exception of the close).
    When the read returns, the description is the stripped text, a
    [str]. *)
Theorem description_failure_ends_the_task :
  (forall (url : list N) (skip_threshold : Z) (w : world) (e1 e2 e3 : env) (err : exn),
      recently_scraped (w_scrape_log w !! url) skip_threshold = Ok false ->
      new_page (w_env w) = (Ok tt, e1) ->
      goto url 30000 e1 = (Ok tt, e2) ->
      inner_text description_selector 3000 e2 = (Raise err, e3) ->
      scrape_url_async url skip_threshold w
      = (closing (close e3).1 (Ok (url, false)),
         with_env (close e3).2
           [NewPage; Goto url; InnerText description_selector; Close] w))
  /\ (forall (w : world) (s : list N) (e' : env),
        inner_text description_selector 3000 (w_env w) = (Ok s, e') ->
        extract_description_async w
        = (Ok (strip s), with_env e' [InnerText description_selector] w)).
Proof.
  split.
  - intros url skip_threshold w e1 e2 e3 err Hskip Hpage Hgoto Htext.
    rewrite (scrape_url_async_run url skip_threshold w (with_env e1 [NewPage] w) Hskip)
      by (apply page_call_run; exact Hpage).
    unfold try_finally, try_except, scrape_steps, extract_description_async.
    unfold mbind, St_bind, mret, St_ret.
    rewrite (page_call_next (Goto url) _ e1 e2 [NewPage] w _ Hgoto).
    rewrite (page_call_next (InnerText description_selector) _ e2 e3 _ w _ Htext).
    destruct (close e3) as [rc e4] eqn:Hclose.
    rewrite (page_call_next Close close e3 e4 _ w _ Hclose).
    cbn [app fst snd]. destruct rc; reflexivity.
  - intros w s e' Htext. unfold extract_description_async.
    unfold mbind, St_bind, mret, St_ret.
    rewrite (page_call_run _ _ w _ _ Htext). reflexivity.
Qed.
End TaskRuns.

Section TaskOnTheSite.
Import Sim.

(** C2, as stated, fails on the code: the page opens and loads, the read
    of the description region times out, and the task ends as
    [(url, False)] after closing the page: no tab was clicked, nothing
    was stored, the log was not written. With the description readable
    the same task clicks the six tabs and returns [(url, True)]. *)
Lemma description_timeout_fails_the_task :
  @goto Sim.outside ABC 30000 (mkState noon [] [description_selector])
  = (Ok tt, mkState noon (py "<html>#infoTab</html>") [description_selector])
  /\ scrape_url_async ABC (noon - one_day) (clean_start [description_selector])
     = (Ok (ABC, false),
        @with_env Sim.outside (mkState noon (py "<html>#infoTab</html>") [description_selector])
          [NewPage; Goto ABC; InnerText description_selector; Close]
          (clean_start [description_selector]))
  /\ (scrape_url_async ABC (noon - one_day) (clean_start [])).1 = Ok (ABC, true)
  /\ clicks (w_trace (scrape_url_async ABC (noon - one_day) (clean_start [])).2)
     = every_tab_link.
Proof. repeat split; vm_compute; reflexivity. Qed.

(** The general statement on the same run. *)
Lemma description_failure_ends_the_task_witness :
  scrape_url_async ABC (noon - one_day) (clean_start [description_selector])
  = (closing (close (mkState noon (py "<html>#infoTab</html>") [description_selector])).1
       (Ok (ABC, false)),
     with_env (close (mkState noon (py "<html>#infoTab</html>") [description_selector])).2
       [NewPage; Goto ABC; InnerText description_selector; Close]
       (clean_start [description_selector])).
Proof.
  apply (proj1 (@description_failure_ends_the_task Sim.soup Sim.pydantic Sim.outside)
           ABC (noon - one_day) (clean_start [description_selector])
           (mkState noon [] [description_selector])
           (mkState noon (py "<html>#infoTab</html>") [description_selector])
           (mkState noon (py "<html>#infoTab</html>") [description_selector])
           TimeoutError);
    vm_compute; reflexivity.
Defined.

(** C3, as stated, fails on the code: an exception of [new_page], which
    comes after the skip check and before [try], is not caught: the task
    ends with it, not with [(url, False)]; an exception of
    [page.close()] in [finally] does the same after the log has been
    written. *)
Lemma page_errors_escape_the_task :
  recently_scraped (w_scrape_log (clean_start ["new_page"]) !! ABC) (noon - one_day)
  = Ok false
  /\ scrape_url_async ABC (noon - one_day) (clean_start ["new_page"])
     = (Raise PlaywrightError,
        @with_env Sim.outside (mkState noon [] ["new_page"]) [NewPage] (clean_start ["new_page"]))
  /\ (scrape_url_async ABC (noon - one_day) (clean_start ["close"])).1
     = Raise PlaywrightError
  /\ w_log_file (scrape_url_async ABC (noon - one_day) (clean_start ["close"])).2
     = Some [(ABC, Seconds 1700000000)].
Proof. repeat split; vm_compute; reflexivity. Qed.

(** The amended C3 on a run that completes, on a run whose navigation
    times out, and on a run whose page does not open. *)
Lemma log_written_iff_steps_complete_witness :
  (exists w2 w3 rc w',
      scrape_steps ABC (@with_env Sim.outside (mkState noon [] []) [NewPage] (clean_start []))
      = (Ok tt, w2)
      /\ mark_scraped ABC w2 = (Ok tt, w3)
      /\ page_call Close close w3 = (rc, w')
      /\ scrape_url_async ABC (noon - one_day) (clean_start [])
         = (closing rc (Ok (ABC, true)), w')
      /\ w_scrape_log w' = <[ABC := Time (datetime_now (w_env w2)).1]> ∅
      /\ log_times (load_scrape_log (w_log_file w')) !! ABC
         = Some (datetime_now (w_env w2)).1)
  /\ (exists e w2 rc w',
        scrape_steps ABC
          (@with_env Sim.outside (mkState noon [] ["goto"]) [NewPage] (clean_start ["goto"]))
        = (Raise e, w2)
        /\ page_call Close close w2 = (rc, w')
        /\ scrape_url_async ABC (noon - one_day) (clean_start ["goto"])
           = (closing rc (Ok (ABC, false)), w')
        /\ w_scrape_log w' = ∅
        /\ w_log_file w' = None)
  /\ scrape_url_async ABC (noon - one_day) (clean_start ["new_page"])
     = (Raise PlaywrightError,
        @with_env Sim.outside (mkState noon [] ["new_page"]) [NewPage]
          (clean_start ["new_page"])).
Proof.
  split; [|split].
  - destruct (@log_written_iff_steps_complete Sim.soup Sim.pydantic Sim.outside
                ABC (noon - one_day) (clean_start [])
                ltac:(vm_compute; reflexivity)) as [_ [H _]].
    destruct (H (@with_env Sim.outside (mkState noon [] []) [NewPage] (clean_start []))
                ltac:(vm_compute; reflexivity)) as [Hok _].
    destruct (scrape_steps ABC
                (@with_env Sim.outside (mkState noon [] []) [NewPage] (clean_start [])))
      as [[[]|e] w2] eqn:E.
    + destruct (Hok w2 eq_refl) as [w3 [Hmark [Hlog [Hfile Hclose]]]].
      destruct (page_call Close close w3) as [rc w'] eqn:Ec.
      destruct (Hclose rc w' eq_refl) as [Hrun [Hl Hf]].
      exists w2, w3, rc, w'. split; [reflexivity|]. split; [exact Hmark|].
      split; [exact Ec|]. split; [exact Hrun|]. split.
      * rewrite Hl. exact Hlog.
      * rewrite Hf. exact Hfile.
    + exfalso. vm_compute in E. discriminate E.
  - destruct (@log_written_iff_steps_complete Sim.soup Sim.pydantic Sim.outside
                ABC (noon - one_day) (clean_start ["goto"])
                ltac:(vm_compute; reflexivity)) as [_ [H _]].
    destruct (H (@with_env Sim.outside (mkState noon [] ["goto"]) [NewPage]
                   (clean_start ["goto"]))
                ltac:(vm_compute; reflexivity)) as [_ Hfail].
    destruct (scrape_steps ABC
                (@with_env Sim.outside (mkState noon [] ["goto"]) [NewPage]
                   (clean_start ["goto"])))
      as [[[]|e] w2] eqn:E.
    + exfalso. vm_compute in E. discriminate E.
    + destruct (page_call Close close w2) as [rc w'] eqn:Ec.
      destruct (Hfail e w2 eq_refl rc w' Ec) as [Hrun [Hl Hf]].
      exists e, w2, rc, w'. split; [reflexivity|]. split; [exact Ec|].
      split; [exact Hrun|]. split; assumption.
  - destruct (@log_written_iff_steps_complete Sim.soup Sim.pydantic Sim.outside
                ABC (noon - one_day) (clean_start ["new_page"])
                ltac:(vm_compute; reflexivity)) as [H _].
    exact (proj1 (H PlaywrightError _ ltac:(vm_compute; reflexivity))).
Defined.
End TaskOnTheSite.

(** ** Running the pipeline twice *)

Lemma update_sqlite_frame (table k : string) (R : list (list (string * pyval)))
    (conn conn' : gmap string (DataFrame (option (list N)))) :
  update_sqlite table R k conn = (Ok tt, conn') ->
  (R = [] /\ conn' = conn)
  \/ exists T, conn' = <[table := T]> conn
               /\ forall d : gmap string (DataFrame (option (list N))),
                    d !! table = conn !! table ->
                    update_sqlite table R k d = (Ok tt, <[table := T]> d).
Proof.
  destruct R as [|row0 rest].
  - intros H. injection H as <-. left. split; reflexivity.
  - intros H. right. revert H.
    unfold update_sqlite, read_sql, select_all, to_sql. cbv beta iota zeta.
    destruct (conn !! table) as [t|] eqn:Hc;
      (destruct (mapM sql_bind_row _) as [rs|] eqn:E; [|discriminate];
       intros H; injection H as <-;
       eexists; split; [reflexivity|];
       intros d Hd; rewrite Hd; rewrite E; reflexivity).
Qed.

Lemma update_sqlite_other (table k : string) (R : list (list (string * pyval)))
    (conn conn' : gmap string (DataFrame (option (list N)))) (t : string) :
  update_sqlite table R k conn = (Ok tt, conn') -> t <> table -> conn' !! t = conn !! t.
Proof.
  intros H Ht. destruct (update_sqlite_frame _ _ _ _ _ H) as [[_ ->]|[T [-> _]]];
    [reflexivity|]. apply lookup_insert_ne. congruence.
Qed.

(** A table that a write leaves as it is stays so in any store that holds
    the same table. *)
Lemma update_sqlite_fixed (table k : string) (R : list (list (string * pyval)))
    (conn d : gmap string (DataFrame (option (list N)))) :
  update_sqlite table R k conn = (Ok tt, conn) -> d !! table = conn !! table ->
  update_sqlite table R k d = (Ok tt, d).
Proof.
  intros H Hd. destruct (update_sqlite_frame _ _ _ _ _ H) as [[-> _]|[T [HT Hall]]];
    [reflexivity|].
  rewrite (Hall d Hd). f_equal. apply insert_id.
  rewrite Hd, HT. apply lookup_insert_eq.
Qed.

Section Idempotence.
Context {soup_lib : Soup} {pydantic_lib : Pydantic}.

Lemma extract_reports_rows_url (rows : list tag) (tab_key : string) (url : list N)
    (l : list Report.t) :
  extract_reports_rows rows tab_key url = Ok l ->
  forall r, In r l -> HttpUrl url = Some (Report.company_url r).
Proof.
  revert l. induction rows as [|row rows IH]; intros l;
    cbn [extract_reports_rows mret result_ret].
  - intros H. injection H as <-. intros r [].
  - destruct (select_one row _) as [date_a|]; [|apply IH].
    destruct (bool_decide _); [apply IH|].
    destruct (attr date_a "href") as [h|]; [|discriminate].
    cbn [mbind result_bind]. unfold validate_url.
    destruct (HttpUrl url) as [cu|] eqn:Hu; cbn [mbind result_bind]; [|discriminate].
    step_result (HttpUrl (BASE_URL ++ py "/" ++ h)).
    step_result (extract_reports_rows rows tab_key url).
    intros H. injection H as <-. intros r [<-|Hin]; [reflexivity|].
    eapply IH; [reflexivity | exact Hin].
Qed.

Lemma extract_shareholders_rows_url (rows : list tag) (url : list N)
    (l : list Shareholder.t) :
  extract_shareholders_rows rows url = Ok l ->
  forall s, In s l -> HttpUrl url = Some (Shareholder.company_url s).
Proof.
  revert l. induction rows as [|row rows IH]; intros l;
    cbn [extract_shareholders_rows mret result_ret].
  - intros H. injection H as <-. intros s [].
  - destruct (find row "th"); [apply IH|].
    destruct (select row "td") as [|c0 [|c1 [|c2 [|c3 [|c4 cs]]]]]; try apply IH.
    unfold validate_url.
    destruct (HttpUrl url) as [cu|] eqn:Hu; cbn [mbind result_bind]; [|discriminate].
    step_result (extract_shareholders_rows rows url).
    intros H. injection H as <-. intros s [<-|Hin]; [reflexivity|].
    eapply IH; [reflexivity | exact Hin].
Qed.

Lemma extract_notoria_rows_url (rows : list tag) (url : list N)
    (l : list NotoriaMetric.t) :
  extract_notoria_rows rows url = Ok l ->
  forall n, In n l -> HttpUrl url = Some (NotoriaMetric.company_url n).
Proof.
  revert l. induction rows as [|row rows IH]; intros l;
    cbn [extract_notoria_rows mret result_ret].
  - intros H. injection H as <-. intros n [].
  - destruct (find row "th") as [th|]; [|apply IH].
    destruct (find row "td") as [td|]; [|apply IH].
    unfold validate_url.
    destruct (HttpUrl url) as [cu|] eqn:Hu; cbn [mbind result_bind]; [|discriminate].
    step_result (extract_notoria_rows rows url).
    intros H. injection H as <-. intros n [<-|Hin]; [reflexivity|].
    eapply IH; [reflexivity | exact Hin].
Qed.

(** Every row the extraction builds carries the validated url of the
    company as its key. *)
Lemma extract_company_data_keys (url : list N) (tab_html : gmap string (list N))
    (description : option (list N)) (cd : CompanyData.t) (tables : CompanyTables) :
  extract_company_data url tab_html description = Ok (cd, tables) ->
  exists u,
    (forall r, In r (company_data tables) -> dict_get "url" r = Some (VStr u))
    /\ (forall r, In r (reports_data tables) -> dict_get "company_url" r = Some (VStr u))
    /\ (forall r, In r (shareholders_data tables) ->
           dict_get "company_url" r = Some (VStr u))
    /\ (forall r, In r (notoria_data tables) -> dict_get "company_url" r = Some (VStr u)).
Proof.
  unfold extract_company_data.
  step_result (tab_get tab_html "info").
  step_result (tab_get tab_html "indicators").
  step_result (tab_get tab_html "quotations").
  unfold parse_core.
  cbn [getitem dict_get TABS String.eqb Ascii.eqb Bool.eqb mbind result_bind].
  unfold validate_url at 1.
  destruct (HttpUrl url) as [u|] eqn:Hu; cbn [mbind result_bind mret result_ret];
    [|discriminate].
  step_result (tab_get tab_html "reports1").
  destruct (extract_reports _ "reports1" url) as [l1|] eqn:E1;
    cbn [mbind result_bind]; [|discriminate].
  step_result (tab_get tab_html "reports2").
  destruct (extract_reports _ "reports2" url) as [l2|] eqn:E2;
    cbn [mbind result_bind]; [|discriminate].
  step_result (tab_get tab_html "shareholders").
  destruct (extract_shareholders _ url) as [l3|] eqn:E3;
    cbn [mbind result_bind]; [|discriminate].
  step_result (tab_get tab_html "notoria").
  destruct (extract_notoria _ url) as [l4|] eqn:E4;
    cbn [mbind result_bind]; [|discriminate].
  intros H. injection H as <- <-. cbn [company_data reports_data shareholders_data
                                        notoria_data].
  unfold extract_reports in E1, E2. unfold extract_shareholders in E3.
  unfold extract_notoria in E4.
  cbn [getitem dict_get TABS String.eqb Ascii.eqb Bool.eqb mbind result_bind] in E1, E2, E3, E4.
  exists u. split; [|split; [|split]].
  - intros r [<-|[]]. reflexivity.
  - intros r Hr. apply in_map_iff in Hr. destruct Hr as [x [<- Hx]].
    apply in_app_iff in Hx.
    assert (Hux : HttpUrl url = Some (Report.company_url x)).
    { destruct Hx as [Hx|Hx];
        [exact (extract_reports_rows_url _ _ _ _ E1 x Hx)
        |exact (extract_reports_rows_url _ _ _ _ E2 x Hx)]. }
    cbn. congruence.
  - intros r Hr. apply in_map_iff in Hr. destruct Hr as [x [<- Hx]].
    pose proof (extract_shareholders_rows_url _ _ _ E3 x Hx) as Hux.
    cbn. congruence.
  - intros r Hr. apply in_map_iff in Hr. destruct Hr as [x [<- Hx]].
    pose proof (extract_notoria_rows_url _ _ _ E4 x Hx) as Hux.
    cbn. congruence.
Qed.

Lemma process_company_data_again (url : list N) (tab_html : gmap string (list N))
    (description : option (list N))
    (conn conn1 : gmap string (DataFrame (option (list N)))) :
  process_company_data url tab_html description conn = (Ok tt, conn1) ->
  process_company_data url tab_html description conn1 = (Ok tt, conn1).
Proof.
  unfold process_company_data. unfold lift, raise. unfold mbind, mret, St_bind, St_ret.
  destruct (extract_company_data url tab_html description) as [[cd tables]|e] eqn:Ex;
    [|discriminate].
  cbn [fst snd].
  destruct (extract_company_data_keys _ _ _ _ _ Ex) as [u [K1 [K2 [K3 K4]]]].
  destruct (CompanyData.description cd); [|discriminate].
  destruct (update_sqlite "company_company" (company_data tables) "url" conn)
    as [[[]|e1] c1] eqn:E1; [|discriminate].
  destruct (update_sqlite "company_reports" (reports_data tables) "company_url" c1)
    as [[[]|e2] c2] eqn:E2; [|discriminate].
  destruct (update_sqlite "company_shareholders" (shareholders_data tables)
              "company_url" c2)
    as [[[]|e3] c3] eqn:E3; [|discriminate].
  intros E4.
  pose proof (update_sqlite_twice _ _ u _ _ _ K1 E1) as F1.
  pose proof (update_sqlite_twice _ _ u _ _ _ K2 E2) as F2.
  pose proof (update_sqlite_twice _ _ u _ _ _ K3 E3) as F3.
  pose proof (update_sqlite_twice _ _ u _ _ _ K4 E4) as F4.
  assert (G1 : update_sqlite "company_company" (company_data tables) "url" conn1
               = (Ok tt, conn1)).
  { apply (update_sqlite_fixed _ _ _ c1); [exact F1|].
    rewrite (update_sqlite_other _ _ _ _ _ "company_company" E4) by discriminate.
    rewrite (update_sqlite_other _ _ _ _ _ "company_company" E3) by discriminate.
    apply (update_sqlite_other _ _ _ _ _ "company_company" E2). discriminate. }
  assert (G2 : update_sqlite "company_reports" (reports_data tables) "company_url" conn1
               = (Ok tt, conn1)).
  { apply (update_sqlite_fixed _ _ _ c2); [exact F2|].
    rewrite (update_sqlite_other _ _ _ _ _ "company_reports" E4) by discriminate.
    apply (update_sqlite_other _ _ _ _ _ "company_reports" E3). discriminate. }
  assert (G3 : update_sqlite "company_shareholders" (shareholders_data tables)
                 "company_url" conn1 = (Ok tt, conn1)).
  { apply (update_sqlite_fixed _ _ _ c3); [exact F3|].
    apply (update_sqlite_other _ _ _ _ _ "company_shareholders" E4). discriminate. }
  rewrite G1, G2, G3. exact F4.
Qed.

(** C7. Running extraction and persistence for a company twice in a
    row, on the same snapshots, leaves the store as one run leaves it,
    with the same outcome; and writing again a record set whose rows
    carry one key, as every record set of the pipeline does, to the
    table it was just written to leaves the store unchanged. *)
Theorem pipeline_idempotent :
  (forall (url : list N) (tab_html : gmap string (list N)) (description : option (list N))
          (conn : gmap string (DataFrame (option (list N)))),
      (process_company_data url tab_html description;;
       process_company_data url tab_html description) conn
      = process_company_data url tab_html description conn)
  /\ (forall (table k : string) (X : list N) (R : list (list (string * pyval)))
             (conn conn1 : gmap string (DataFrame (option (list N)))),
         (forall r, In r R -> dict_get k r = Some (VStr X)) ->
         update_sqlite table R k conn = (Ok tt, conn1) ->
         update_sqlite table R k conn1 = (Ok tt, conn1)).
Proof.
  split; [|exact update_sqlite_twice].
  intros url tab_html description conn.
  destruct (process_company_data url tab_html description conn) as [[[]|e] conn1] eqn:E.
  - rewrite (bind_Ok _ _ conn conn1 tt E).
    apply process_company_data_again with (conn := conn). exact E.
  - apply bind_Raise. exact E.
Qed.
End Idempotence.

(** C7 on the seeded table: the scrape of [X] written, then written again. *)
Lemma pipeline_idempotent_witness :
  exists conn1,
    update_sqlite "company_shareholders" Samples.one_holder "company_url" Samples.seeded
    = (Ok tt, conn1)
    /\ update_sqlite "company_shareholders" Samples.one_holder "company_url" conn1
       = (Ok tt, conn1).
Proof.
  destruct (update_sqlite "company_shareholders" Samples.one_holder "company_url"
              Samples.seeded) as [[[]|e] conn1] eqn:E.
  - exists conn1. split; [reflexivity|].
    apply (proj2 (@pipeline_idempotent Sim.soup Sim.pydantic)
             "company_shareholders" "company_url" Samples.X Samples.one_holder
             Samples.seeded conn1).
    + intros r [<-|[]]. reflexivity.
    + exact E.
  - exfalso. vm_compute in E. discriminate E.
Defined.

(** ** The skip check, at the task *)

Section TaskTrace.
Context {soup_lib : Soup} {pydantic_lib : Pydantic} {outside : Env}.

Lemma extends_trace_ret {A : Type} (a : A) : extends_trace (mret a).
Proof. intros w r w' H. injection H as <- <-. exists []. symmetry. apply app_nil_r. Qed.

Lemma extends_trace_lift {A : Type} (x : result A) : extends_trace (lift x).
Proof. intros w r w' H. injection H as <- <-. exists []. symmetry. apply app_nil_r. Qed.

Lemma extends_trace_page_call {A : Type} (ev : event) (op : St env A) :
  extends_trace (page_call ev op).
Proof.
  intros w r w'. unfold page_call. destruct (op (w_env w)) as [r0 e'].
  intros H. injection H as <- <-. exists [ev]. reflexivity.
Qed.

Lemma extends_trace_with_conn {A : Type}
    (m : St (gmap string (DataFrame (option (list N)))) A) :
  extends_trace (with_conn m).
Proof.
  intros w r w'. unfold with_conn. destruct (m (w_conn w)) as [r0 c'].
  intros H. injection H as <- <-. exists []. symmetry. apply app_nil_r.
Qed.

Lemma extends_trace_bind {A B : Type} (m : St world A) (f : A -> St world B) :
  extends_trace m -> (forall a, extends_trace (f a)) -> extends_trace (m ≫= f).
Proof.
  intros Hm Hf w r w'. unfold mbind, St_bind.
  destruct (m w) as [[a|e] w1] eqn:E; intros H.
  - destruct (Hm w _ _ E) as [evs1 H1]. destruct (Hf a w1 _ _ H) as [evs2 H2].
    exists (evs1 ++ evs2). rewrite H2, H1. symmetry. apply app_assoc.
  - injection H as <- <-. exact (Hm w _ _ E).
Qed.

Lemma extends_trace_try_except {A : Type} (m : St world A) (h : exn -> St world A) :
  extends_trace m -> (forall e, extends_trace (h e)) -> extends_trace (try_except m h).
Proof.
  intros Hm Hh w r w'. unfold try_except.
  destruct (m w) as [[a|e] w1] eqn:E; intros H.
  - injection H as <- <-. exact (Hm w _ _ E).
  - destruct (Hm w _ _ E) as [evs1 H1]. destruct (Hh e w1 _ _ H) as [evs2 H2].
    exists (evs1 ++ evs2). rewrite H2, H1. symmetry. apply app_assoc.
Qed.

Lemma extends_trace_try_finally {A : Type} (m : St world A) (final : St world unit) :
  extends_trace m -> extends_trace final -> extends_trace (try_finally m final).
Proof.
  intros Hm Hf w r w'. unfold try_finally.
  destruct (m w) as [r1 w1] eqn:E. destruct (final w1) as [[[]|e] w2] eqn:E2;
    intros H; injection H as <- <-;
    destruct (Hm w _ _ E) as [evs1 H1]; destruct (Hf w1 _ _ E2) as [evs2 H2];
    exists (evs1 ++ evs2); rewrite H2, H1; symmetry; apply app_assoc.
Qed.

Lemma extends_trace_collect_tabs (keys : list string) (tab_html : gmap string (list N)) :
  extends_trace (collect_tabs tab_html keys).
Proof.
  revert tab_html. induction keys as [|key keys IH]; intros tab_html; cbn [collect_tabs].
  - apply extends_trace_ret.
  - apply extends_trace_bind; [|exact IH]. unfold collect_tab.
    apply extends_trace_bind; [apply extends_trace_lift|]. intros tab.
    apply extends_trace_try_except.
    + apply extends_trace_bind; [apply extends_trace_page_call|]. intros _.
      apply extends_trace_bind; [apply extends_trace_lift|]. intros table.
      apply extends_trace_bind; [apply extends_trace_page_call|]. intros _.
      apply extends_trace_bind; [apply extends_trace_page_call|]. intros html.
      apply extends_trace_ret.
    + intros _. apply extends_trace_bind; [apply extends_trace_page_call|]. intros html.
      apply extends_trace_ret.
Qed.

Lemma extends_trace_scrape_steps (url : list N) : extends_trace (scrape_steps url).
Proof.
  unfold scrape_steps.
  apply extends_trace_bind; [apply extends_trace_page_call|]. intros _.
  apply extends_trace_bind.
  { unfold extract_description_async.
    apply extends_trace_bind; [apply extends_trace_page_call|]. intros s.
    apply extends_trace_ret. }
  intros description.
  apply extends_trace_bind.
  { unfold collect_tab_html_async.
    apply extends_trace_bind; [apply extends_trace_page_call|]. intros info.
    apply extends_trace_collect_tabs. }
  intros tab_html. apply extends_trace_with_conn.
Qed.

Lemma extends_trace_mark_scraped (url : list N) : extends_trace (mark_scraped url).
Proof.
  intros w r w' H. destruct (datetime_now (w_env w)) as [t e'] eqn:Hnow.
  destruct (mark_scraped_run url w t e' Hnow) as [rows' [_ [Hmark _]]].
  rewrite Hmark in H. injection H as <- <-. exists []. symmetry. apply app_nil_r.
Qed.

(** A task that is not skipped opens a page first. *)
Lemma scrape_url_async_opens (url : list N) (skip_threshold : Z) (w w' : world)
    (r : result (list N * bool)) :
  recently_scraped (w_scrape_log w !! url) skip_threshold = Ok false ->
  scrape_url_async url skip_threshold w = (r, w') ->
  exists evs, w_trace w' = w_trace w ++ NewPage :: evs.
Proof.
  intros Hskip H.
  destruct (page_call NewPage new_page w) as [[[]|e] w1] eqn:Hpage.
  - assert (H1 : w_trace w1 = w_trace w ++ [NewPage]).
    { revert Hpage. unfold page_call. destruct (new_page (w_env w)) as [r0 e'].
      intros E. injection E as _ <-. reflexivity. }
    rewrite (scrape_url_async_run url skip_threshold w w1 Hskip Hpage) in H.
    assert (Hext : extends_trace
                     (try_finally
                        (try_except (scrape_steps url;; mark_scraped url;; mret (url, true))
                                    (fun _ => mret (url, false)))
                        (page_call Close close))).
    { apply extends_trace_try_finally; [|apply extends_trace_page_call].
      apply extends_trace_try_except; [|intros _; apply extends_trace_ret].
      apply extends_trace_bind; [apply extends_trace_scrape_steps|]. intros _.
      apply extends_trace_bind; [apply extends_trace_mark_scraped|]. intros _.
      apply extends_trace_ret. }
    destruct (Hext w1 _ _ H) as [evs Hevs]. exists evs.
    rewrite Hevs, H1, <- app_assoc. reflexivity.
  - rewrite (scrape_url_async_no_page url skip_threshold w w1 e Hskip Hpage) in H.
    injection H as _ <-. exists [].
    revert Hpage. unfold page_call. destruct (new_page (w_env w)) as [r0 e'].
    intros E. injection E as _ <-. reflexivity.
Qed.

Lemma scrape_url_async_not_skipped (url : list N) (skip_threshold : Z) (w : world) :
  recently_scraped (w_scrape_log w !! url) skip_threshold = Ok false ->
  scrape_url_async url skip_threshold w <> (Ok (url, false), w).
Proof.
  intros Hskip H. destruct (scrape_url_async_opens _ _ _ _ _ Hskip H) as [evs Hevs].
  apply (f_equal (@length event)) in Hevs. rewrite List.length_app in Hevs.
  cbn [length] in Hevs. lia.
Qed.

(** C4. With the threshold [now - 1 day] that [scrape_all_async]
    computes from the clock reading [now] of the batch, a task whose url
    has a time in the log is skipped (it returns [(url, False)] and
    leaves the world as it is) exactly when [now] minus that time is
    less than 24 hours; a task whose url has no entry is not skipped. A
    task that is not skipped goes on to open a page. So the task is
    skipped 2 hours after the last scrape, and is not 25 hours after it
    or without an entry. The entries are times, as the claim has them; an
    entry that [load_scrape_log] left as text makes the check raise, see
    [scrape_url_async_check_raises]. *)
Theorem skip_iff_scraped_within_a_day :
  forall (url : list N) (t : Z) (w : world),
    (forall last,
        w_scrape_log w !! url = Some (Time last) ->
        (scrape_url_async url (t - one_day) w = (Ok (url, false), w)
         <-> t - last < hours 24))
    /\ (w_scrape_log w !! url = None ->
        scrape_url_async url (t - one_day) w <> (Ok (url, false), w))
    /\ (forall r w',
          (w_scrape_log w !! url = None
           \/ exists last, w_scrape_log w !! url = Some (Time last) /\ hours 24 <= t - last) ->
          scrape_url_async url (t - one_day) w = (r, w') ->
          exists evs, w_trace w' = w_trace w ++ NewPage :: evs)
    /\ (w_scrape_log w !! url = Some (Time (t - hours 2)) ->
        scrape_url_async url (t - one_day) w = (Ok (url, false), w))
    /\ (w_scrape_log w !! url = Some (Time (t - hours 25)) ->
        scrape_url_async url (t - one_day) w <> (Ok (url, false), w))
    /\ (forall urls : list (list N),
          (datetime_now (w_env w)).1 = t ->
          scrape_all_async urls w
          = gather urls (t - one_day)
              (mkWorld (datetime_now (w_env w)).2 (w_trace w) (w_conn w) (w_log_file w)
                 (load_scrape_log (w_log_file w)))).
Proof.
  intros url t w.
  assert (Hday : hours 24 = one_day) by reflexivity. rewrite Hday.
  assert (Hiff : forall last,
             w_scrape_log w !! url = Some (Time last) ->
             (scrape_url_async url (t - one_day) w = (Ok (url, false), w)
              <-> t - last < one_day)).
  { intros last Hlast. split.
    - intros H. destruct (Z_lt_dec (t - last) one_day) as [Hlt|Hge]; [exact Hlt|].
      exfalso. revert H. apply scrape_url_async_not_skipped.
      apply recently_scraped_stale. right. exists last. split; [exact Hlast | lia].
    - intros Hlt. apply scrape_url_async_skips. apply recently_scraped_spec.
      exists last. split; assumption. }
  split; [exact Hiff|]. split; [|split; [|split; [|split]]].
  - intros Hnone. apply scrape_url_async_not_skipped. rewrite Hnone. reflexivity.
  - intros r w' Hstale. apply scrape_url_async_opens.
    apply recently_scraped_stale. exact Hstale.
  - intros Hlast. apply (Hiff _ Hlast). unfold hours, one_day. lia.
  - intros Hlast H. apply (Hiff _ Hlast) in H. unfold hours, one_day in H. lia.
  - intros urls <-. apply scrape_all_async_threshold.
Qed.
End TaskTrace.

Section SkipCheckOnTheSite.
Import Sim.

(** C4 on the simulated site: a company scraped two hours ago is
    skipped, no page is opened. *)
Lemma skip_iff_scraped_within_a_day_witness :
  scrape_url_async ABC (noon - one_day)
    (start noon [] ∅ None {[ ABC := Time (noon - hours 2) ]})
  = (Ok (ABC, false), start noon [] ∅ None {[ ABC := Time (noon - hours 2) ]})
  <-> noon - (noon - hours 2) < hours 24.
Proof.
  apply (proj1 (@skip_iff_scraped_within_a_day Sim.soup Sim.pydantic Sim.outside
                  ABC noon (start noon [] ∅ None {[ ABC := Time (noon - hours 2) ]}))
           (noon - hours 2)).
  apply lookup_singleton_eq.
Defined.
End SkipCheckOnTheSite.

(** * Further properties of the code *)

(** ** Serialization *)

Lemma forallb_is_str_no_url (l : list pyval) :
  forallb is_str l = true -> existsb has_url l = false.
Proof.
  induction l as [|x l IH]; simpl; [reflexivity|].
  destruct x; simpl; try discriminate. exact IH.
Qed.

(** X1. [to_serializable] leaves no URL object anywhere in its result,
    however deep the dicts and lists of its argument nest. *)
Theorem to_serializable_leaves_no_url :
  forall v : pyval, has_url (to_serializable v) = false.
Proof.
  induction v as [| s | u | l IH | d IH] using pyval_nested_ind; try reflexivity.
  - cbn [to_serializable]. destruct (forallb is_str l) eqn:E; [reflexivity|].
    cbn [has_url]. clear E. induction IH as [|x l Hx _ IHl]; simpl; [reflexivity|].
    rewrite Hx. exact IHl.
  - cbn [to_serializable has_url].
    induction IH as [|[k x] d Hx _ IHd]; simpl; [reflexivity|].
    simpl in Hx. rewrite Hx. exact IHd.
Qed.

(** ** What one company's processing does to the store *)

Lemma rows_of_ext (table : string) (c c' : gmap string (DataFrame (option (list N)))) :
  c !! table = c' !! table ->
  rows_of table c = rows_of table c' /\ columns_of table c = columns_of table c'.
Proof. intros H. unfold rows_of, columns_of, select_all. rewrite H. split; reflexivity. Qed.

Lemma keyed_aligned (table k : string) (Y : list N)
    (conn : gmap string (DataFrame (option (list N)))) :
  List.map (reindex None (columns_of table conn)) (keyed k Y (rows_of table conn))
  = keyed k Y (rows_of table conn).
Proof.
  rewrite <- (List.map_id (keyed k Y (rows_of table conn))) at 2.
  apply List.map_ext_in. intros r Hr. apply rows_of_aligned.
  apply List.filter_In in Hr. tauto.
Qed.

(** The rows of the other keys, and the other tables, through one write of
    rows that share the key [X]. *)
Lemma update_sqlite_keeps_others (table k : string) (X : list N)
    (R : list (list (string * pyval))) (R' : list (list (string * option (list N))))
    (conn : gmap string (DataFrame (option (list N)))) :
  (forall r, In r R -> dict_get k r = Some (VStr X)) ->
  mapM sql_bind_row R = Some R' ->
  exists conn',
    update_sqlite table R k conn = (Ok tt, conn')
    /\ (forall t, t <> table -> conn' !! t = conn !! t)
    /\ (forall Y, Y <> X ->
          keyed k Y (rows_of table conn')
          = List.map (reindex None (columns_of table conn')) (keyed k Y (rows_of table conn)))
    /\ (R <> [] ->
        keyed k X (rows_of table conn')
        = List.map (reindex None (columns_of table conn')) R'
        /\ incl (columns (pd_DataFrame R)) (columns_of table conn')).
Proof.
  intros H HB. destruct R as [|row0 rest].
  - exists conn. split; [reflexivity|]. split; [reflexivity|]. split; [|congruence].
    intros Y _. symmetry. apply keyed_aligned.
  - pose proof (update_sqlite_single_key table k X row0 rest conn H) as Hupd.
    cbv zeta in Hupd. rewrite (bind_new_rows _ _ _ HB) in Hupd.
    set (new_columns := columns (pd_DataFrame (row0 :: rest))) in *.
    set (cols := columns_after table k new_columns conn) in *.
    set (conn' := <[table := _]> conn) in Hupd.
    assert (Hk : In k new_columns).
    { apply pd_DataFrame_columns. exists row0. split; [left; reflexivity|].
      eapply dict_get_keys. apply H. left. reflexivity. }
    assert (Hkc : In k cols) by (apply columns_after_has_key; exact Hk).
    assert (Hcols : columns_of table conn' = cols).
    { unfold columns_of, conn'. rewrite select_all_insert. reflexivity. }
    assert (Hrows : rows_of table conn'
                    = List.map (reindex None cols) (survivors table k X conn)
                      ++ List.map (reindex None cols) R').
    { unfold rows_of, conn'. rewrite select_all_insert. cbn [records columns].
      rewrite List.map_app, !List.map_map.
      f_equal; apply List.map_ext; intros r; apply reindex_idem. }
    assert (HX : forall r', In r' R' -> cell None k r' = Some X)
      by (apply (bound_rows_keyed k X _ _ H HB)).
    exists conn'. split; [exact Hupd|]. split; [|split].
    + intros t Ht. unfold conn'. apply lookup_insert_ne. congruence.
    + intros Y HY. rewrite Hcols, Hrows. unfold keyed at 1. rewrite List.filter_app.
      fold (keyed k Y (List.map (reindex None cols) (survivors table k X conn))).
      fold (keyed k Y (List.map (reindex None cols) R')).
      rewrite !keyed_map by exact Hkc.
      assert (HY' : keyed k Y R' = []).
      { apply filter_none. intros r' Hr'. apply bool_decide_eq_false.
        rewrite (HX r' Hr'). congruence. }
      rewrite HY'. simpl. rewrite List.app_nil_r. f_equal.
      unfold survivors. destruct (in_columns k (columns_of table conn)) eqn:Ek.
      * unfold keyed, not_keyed. apply filter_filter_absorb.
        intros r Hr. apply bool_decide_eq_true in Hr. apply negb_true_iff.
        apply bool_decide_eq_false. congruence.
      * symmetry. apply keyed_no_column. exact Ek.
    + intros _. split; [|rewrite Hcols; apply columns_after_covers].
      rewrite Hcols, Hrows. unfold keyed at 1. rewrite List.filter_app.
      fold (keyed k X (List.map (reindex None cols) (survivors table k X conn))).
      fold (keyed k X (List.map (reindex None cols) R')).
      rewrite !keyed_map by exact Hkc.
      unfold keyed at 1, survivors, not_keyed.
      rewrite (filter_none _ (if in_columns k (columns_of table conn) then _ else _)).
      * simpl. f_equal. apply filter_all. intros r' Hr'.
        apply bool_decide_eq_true. apply HX. exact Hr'.
      * intros r Hr. destruct (in_columns k (columns_of table conn)); [|destruct Hr].
        apply List.filter_In in Hr. destruct Hr as [_ Hr].
        apply negb_true_iff in Hr. exact Hr.
Qed.

(** A serialized value binds when it is a [str] or [None]. *)
Lemma sql_bind_row_Forall (d : list (string * pyval)) :
  Forall (fun kv => is_Some (sql_bind kv.2)) d -> is_Some (sql_bind_row d).
Proof.
  induction 1 as [|[k v] d [v' Hv] _ [d' IH]]; [eexists; reflexivity|].
  rewrite sql_bind_row_cons. simpl in Hv. rewrite Hv, IH. eexists. reflexivity.
Qed.

Lemma sql_bind_opt (x : option (list N)) :
  is_Some (sql_bind (to_serializable (CompanyData.opt x))).
Proof. destruct x; simpl; eauto. Qed.

Lemma company_row_binds (cd : CompanyData.t) :
  is_Some (sql_bind_row (as_dict (to_serializable (CompanyData.model_dump cd)))).
Proof.
  apply sql_bind_row_Forall. unfold CompanyData.model_dump.
  cbn [to_serializable List.map as_dict].
  rewrite forallb_is_str_VStr.
  repeat (constructor;
          [cbn [snd]; first [ apply sql_bind_opt | simpl; eauto ] |]).
  constructor.
Qed.

Lemma report_row_binds (r : Report.t) :
  is_Some (sql_bind_row (as_dict (to_serializable (Report.model_dump r)))).
Proof. vm_compute. eauto. Qed.

Lemma shareholder_row_binds (s : Shareholder.t) :
  is_Some (sql_bind_row (as_dict (to_serializable (Shareholder.model_dump s)))).
Proof. vm_compute. eauto. Qed.

Lemma notoria_row_binds (n : NotoriaMetric.t) :
  is_Some (sql_bind_row (as_dict (to_serializable (NotoriaMetric.model_dump n)))).
Proof. vm_compute. eauto. Qed.

Lemma mapM_map_is_Some {A : Type} (f : A -> list (string * pyval)) (l : list A) :
  (forall x, is_Some (sql_bind_row (f x))) -> is_Some (mapM sql_bind_row (List.map f l)).
Proof.
  intros H. apply mapM_is_Some. induction l as [|x l IH]; simpl; constructor; auto.
Qed.

Section Persistence.
Context `{Soup} `{Pydantic}.

(** What a successful extraction returns: the record of the validated
    url with the description it was given, and the four row lists as the
    serialized dumps of the extracted models. *)
Lemma extract_company_data_shape (url : list N) (tab_html : gmap string (list N))
    (description : option (list N)) (cd : CompanyData.t) (tables : CompanyTables) :
  extract_company_data url tab_html description = Ok (cd, tables) ->
  HttpUrl url = Some (CompanyData.url cd)
  /\ CompanyData.description cd = description
  /\ company_data tables = [as_dict (to_serializable (CompanyData.model_dump cd))]
  /\ (exists l, reports_data tables
                = List.map (fun r => as_dict (to_serializable (Report.model_dump r))) l)
  /\ (exists l, shareholders_data tables
                = List.map (fun s => as_dict (to_serializable (Shareholder.model_dump s))) l)
  /\ (exists l, notoria_data tables
                = List.map (fun n => as_dict (to_serializable (NotoriaMetric.model_dump n))) l).
Proof.
  unfold extract_company_data.
  step_result (tab_get tab_html "info").
  step_result (tab_get tab_html "indicators").
  step_result (tab_get tab_html "quotations").
  unfold parse_core.
  cbn [getitem dict_get TABS String.eqb Ascii.eqb Bool.eqb mbind result_bind].
  unfold validate_url at 1.
  destruct (HttpUrl url) as [u|] eqn:Hu; cbn [mbind result_bind mret result_ret];
    [|discriminate].
  step_result (tab_get tab_html "reports1").
  destruct (extract_reports _ "reports1" url) as [l1|] eqn:E1;
    cbn [mbind result_bind]; [|discriminate].
  step_result (tab_get tab_html "reports2").
  destruct (extract_reports _ "reports2" url) as [l2|] eqn:E2;
    cbn [mbind result_bind]; [|discriminate].
  step_result (tab_get tab_html "shareholders").
  destruct (extract_shareholders _ url) as [l3|] eqn:E3;
    cbn [mbind result_bind]; [|discriminate].
  step_result (tab_get tab_html "notoria").
  destruct (extract_notoria _ url) as [l4|] eqn:E4;
    cbn [mbind result_bind]; [|discriminate].
  intros E. injection E as <- <-.
  cbn [company_data reports_data shareholders_data notoria_data].
  repeat split; eauto.
Qed.

(** Every row list of a successful extraction binds to SQL rows. *)
Lemma extract_company_data_binds (url : list N) (tab_html : gmap string (list N))
    (description : option (list N)) (cd : CompanyData.t) (tables : CompanyTables) :
  extract_company_data url tab_html description = Ok (cd, tables) ->
  is_Some (mapM sql_bind_row (company_data tables))
  /\ is_Some (mapM sql_bind_row (reports_data tables))
  /\ is_Some (mapM sql_bind_row (shareholders_data tables))
  /\ is_Some (mapM sql_bind_row (notoria_data tables)).
Proof.
  intros Ex.
  destruct (extract_company_data_shape _ _ _ _ _ Ex)
    as (_ & _ & -> & [l1 ->] & [l2 ->] & [l3 ->]).
  split; [|split; [|split]].
  - apply (mapM_map_is_Some (fun c => as_dict (to_serializable (CompanyData.model_dump c)))
             [cd]). apply company_row_binds.
  - apply mapM_map_is_Some. apply report_row_binds.
  - apply mapM_map_is_Some. apply shareholder_row_binds.
  - apply mapM_map_is_Some. apply notoria_row_binds.
Qed.

(** The store after the four writes of a company whose extraction
    succeeded and whose description is a string. *)
Lemma process_company_data_store (url d : list N) (tab_html : gmap string (list N))
    (cd : CompanyData.t) (tables : CompanyTables)
    (conn : gmap string (DataFrame (option (list N)))) :
  extract_company_data url tab_html (Some d) = Ok (cd, tables) ->
  exists conn',
    process_company_data url tab_html (Some d) conn = (Ok tt, conn')
    /\ (forall t, ~ In t pipeline_tables -> conn' !! t = conn !! t)
    /\ (exists row,
          keyed "url" (CompanyData.url cd) (rows_of "company_company" conn') = [row]
          /\ forall c v,
               dict_get c (as_dict (to_serializable (CompanyData.model_dump cd))) = Some v ->
               In c (columns_of "company_company" conn')
               /\ sql_bind v = Some (cell None c row))
    /\ (forall table k Y, In (table, k) pipeline_keys -> Y <> CompanyData.url cd ->
          keyed k Y (rows_of table conn')
          = List.map (reindex None (columns_of table conn'))
                     (keyed k Y (rows_of table conn))).
Proof.
  intros Ex.
  destruct (extract_company_data_keys _ _ _ _ _ Ex) as [u [K1 [K2 [K3 K4]]]].
  destruct (extract_company_data_binds _ _ _ _ _ Ex)
    as ([R1 B1] & [R2 B2] & [R3 B3] & [R4 B4]).
  destruct (extract_company_data_shape _ _ _ _ _ Ex) as (Hu & Hd & Hc & _).
  assert (Huc : u = CompanyData.url cd).
  { specialize (K1 _ ltac:(rewrite Hc; left; reflexivity)).
    cbn in K1. congruence. }
  subst u.
  destruct (update_sqlite_keeps_others "company_company" "url" _ _ _ conn K1 B1)
    as (c1 & U1 & O1 & Y1 & X1).
  destruct (update_sqlite_keeps_others "company_reports" "company_url" _ _ _ c1 K2 B2)
    as (c2 & U2 & O2 & Y2 & _).
  destruct (update_sqlite_keeps_others "company_shareholders" "company_url" _ _ _ c2 K3 B3)
    as (c3 & U3 & O3 & Y3 & _).
  destruct (update_sqlite_keeps_others "company_notoria" "company_url" _ _ _ c3 K4 B4)
    as (c4 & U4 & O4 & Y4 & _).
  exists c4. split; [|split; [|split]].
  - unfold process_company_data. unfold lift, raise. unfold mbind, mret, St_bind, St_ret.
    rewrite Ex. cbn [fst snd]. rewrite Hd.
    rewrite U1, U2, U3. exact U4.
  - intros t Ht. unfold pipeline_tables in Ht. simpl in Ht.
    rewrite O4, O3, O2, O1 by (intros ->; apply Ht; auto 6). reflexivity.
  - assert (E : c4 !! "company_company" = c1 !! "company_company").
    { rewrite O4, O3, O2 by discriminate. reflexivity. }
    destruct (rows_of_ext _ _ _ E) as [-> ->].
    destruct (X1 ltac:(rewrite Hc; discriminate)) as [X1k X1c].
    rewrite X1k. clear X1k.
    rewrite Hc in B1, X1c. clear Hc K1.
    set (dump := as_dict (to_serializable (CompanyData.model_dump cd))) in *.
    clearbody dump.
    assert (Hr : exists r, sql_bind_row dump = Some r /\ R1 = [r]).
    { revert B1. change (mapM sql_bind_row [dump]) with
        (r ← sql_bind_row dump; k ← mapM sql_bind_row []; mret (r :: k)).
      destruct (sql_bind_row dump) as [r|]; [|discriminate].
      intros B1. injection B1 as <-. exists r. split; reflexivity. }
    destruct Hr as [r [Hr ->]].
    exists (reindex None (columns_of "company_company" c1) r).
    split; [reflexivity|]. intros c v Hv.
    assert (Hin : In c (columns_of "company_company" c1)).
    { apply X1c. apply (proj2 (pd_DataFrame_columns [dump] c)).
      exists dump. split; [left; reflexivity|]. exact (dict_get_keys c dump v Hv). }
    split; [exact Hin|].
    rewrite cell_reindex by exact Hin.
    rewrite <- (sql_bind_cell c dump r Hr). unfold cell. rewrite Hv. reflexivity.
  - intros table k Y Hin HY. unfold pipeline_keys in Hin. simpl in Hin.
    destruct Hin as [E|[E|[E|[E|[]]]]]; injection E as <- <-.
    + assert (E : c4 !! "company_company" = c1 !! "company_company").
      { rewrite O4, O3, O2 by discriminate. reflexivity. }
      destruct (rows_of_ext _ _ _ E) as [-> ->]. apply Y1. exact HY.
    + assert (E : c4 !! "company_reports" = c2 !! "company_reports").
      { rewrite O4, O3 by discriminate. reflexivity. }
      assert (E' : c1 !! "company_reports" = conn !! "company_reports")
        by (apply O1; discriminate).
      destruct (rows_of_ext _ _ _ E) as [-> ->].
      rewrite <- (proj1 (rows_of_ext _ _ _ E')). apply Y2. exact HY.
    + assert (E : c4 !! "company_shareholders" = c3 !! "company_shareholders").
      { rewrite O4 by discriminate. reflexivity. }
      assert (E' : c2 !! "company_shareholders" = conn !! "company_shareholders").
      { rewrite O2, O1 by discriminate. reflexivity. }
      destruct (rows_of_ext _ _ _ E) as [-> ->].
      rewrite <- (proj1 (rows_of_ext _ _ _ E')). apply Y3. exact HY.
    + assert (E' : c3 !! "company_notoria" = conn !! "company_notoria").
      { rewrite O3, O2, O1 by discriminate. reflexivity. }
      rewrite <- (proj1 (rows_of_ext _ _ _ E')). apply Y4. exact HY.
Qed.
(** The two ways a run ends: it raises before the first write, or the
    extraction returned, the description is a string and the four
    writes are made. *)
Lemma process_company_data_outcomes (url : list N) (tab_html : gmap string (list N))
    (description : option (list N))
    (conn conn' : gmap string (DataFrame (option (list N)))) (r : result unit) :
  process_company_data url tab_html description conn = (r, conn') ->
  ((exists e, r = Raise e) /\ conn' = conn)
  \/ (r = Ok tt
      /\ exists d cd tables,
           description = Some d
           /\ extract_company_data url tab_html (Some d) = Ok (cd, tables)).
Proof.
  destruct (extract_company_data url tab_html description) as [[cd tables]|e'] eqn:Ex.
  - destruct description as [d|].
    + destruct (process_company_data_store _ _ _ _ _ conn Ex) as (c & P' & _).
      rewrite P'. intros P. injection P as <- <-. right. split; [reflexivity|].
      exists d, cd, tables. split; [reflexivity | exact Ex].
    + destruct (extract_company_data_shape _ _ _ _ _ Ex) as (_ & Hd & _).
      unfold process_company_data. unfold lift, raise. unfold mbind, mret, St_bind, St_ret.
      rewrite Ex. cbn [fst snd]. rewrite Hd. intros P. injection P as <- <-.
      left. split; [eauto | reflexivity].
  - unfold process_company_data. unfold lift, raise. unfold mbind, mret, St_bind, St_ret.
    rewrite Ex. intros P. injection P as <- <-. left. split; [eauto | reflexivity].
Qed.

(** X2. The writes of a company cannot fail on what the extraction built:
    when the extraction of a bundle succeeds and the description is a
    string, [process_company_data] returns, and [company_company] then
    holds exactly one row for the url of the company, whatever the table
    held for it before. *)
Theorem process_company_data_persists (url d : list N) (tab_html : gmap string (list N))
    (cd : CompanyData.t) (tables : CompanyTables)
    (conn : gmap string (DataFrame (option (list N)))) :
  extract_company_data url tab_html (Some d) = Ok (cd, tables) ->
  exists conn',
    process_company_data url tab_html (Some d) conn = (Ok tt, conn')
    /\ length (keyed "url" (CompanyData.url cd) (rows_of "company_company" conn')) = 1%nat.
Proof.
  intros Ex.
  destruct (process_company_data_store _ _ _ _ _ conn Ex) as (c & P & _ & [row [L _]] & _).
  exists c. split; [exact P|]. rewrite L. reflexivity.
Qed.

(** X3. Whatever a run of [process_company_data] does, and however it
    ends, the tables other than the four of the pipeline are as they
    were, and in each of the four the rows keyed by any other company
    are the rows that were there, every cell kept (aligned to the columns
    the table has afterwards). *)
Theorem process_company_data_keeps_other_companies
    (url : list N) (tab_html : gmap string (list N)) (description : option (list N))
    (conn conn' : gmap string (DataFrame (option (list N)))) (r : result unit) :
  process_company_data url tab_html description conn = (r, conn') ->
  (forall t, ~ In t pipeline_tables -> conn' !! t = conn !! t)
  /\ (forall table k Y, In (table, k) pipeline_keys -> HttpUrl url <> Some Y ->
        keyed k Y (rows_of table conn')
        = List.map (reindex None (columns_of table conn'))
                   (keyed k Y (rows_of table conn))).
Proof.
  intros P.
  assert (Same : conn' = conn ->
                 (forall t, ~ In t pipeline_tables -> conn' !! t = conn !! t)
                 /\ (forall table k Y, In (table, k) pipeline_keys -> HttpUrl url <> Some Y ->
                       keyed k Y (rows_of table conn')
                       = List.map (reindex None (columns_of table conn'))
                                  (keyed k Y (rows_of table conn)))).
  { intros ->. split; [reflexivity|]. intros. symmetry. apply keyed_aligned. }
  destruct (extract_company_data url tab_html description) as [[cd tables]|e] eqn:Ex.
  - destruct description as [d|].
    + destruct (process_company_data_store _ _ _ _ _ conn Ex) as (c & P' & O & _ & K).
      rewrite P' in P. injection P as _ <-. split; [exact O|].
      intros table k Y Hin HY. apply K; [exact Hin|].
      destruct (extract_company_data_shape _ _ _ _ _ Ex) as (Hu & _). congruence.
    + apply Same. revert P.
      destruct (extract_company_data_shape _ _ _ _ _ Ex) as (_ & Hd & _).
      unfold process_company_data. unfold lift, raise. unfold mbind, mret, St_bind, St_ret.
      rewrite Ex. cbn [fst snd]. rewrite Hd. intros P. injection P as _ <-. reflexivity.
  - apply Same. revert P.
    unfold process_company_data. unfold lift, raise. unfold mbind, mret, St_bind, St_ret.
    rewrite Ex. intros P. injection P as _ <-. reflexivity.
Qed.

(** X4. A run of [process_company_data] that raises has written nothing:
    the store is the one it started from. *)
Theorem process_company_data_raises_before_writing
    (url : list N) (tab_html : gmap string (list N)) (description : option (list N))
    (conn conn' : gmap string (DataFrame (option (list N)))) (e : exn) :
  process_company_data url tab_html description conn = (Raise e, conn') ->
  conn' = conn.
Proof.
  intros P. destruct (process_company_data_outcomes _ _ _ _ _ _ P) as [[_ E]|[E _]].
  - exact E.
  - discriminate E.
Qed.

(** X5. Without a description ([None]) [process_company_data] always
    raises, on every bundle and every store, and writes nothing: the
    progress line slices the description after the extraction and before
    the first write. *)
Theorem process_company_data_needs_description
    (url : list N) (tab_html : gmap string (list N))
    (conn : gmap string (DataFrame (option (list N)))) :
  exists e, process_company_data url tab_html None conn = (Raise e, conn).
Proof.
  unfold process_company_data. unfold lift, raise. unfold mbind, mret, St_bind, St_ret.
  destruct (extract_company_data url tab_html None) as [[cd tables]|e] eqn:Ex.
  - destruct (extract_company_data_shape _ _ _ _ _ Ex) as (_ & Hd & _).
    cbn [fst snd]. rewrite Hd. eauto.
  - eauto.
Qed.
End Persistence.

Section PersistenceOnTheSite.
Import Sim.

(** X2 on the simulated site: the company [ABC] written to the seeded store. *)
Lemma process_company_data_persists_witness :
  exists cd tables conn',
    extract_company_data ABC partial_bundle (Some (py "opis")) = Ok (cd, tables)
    /\ process_company_data ABC partial_bundle (Some (py "opis")) Samples.seeded
       = (Ok tt, conn')
    /\ length (keyed "url" (CompanyData.url cd) (rows_of "company_company" conn')) = 1%nat.
Proof.
  destruct (extract_company_data ABC partial_bundle (Some (py "opis")))
    as [[cd tables]|e] eqn:E.
  - destruct (@process_company_data_persists Sim.soup Sim.pydantic
                ABC (py "opis") partial_bundle cd tables Samples.seeded E)
      as [conn' [P L]].
    exists cd, tables, conn'. split; [reflexivity|]. split; assumption.
  - exfalso. vm_compute in E. discriminate E.
Defined.

(** X3 on the simulated site: the shareholders of [Samples.Y] stay when
    [ABC] is written. *)
Lemma process_company_data_keeps_other_companies_witness :
  exists r conn',
    process_company_data ABC partial_bundle (Some (py "opis")) Samples.seeded = (r, conn')
    /\ keyed "company_url" Samples.Y (rows_of "company_shareholders" conn')
       = List.map (reindex None (columns_of "company_shareholders" conn'))
                  (keyed "company_url" Samples.Y
                         (rows_of "company_shareholders" Samples.seeded)).
Proof.
  destruct (process_company_data ABC partial_bundle (Some (py "opis")) Samples.seeded)
    as [r conn'] eqn:E.
  exists r, conn'. split; [reflexivity|].
  apply (proj2 (@process_company_data_keeps_other_companies Sim.soup Sim.pydantic
                  ABC partial_bundle (Some (py "opis")) Samples.seeded conn' r E)
           "company_shareholders" "company_url" Samples.Y).
  - unfold pipeline_keys. simpl. auto.
  - vm_compute. discriminate.
Defined.

(** X4 on the simulated site: a bundle without its snapshots. *)
Lemma process_company_data_raises_before_writing_witness :
  exists e conn',
    process_company_data ABC ∅ (Some (py "opis")) Samples.seeded = (Raise e, conn')
    /\ conn' = Samples.seeded.
Proof.
  destruct (process_company_data ABC ∅ (Some (py "opis")) Samples.seeded)
    as [[[]|e] conn'] eqn:E.
  - exfalso. vm_compute in E. discriminate E.
  - exists e, conn'. split; [reflexivity|].
    exact (@process_company_data_raises_before_writing Sim.soup Sim.pydantic
             ABC ∅ (Some (py "opis")) Samples.seeded conn' e E).
Defined.
End PersistenceOnTheSite.

(** ** [update_sqlite] off the usual path *)

Lemma bind_frame_rows (R : list (list (string * pyval)))
    (R' : list (list (string * option (list N)))) :
  mapM sql_bind_row R = Some R' ->
  mapM sql_bind_row (records (pd_DataFrame R))
  = Some (List.map (reindex None (columns (pd_DataFrame R))) R').
Proof.
  intros HB. rewrite pd_DataFrame_records.
  rewrite <- (bind_new_rows (columns (pd_DataFrame R)) R R' HB).
  f_equal. rewrite List.map_map. apply List.map_ext. intros r.
  symmetry. apply reindex_idem.
Qed.

(** X6. A write replaces the whole table by the new rows when the table
    has no column of the key, or does not exist, or when the first of
    the new rows has no entry under the key (the [KeyError] is swallowed
    by the [except] meant for the missing table): every row stored
    before is gone, whatever company it belonged to. *)
Theorem update_sqlite_replaces_table_without_key (table k : string)
    (row0 : list (string * pyval)) (rest : list (list (string * pyval)))
    (R' : list (list (string * option (list N))))
    (conn : gmap string (DataFrame (option (list N)))) :
  in_columns k (columns (pd_DataFrame (row0 :: rest))) = true ->
  mapM sql_bind_row (row0 :: rest) = Some R' ->
  in_columns k (columns_of table conn) = false \/ dict_get k row0 = None ->
  exists conn',
    update_sqlite table (row0 :: rest) k conn = (Ok tt, conn')
    /\ columns_of table conn' = columns (pd_DataFrame (row0 :: rest))
    /\ rows_of table conn'
       = List.map (reindex None (columns (pd_DataFrame (row0 :: rest)))) R'.
Proof.
  intros Hk HB Hcase.
  set (df_new := pd_DataFrame (row0 :: rest)) in *.
  assert (Hupd : update_sqlite table (row0 :: rest) k conn = to_sql table df_new conn).
  { unfold update_sqlite. cbv beta iota zeta. fold df_new. rewrite Hk.
    unfold read_sql. unfold columns_of in Hcase.
    destruct (select_all table conn) as [t|]; [|reflexivity].
    cbn [columns] in *.
    destruct (in_columns k (columns t)); [|reflexivity].
    destruct Hcase as [Hcase| ->]; [discriminate Hcase | reflexivity]. }
  rewrite Hupd. unfold to_sql.
  rewrite (bind_frame_rows _ _ HB : mapM sql_bind_row (records df_new) = _).
  eexists. split; [reflexivity|].
  unfold columns_of, rows_of. rewrite select_all_insert. cbn [columns records].
  split; [reflexivity|].
  rewrite List.map_map. apply List.map_ext. intros r. apply reindex_idem.
Qed.

(** X6 on the seeded table, written with a key it has no column of: the
    three stored rows are gone. *)
Lemma update_sqlite_replaces_table_without_key_witness :
  exists conn',
    update_sqlite "company_shareholders"
      [[("url", VStr Samples.X); ("shareholder", VStr (py "Fund A"))]] "url" Samples.seeded
    = (Ok tt, conn')
    /\ columns_of "company_shareholders" conn' = ["url"; "shareholder"]
    /\ rows_of "company_shareholders" conn'
       = [[("url", Some Samples.X); ("shareholder", Some (py "Fund A"))]].
Proof.
  exact (update_sqlite_replaces_table_without_key "company_shareholders" "url"
           [("url", VStr Samples.X); ("shareholder", VStr (py "Fund A"))] []
           [[("url", Some Samples.X); ("shareholder", Some (py "Fund A"))]]
           Samples.seeded eq_refl eq_refl (or_introl eq_refl)).
Defined.

(** X7. When no new row has the key that was asked for, the first column
    of the new rows whose name contains [url] is the key: the write is
    the write under that column. *)
Theorem update_sqlite_falls_back_to_url_column (table k k' : string) (others : list string)
    (rows : list (list (string * pyval)))
    (conn : gmap string (DataFrame (option (list N)))) :
  in_columns k (columns (pd_DataFrame rows)) = false ->
  List.filter (str_contains "url") (columns (pd_DataFrame rows)) = k' :: others ->
  update_sqlite table rows k conn = update_sqlite table rows k' conn.
Proof.
  intros Hk Hf. destruct rows as [|row0 rest]; [reflexivity|].
  assert (Hk' : in_columns k' (columns (pd_DataFrame (row0 :: rest))) = true).
  { apply in_columns_In.
    apply (proj1 (List.filter_In (str_contains "url") k' _)).
    rewrite Hf. left. reflexivity. }
  unfold update_sqlite. cbv beta iota zeta. rewrite Hk, Hf, Hk'. reflexivity.
Qed.

(** X7 on the seeded table: the default key [url] on rows that carry
    [company_url]. *)
Lemma update_sqlite_falls_back_to_url_column_witness :
  update_sqlite "company_shareholders" Samples.one_holder "url" Samples.seeded
  = update_sqlite "company_shareholders" Samples.one_holder "company_url" Samples.seeded.
Proof.
  exact (update_sqlite_falls_back_to_url_column "company_shareholders" "url" "company_url" []
           Samples.one_holder Samples.seeded eq_refl eq_refl).
Defined.

(** ** The scrape log on disk, as a whole *)

Lemma fold_insert_filter {V : Type} (p : list N * V -> bool) (k : list N)
    (rows : list (list N * V)) (acc acc' : gmap (list N) V) :
  (forall row, In row rows -> row.1 = k -> p row = true) ->
  acc !! k = acc' !! k ->
  fold_left (fun log row => <[row.1 := row.2]> log) (List.filter p rows) acc !! k
  = fold_left (fun log row => <[row.1 := row.2]> log) rows acc' !! k.
Proof.
  revert acc acc'. induction rows as [|row rows IH]; intros acc acc' Hp Hacc; [exact Hacc|].
  cbn [List.filter fold_left].
  assert (Hrest : forall r, In r rows -> r.1 = k -> p r = true)
    by (intros r Hr; apply Hp; right; exact Hr).
  destruct (p row) eqn:Ep.
  - cbn [fold_left]. apply IH; [exact Hrest|].
    destruct (decide (row.1 = k)) as [->|Hne].
    + rewrite !lookup_insert_eq. reflexivity.
    + rewrite !lookup_insert_ne by exact Hne. exact Hacc.
  - apply IH; [exact Hrest|].
    assert (Hne : row.1 <> k).
    { intros E. rewrite (Hp row (or_introl eq_refl) E) in Ep. discriminate Ep. }
    rewrite lookup_insert_ne by exact Hne. exact Hacc.
Qed.

Lemma load_scrape_log_times_file (file : option (list (list N * stamp))) :
  log_times (load_scrape_log file)
  = fold_left (fun log row => <[row.1 := row.2]> log)
              (row_times (match file with Some rows => rows | None => [] end)) ∅.
Proof.
  destruct file as [rows|]; [apply load_scrape_log_times|].
  unfold log_times, load_scrape_log. apply fmap_empty.
Qed.

(** Every value a fold of inserts holds was in a row or in the start. *)
Lemma fold_insert_values {V : Type} (P : V -> Prop) (rows : list (list N * V))
    (acc : gmap (list N) V) :
  (forall row, In row rows -> P row.2) ->
  (forall k v, acc !! k = Some v -> P v) ->
  forall k v,
    fold_left (fun log row => <[row.1 := row.2]> log) rows acc !! k = Some v -> P v.
Proof.
  revert acc. induction rows as [|row rows IH]; intros acc Hrows Hacc k v; [apply Hacc|].
  cbn [fold_left]. apply IH.
  - intros r Hr. apply Hrows. right. exact Hr.
  - intros k' v' Hv. destruct (decide (row.1 = k')) as [<-|Hne].
    + rewrite lookup_insert_eq in Hv. injection Hv as <-. apply Hrows. left. reflexivity.
    + rewrite lookup_insert_ne in Hv by exact Hne. exact (Hacc _ _ Hv).
Qed.

Lemma parses_print_times (row : list N * Z) (rows : list (list N * Z)) :
  parses (print_times (row :: rows)) = true.
Proof.
  unfold print_times. set (fraction := existsb _ (row :: rows)).
  cbn [List.map parses snd]. apply forallb_forall. intros r Hr.
  apply in_map_iff in Hr. destruct Hr as [r0 [<- _]]. cbn [snd].
  destruct fraction; reflexivity.
Qed.

(** X8. What [load_scrape_log] reads after a [save_scrape_log] stands
    for the saved dict laid over what the file held before: every url of
    the dict with the time saved, every other url of the file with the
    time it had, be the values read as times or left as text. When the
    file before was read as times and every value of the dict is a time,
    the file after is read as times too. *)
Theorem save_scrape_log_merges (log : gmap (list N) logval)
    (file file' : option (list (list N * stamp))) :
  save_scrape_log log file = Ok file' ->
  log_times (load_scrape_log file')
  = log_times log ∪ log_times (load_scrape_log file)
  /\ (parses (match file with Some rows => rows | None => [] end) = true ->
      (forall k v, log !! k = Some v -> is_time v = true) ->
      forall k v, load_scrape_log file' !! k = Some v -> is_time v = true).
Proof.
  intros Hsave. split.
  - destruct (save_scrape_log_times _ _ _ Hsave) as [rows' [-> Hrows]].
    apply map_eq. intros k.
    destruct (log !! k) as [v|] eqn:Hk.
    + rewrite (load_after_save log file (Some rows') k v Hsave Hk).
      symmetry. apply lookup_union_Some_l. unfold log_times.
      rewrite lookup_fmap, Hk. reflexivity.
    + rewrite lookup_union_r by (unfold log_times; rewrite lookup_fmap, Hk; reflexivity).
      assert (Hnot : ~ In k (List.map fst (map_to_list log))).
      { rewrite map_to_list_keys, Hk. intros [v Hv]. discriminate Hv. }
      rewrite load_scrape_log_times, Hrows, fold_left_app.
      rewrite fold_insert_other by (rewrite List.map_map; exact Hnot).
      rewrite load_scrape_log_times_file.
      apply fold_insert_filter; [|reflexivity].
      intros r _ Hr. apply negb_true_iff. apply bool_decide_eq_false.
      rewrite Hr. intros Hin. apply Hnot. apply list_elem_of_In. exact Hin.
  - intros Hparses Htimes. revert Hsave. unfold save_scrape_log.
    destruct (map_to_list log) as [|row rows] eqn:E; [discriminate|]. rewrite <- E.
    rewrite Hparses.
    assert (Hall : forallb (fun row : list N * logval => is_time row.2) (map_to_list log)
                   = true).
    { apply forallb_forall. intros [k v] Hin. apply (Htimes k v).
      apply elem_of_map_to_list. apply list_elem_of_In. exact Hin. }
    rewrite Hall. cbn [andb]. intros H. injection H as <-.
    rewrite E, List.map_app. cbn [List.map].
    unfold load_scrape_log, read_log.
    destruct (List.map _ (List.filter _ _) ++ _ :: _) as [|r0 l0] eqn:El;
      [destruct (List.map _ (List.filter _ _)); discriminate El|].
    rewrite parses_print_times.
    apply (fold_insert_values (fun v => is_time v = true)).
    + intros r Hr. apply in_map_iff in Hr. destruct Hr as [r1 [<- _]]. reflexivity.
    + intros k v Hv. rewrite lookup_empty in Hv. discriminate Hv.
Qed.

(** X8 on a file of two urls, one of them scraped again. *)
Lemma save_scrape_log_merges_witness :
  exists file',
    save_scrape_log {[ Sim.ABC := Time Sim.noon ]}
      (Some [(Sim.ABC, Micros 5); (Sim.XYZ, Micros 7)]) = Ok file'
    /\ log_times (load_scrape_log file')
       = log_times {[ Sim.ABC := Time Sim.noon ]}
         ∪ log_times (load_scrape_log (Some [(Sim.ABC, Micros 5); (Sim.XYZ, Micros 7)])).
Proof.
  destruct (save_scrape_log {[ Sim.ABC := Time Sim.noon ]}
              (Some [(Sim.ABC, Micros 5); (Sim.XYZ, Micros 7)]))
    as [file'|e] eqn:E.
  - exists file'. split; [reflexivity|].
    exact (proj1 (save_scrape_log_merges _ _ file' E)).
  - exfalso. vm_compute in E. discriminate E.
Defined.

(** X9. After a save the file holds one row for each url of the dict,
    and the rows of the other urls, url and time, as they were and in
    their order. *)
Theorem save_scrape_log_one_row_per_url (log : gmap (list N) logval)
    (file : option (list (list N * stamp))) (rows' : list (list N * stamp)) :
  save_scrape_log log file = Ok (Some rows') ->
  (forall k, is_Some (log !! k) ->
     length (List.filter (fun row => bool_decide (row.1 = k)) rows') = 1%nat)
  /\ List.filter (fun row => negb (bool_decide (is_Some (log !! row.1)))) (row_times rows')
     = List.filter (fun row => negb (bool_decide (is_Some (log !! row.1))))
                   (row_times (match file with Some rows => rows | None => [] end)).
Proof.
  intros Hsave.
  destruct (save_scrape_log_times _ _ _ Hsave) as [rows0 [Heq Hrows]].
  injection Heq as <-.
  set (old := row_times (match file with Some rows => rows | None => [] end)) in *.
  set (new := List.map (fun row : list N * logval => (row.1, logval_time row.2))
                       (map_to_list log)) in *.
  assert (Hdec : forall r : list N * Z,
             bool_decide (r.1 ∈ List.map fst (map_to_list log))
             = bool_decide (is_Some (log !! r.1))).
  { intros r. apply bool_decide_ext. rewrite list_elem_of_In. apply map_to_list_keys. }
  assert (Hnew : forall r, In r new -> is_Some (log !! r.1)).
  { intros r Hr. apply in_map_iff in Hr. destruct Hr as [[k v] [<- Hin]].
    apply map_to_list_keys. apply in_map_iff. exists (k, v). split; [reflexivity | exact Hin]. }
  split.
  - intros k Hk.
    assert (Hcount : length (List.filter (fun row => bool_decide (row.1 = k)) rows')
                     = length (List.filter (fun row : list N * Z => bool_decide (row.1 = k))
                                 (row_times rows'))).
    { unfold row_times. rewrite filter_map_comm, List.length_map. reflexivity. }
    rewrite Hcount, Hrows, List.filter_app, List.length_app.
    rewrite (filter_none (fun row : list N * Z => bool_decide (row.1 = k))
               (List.filter _ old)).
    + simpl.
      assert (Hnd : List.NoDup (List.map fst new)) by apply saved_urls_NoDup.
      assert (Hin : In k (List.map fst new)).
      { unfold new. rewrite List.map_map. apply map_to_list_keys. exact Hk. }
      revert Hnd Hin. generalize new as l.
      induction l as [|[k' v'] l IH]; intros Hnd Hin; [destruct Hin|].
      cbn [List.map fst] in Hnd, Hin. inversion Hnd as [|? ? Hk' Hnd']; subst.
      cbn [List.filter fst].
      destruct (decide (k' = k)) as [->|Hne].
      * rewrite bool_decide_eq_true_2 by reflexivity. cbn [length]. f_equal.
        rewrite (filter_none (fun row : list N * Z => bool_decide (row.1 = k)));
          [reflexivity|].
        intros r Hr. apply bool_decide_eq_false. intros <-. apply Hk'.
        apply in_map. exact Hr.
      * rewrite bool_decide_eq_false_2 by exact Hne.
        apply IH; [exact Hnd'|]. destruct Hin as [E|Hin]; [congruence | exact Hin].
    + intros r Hr. apply List.filter_In in Hr. destruct Hr as [_ Hr].
      apply bool_decide_eq_false. intros <-.
      rewrite Hdec in Hr. apply negb_true_iff in Hr. apply bool_decide_eq_false in Hr.
      exact (Hr Hk).
  - rewrite Hrows, List.filter_app.
    rewrite (filter_none _ new).
    + rewrite List.app_nil_r. apply filter_filter_absorb.
      intros r Hr. rewrite Hdec. exact Hr.
    + intros r Hr. apply negb_false_iff. apply bool_decide_eq_true. apply Hnew. exact Hr.
Qed.

(** X9 on a file that held the same url twice. *)
Lemma save_scrape_log_one_row_per_url_witness :
  exists rows',
    save_scrape_log {[ Sim.ABC := Time Sim.noon ]}
      (Some [(Sim.ABC, Micros 5); (Sim.XYZ, Micros 7); (Sim.ABC, Micros 6)]) = Ok (Some rows')
    /\ length (List.filter (fun row => bool_decide (row.1 = Sim.ABC)) rows') = 1%nat.
Proof.
  destruct (save_scrape_log {[ Sim.ABC := Time Sim.noon ]}
              (Some [(Sim.ABC, Micros 5); (Sim.XYZ, Micros 7); (Sim.ABC, Micros 6)]))
    as [[rows'|]|e] eqn:E.
  - exists rows'. split; [reflexivity|].
    apply (proj1 (save_scrape_log_one_row_per_url _ _ rows' E) Sim.ABC).
    exists (Time Sim.noon). apply lookup_singleton_eq.
  - exfalso. vm_compute in E. discriminate E.
  - exfalso. vm_compute in E. discriminate E.
Defined.

(** X10. [save_scrape_log] raises exactly on an empty dict, whatever the
    file holds: the frame of no entries has no [url] column to index. *)
Theorem save_scrape_log_raises_iff_empty (log : gmap (list N) logval)
    (file : option (list (list N * stamp))) :
  save_scrape_log log file = Raise (KeyError "url") <-> log = ∅.
Proof.
  unfold save_scrape_log. split.
  - destruct (map_to_list log) as [|row rows] eqn:E.
    + intros _. apply map_to_list_empty_iff. exact E.
    + destruct (parses _ && _); discriminate.
  - intros ->. rewrite map_to_list_empty. reflexivity.
Qed.

(** ** What a task leaves behind *)

Lemma bind_inv {S A B : Type} (m : St S A) (f : A -> St S B) (s s' : S) (r : result B) :
  (m ≫= f) s = (r, s') ->
  (exists a s1, m s = (Ok a, s1) /\ f a s1 = (r, s'))
  \/ (exists e, m s = (Raise e, s') /\ r = Raise e).
Proof.
  unfold mbind, St_bind. destruct (m s) as [[a|e] s1]; intros H.
  - left. exists a, s1. split; [reflexivity | exact H].
  - right. injection H as <- <-. exists e. split; reflexivity.
Qed.

Section TaskStore.
Context {soup_lib : Soup} {pydantic_lib : Pydantic} {outside : Env}.

Lemma keeps_conn_ret {A : Type} (a : A) : keeps_conn (mret a).
Proof. intros w r w' H. injection H as <- <-. reflexivity. Qed.

Lemma keeps_conn_lift {A : Type} (x : result A) : keeps_conn (lift x).
Proof. intros w r w' H. injection H as <- <-. reflexivity. Qed.

Lemma keeps_conn_page_call {A : Type} (ev : event) (op : St env A) :
  keeps_conn (page_call ev op).
Proof.
  intros w r w'. unfold page_call. destruct (op (w_env w)) as [r0 e'].
  intros H. injection H as <- <-. reflexivity.
Qed.

Lemma keeps_conn_bind {A B : Type} (m : St world A) (f : A -> St world B) :
  keeps_conn m -> (forall a, keeps_conn (f a)) -> keeps_conn (m ≫= f).
Proof.
  intros Hm Hf w r w' H. destruct (bind_inv _ _ _ _ _ H) as [(a & w1 & E1 & E2)|(e & E1 & _)].
  - rewrite (Hf a w1 _ _ E2). exact (Hm w _ _ E1).
  - exact (Hm w _ _ E1).
Qed.

Lemma keeps_conn_try_except {A : Type} (m : St world A) (h : exn -> St world A) :
  keeps_conn m -> (forall e, keeps_conn (h e)) -> keeps_conn (try_except m h).
Proof.
  intros Hm Hh w r w'. unfold try_except.
  destruct (m w) as [[a|e] w1] eqn:E; intros H.
  - injection H as <- <-. exact (Hm w _ _ E).
  - rewrite (Hh e w1 _ _ H). exact (Hm w _ _ E).
Qed.

Lemma keeps_conn_collect_tab (tab_html : gmap string (list N)) (tab_key : string) :
  keeps_conn (collect_tab tab_html tab_key).
Proof.
  unfold collect_tab.
  apply keeps_conn_bind; [apply keeps_conn_lift|]. intros tab.
  apply keeps_conn_try_except.
  - apply keeps_conn_bind; [apply keeps_conn_page_call|]. intros _.
    apply keeps_conn_bind; [apply keeps_conn_lift|]. intros table.
    apply keeps_conn_bind; [apply keeps_conn_page_call|]. intros _.
    apply keeps_conn_bind; [apply keeps_conn_page_call|]. intros html.
    apply keeps_conn_ret.
  - intros _. apply keeps_conn_bind; [apply keeps_conn_page_call|]. intros html.
    apply keeps_conn_ret.
Qed.

Lemma keeps_conn_collect_tabs (keys : list string) (tab_html : gmap string (list N)) :
  keeps_conn (collect_tabs tab_html keys).
Proof.
  revert tab_html. induction keys as [|key keys IH]; intros tab_html; cbn [collect_tabs].
  - apply keeps_conn_ret.
  - apply keeps_conn_bind; [apply keeps_conn_collect_tab | exact IH].
Qed.

Lemma keeps_conn_collect_tab_html_async : keeps_conn collect_tab_html_async.
Proof.
  unfold collect_tab_html_async.
  apply keeps_conn_bind; [apply keeps_conn_page_call|]. intros info.
  apply keeps_conn_collect_tabs.
Qed.

Lemma keeps_conn_extract_description_async : keeps_conn extract_description_async.
Proof.
  unfold extract_description_async.
  apply keeps_conn_bind; [apply keeps_conn_page_call|]. intros s. apply keeps_conn_ret.
Qed.

(** The statements under [try] change the store through
    [process_company_data] only, called on the url of the task with a
    description that is a string. *)
Lemma scrape_steps_store (url : list N) (w w' : world) (r : result unit) :
  scrape_steps url w = (r, w') ->
  ((exists e, r = Raise e) /\ w_conn w' = w_conn w)
  \/ exists d tab_html,
       process_company_data url tab_html (Some d) (w_conn w) = (r, w_conn w').
Proof.
  unfold scrape_steps. intros H.
  destruct (bind_inv _ _ _ _ _ H) as [([] & w1 & E1 & H1)|(e & E1 & ->)].
  2: { left. split; [eauto|]. exact (keeps_conn_page_call _ _ w _ _ E1). }
  pose proof (keeps_conn_page_call _ _ w _ _ E1) as C1.
  destruct (bind_inv _ _ _ _ _ H1) as [(d & w2 & E2 & H2)|(e & E2 & ->)].
  2: { left. split; [eauto|].
       rewrite (keeps_conn_extract_description_async w1 _ _ E2). exact C1. }
  pose proof (keeps_conn_extract_description_async w1 _ _ E2) as C2.
  destruct (bind_inv _ _ _ _ _ H2) as [(tab_html & w3 & E3 & H3)|(e & E3 & ->)].
  2: { left. split; [eauto|].
       rewrite (keeps_conn_collect_tab_html_async w2 _ _ E3). congruence. }
  pose proof (keeps_conn_collect_tab_html_async w2 _ _ E3) as C3.
  right. exists d, tab_html. revert H3. unfold with_conn.
  assert (C : w_conn w3 = w_conn w) by congruence. rewrite C.
  destruct (process_company_data url tab_html (Some d) (w_conn w)) as [r0 c'].
  intros H3. injection H3 as <- <-. reflexivity.
Qed.

Lemma scrape_steps_raise_store (url : list N) (w w' : world) (e : exn) :
  scrape_steps url w = (Raise e, w') -> w_conn w' = w_conn w.
Proof.
  intros H. destruct (scrape_steps_store _ _ _ _ H) as [[_ C]|(d & tab_html & P)]; [exact C|].
  destruct (process_company_data_outcomes _ _ _ _ _ _ P) as [[_ E]|[E _]];
    [exact E | discriminate E].
Qed.

(** X11. A task that returns [(url, False)] has left the SQLite file,
    the [scrape_log] dict and the log file as they were, whether it was
    skipped or failed at any step; and the url it returns is its own. *)
Theorem failed_task_writes_nothing (url u : list N) (skip_threshold : Z) (w w' : world) :
  scrape_url_async url skip_threshold w = (Ok (u, false), w') ->
  u = url
  /\ w_conn w' = w_conn w
  /\ w_scrape_log w' = w_scrape_log w
  /\ w_log_file w' = w_log_file w.
Proof.
  intros H.
  destruct (recently_scraped (w_scrape_log w !! url) skip_threshold) as [[|]|e0] eqn:Hskip.
  3: { rewrite (scrape_url_async_check_raises url skip_threshold w e0 Hskip) in H.
       discriminate H. }
  - rewrite (scrape_url_async_skips url skip_threshold w Hskip) in H.
    injection H as Hu Hw. subst u w'. repeat split.
  - destruct (page_call NewPage new_page w) as [[[]|e] w1] eqn:Hpage.
    + pose proof (keeps_conn_page_call _ _ w _ _ Hpage) as C1.
      destruct (keeps_log_page_call _ _ w _ _ Hpage) as [L1 F1].
      destruct (scrape_url_async_ends _ _ _ _ _ _ Hskip Hpage H)
        as [(w2 & w3 & rc & _ & _ & _ & Hr)|(e & w2 & rc & Hsteps & Hclose & Hr)].
      * destruct rc; discriminate Hr.
      * destruct rc as [[]|]; [|discriminate Hr]. injection Hr as Hu. subst u.
        pose proof (keeps_conn_page_call _ _ w2 _ _ Hclose) as C3.
        destruct (keeps_log_page_call _ _ w2 _ _ Hclose) as [L3 F3].
        pose proof (scrape_steps_raise_store _ _ _ _ Hsteps) as C2.
        destruct (keeps_log_scrape_steps url w1 _ _ Hsteps) as [L2 F2].
        repeat split; congruence.
    + rewrite (scrape_url_async_no_page url skip_threshold w w1 e Hskip Hpage) in H.
      discriminate H.
Qed.

(** X12. A task that returns [(url, True)] has left exactly one row of
    the company in [company_company], under the validated url, and the
    same time for the url in the [scrape_log] dict and in its row of the
    log file;
    when that time is after the threshold of the batch, a later task of
    the batch for the same url is skipped. *)
Theorem succeeded_task_has_stored_and_stamped (url u : list N) (skip_threshold : Z)
    (w w' : world) :
  scrape_url_async url skip_threshold w = (Ok (u, true), w') ->
  u = url
  /\ exists cu t,
       HttpUrl url = Some cu
       /\ length (keyed "url" cu (rows_of "company_company" (w_conn w'))) = 1%nat
       /\ w_scrape_log w' !! url = Some (Time t)
       /\ log_times (load_scrape_log (w_log_file w')) !! url = Some t
       /\ (skip_threshold < t ->
           forall w'', w_scrape_log w'' = w_scrape_log w' ->
             scrape_url_async url skip_threshold w'' = (Ok (url, false), w'')).
Proof.
  intros H.
  destruct (recently_scraped (w_scrape_log w !! url) skip_threshold) as [[|]|e0] eqn:Hskip.
  { rewrite (scrape_url_async_skips url skip_threshold w Hskip) in H. discriminate H. }
  2: { rewrite (scrape_url_async_check_raises url skip_threshold w e0 Hskip) in H.
       discriminate H. }
  destruct (page_call NewPage new_page w) as [[[]|e] w1] eqn:Hpage.
  2: { rewrite (scrape_url_async_no_page url skip_threshold w w1 e Hskip Hpage) in H.
       discriminate H. }
  destruct (scrape_url_async_ends _ _ _ _ _ _ Hskip Hpage H)
    as [(w2 & w3 & rc & Hsteps & Hmark & Hclose & Hr)|(e & w2 & rc & _ & _ & Hr)].
  2: { destruct rc; discriminate Hr. }
  destruct rc as [[]|]; [|discriminate Hr]. injection Hr as Hu. subst u.
  split; [reflexivity|].
  destruct (scrape_steps_store _ _ _ _ Hsteps) as [[[e He] _]|(d & tab_html & P)];
    [discriminate He|].
  destruct (process_company_data_outcomes _ _ _ _ _ _ P)
    as [[[e He] _]|(_ & d' & cd & tables & Hd & Ex)]; [discriminate He|].
  injection Hd as <-.
  destruct (process_company_data_store _ _ _ _ _ (w_conn w1) Ex)
    as (c & P' & _ & [row [L _]] & _).
  rewrite P' in P. injection P as Hc.
  destruct (extract_company_data_shape _ _ _ _ _ Ex) as (Hu & _).
  destruct (datetime_now (w_env w2)) as [t e3] eqn:Hnow.
  destruct (mark_scraped_run url w2 t e3 Hnow) as [file' [_ [Hmark' Hload]]].
  rewrite Hmark' in Hmark. injection Hmark as <-.
  pose proof (keeps_conn_page_call _ _ _ _ _ Hclose) as C3.
  destruct (keeps_log_page_call _ _ _ _ _ Hclose) as [L3 F3].
  cbn [w_conn w_scrape_log w_log_file] in C3, L3, F3.
  exists (CompanyData.url cd), t. split; [exact Hu|]. split; [|split; [|split]].
  - rewrite C3, <- Hc, L. reflexivity.
  - rewrite L3. apply lookup_insert_eq.
  - rewrite F3. exact Hload.
  - intros Ht w'' Hw''. apply scrape_url_async_skips.
    rewrite Hw'', L3, lookup_insert_eq. cbn [recently_scraped]. f_equal.
    apply bool_decide_eq_true. exact Ht.
Qed.

Lemma gather_skips (urls : list (list N)) (skip_threshold : Z) (w : world) :
  (forall url, In url urls ->
     recently_scraped (w_scrape_log w !! url) skip_threshold = Ok true) ->
  gather urls skip_threshold w = Returned (List.map (fun url => (url, false)) urls) w.
Proof.
  induction urls as [|url urls IH]; intros Hall; [reflexivity|].
  cbn [gather List.map].
  rewrite (scrape_url_async_skips url skip_threshold w (Hall url (or_introl eq_refl))).
  rewrite (IH (fun x Hx => Hall x (or_intror Hx))). reflexivity.
Qed.

(** X13. A batch started when every url of the list has, in the log as
    [load_scrape_log] reads it from the file, a time that is less than a
    day old opens no page and writes nothing: every task returns
    [(url, False)], and the trace, the SQLite file and the log file are
    as before. *)
Theorem fresh_batch_opens_no_page (urls : list (list N)) (w : world) :
  (forall url, In url urls ->
     exists last, load_scrape_log (w_log_file w) !! url = Some (Time last)
                  /\ (datetime_now (w_env w)).1 - last < one_day) ->
  exists w',
    scrape_all_async urls w = Returned (List.map (fun url => (url, false)) urls) w'
    /\ w_trace w' = w_trace w
    /\ w_conn w' = w_conn w
    /\ w_log_file w' = w_log_file w.
Proof.
  intros Hall. rewrite scrape_all_async_threshold.
  eexists. split.
  - apply gather_skips. intros url Hin. cbn [w_scrape_log].
    apply recently_scraped_spec. exact (Hall url Hin).
  - repeat split.
Qed.

(** X15. A batch whose log file holds times in two prints reads the
    column as text; when the first url of the list has a row in the
    file, its task raises [TypeError] at the skip check, outside every
    [try]: no page is opened and nothing is written, and the tasks of
    the other urls are still scheduled. *)
Theorem text_log_raises_at_the_skip_check (url : list N) (urls : list (list N))
    (rows : list (list N * stamp)) (w : world) :
  w_log_file w = Some rows ->
  parses rows = false ->
  In url (List.map fst rows) ->
  scrape_all_async (url :: urls) w
  = Raised TypeError []
      (mkWorld (datetime_now (w_env w)).2 (w_trace w) (w_conn w) (w_log_file w)
         (load_scrape_log (w_log_file w)))
      urls.
Proof.
  intros Hfile Hparses Hin. rewrite scrape_all_async_threshold. cbn [gather].
  assert (Htext : exists s, load_scrape_log (w_log_file w) !! url = Some (Text s)).
  { rewrite Hfile. unfold load_scrape_log, read_log. rewrite Hparses.
    destruct (fold_insert_is_Some
                (List.map (fun row : list N * stamp => (row.1, Text row.2)) rows) ∅ url)
      as [v E]; [rewrite List.map_map; exact Hin|].
    assert (Hv : is_time v = false).
    { revert E. apply (fold_insert_values (fun v => is_time v = false)).
      - intros r Hr. apply in_map_iff in Hr. destruct Hr as [r0 [<- _]]. reflexivity.
      - intros k0 v0 Hv0. rewrite lookup_empty in Hv0. discriminate Hv0. }
    destruct v as [t|s]; [discriminate Hv|]. exists s. exact E. }
  destruct Htext as [s Hs].
  rewrite (scrape_url_async_check_raises url _ _ TypeError); [reflexivity|].
  cbn [w_scrape_log]. rewrite Hs. reflexivity.
Qed.
End TaskStore.

(** ** A turn of the tab loop that raises *)

(** Replace a page call by its outcome [H]. *)
Ltac run_page_call H :=
  first [ rewrite (page_call_run _ _ _ _ _ H)
        | rewrite (page_call_next _ _ _ _ _ _ _ H) ];
  cbn [app].

Section TabsUnreadable.
Context {soup_lib : Soup} {pydantic_lib : Pydantic} {outside : Env}.

(** X14. A turn of the tab loop raises only when [page.content()]
    raises in the [except] block: whatever made the click, the wait or
    the first read fail is swallowed, and the exception that leaves the
    turn is the one of that last read. *)
Theorem collect_tab_raises_only_from_the_handler (tab_key : string)
    (tab_html : gmap string (list N)) (w w' : world) (e : exn) :
  In tab_key tab_order ->
  collect_tab tab_html tab_key w = (Raise e, w') ->
  exists e0 evs,
    content e0 = (Raise e, w_env w')
    /\ w_trace w' = w_trace w ++ evs ++ [Content].
Proof.
  intros Hin.
  destruct (tab_order_in_TABS tab_key Hin) as [tab Ht].
  unfold collect_tab, getitem. rewrite Ht. st_unfold.
  destruct (click (nav_link tab) 15000 (w_env w)) as [[[]|e1] e1'] eqn:Hclick;
    run_page_call Hclick.
  - destruct (dict_get tab_key tab_selectors) as [table|] eqn:Hs.
    + destruct (wait_for_selector table 5000 e1') as [[[]|e2] e2'] eqn:Hwait;
        run_page_call Hwait.
      * destruct (content e2') as [[html|e3] e3'] eqn:Hc; run_page_call Hc; [discriminate|].
        destruct (content e3') as [[html|e4] e4'] eqn:Hc2; run_page_call Hc2; [discriminate|].
        intros H. injection H as <- <-.
        exists e3', [Click (nav_link tab); WaitForSelector table; Content].
        split; [exact Hc2 | reflexivity].
      * destruct (content e2') as [[html|e3] e3'] eqn:Hc; run_page_call Hc; [discriminate|].
        intros H. injection H as <- <-.
        exists e2', [Click (nav_link tab); WaitForSelector table].
        split; [exact Hc | reflexivity].
    + destruct (content e1') as [[html|e3] e3'] eqn:Hc; run_page_call Hc; [discriminate|].
      intros H. injection H as <- <-.
      exists e1', [Click (nav_link tab)]. split; [exact Hc | reflexivity].
  - destruct (content e1') as [[html|e3] e3'] eqn:Hc; run_page_call Hc; [discriminate|].
    intros H. injection H as <- <-.
    exists e1', [Click (nav_link tab)]. split; [exact Hc | reflexivity].
Qed.
End TabsUnreadable.

(** X14 on a browser that has lost its page: the click times out and the
    read in the handler raises. *)
Lemma collect_tab_raises_only_from_the_handler_witness :
  exists e w' e0 evs,
    @collect_tab Offline.outside ∅ "reports1" Offline.start = (Raise e, w')
    /\ @content Offline.outside e0 = (Raise e, w_env w')
    /\ w_trace w' = w_trace Offline.start ++ evs ++ [Content].
Proof.
  destruct (@collect_tab Offline.outside ∅ "reports1" Offline.start) as [[t|e] w'] eqn:E.
  - exfalso. vm_compute in E. discriminate E.
  - destruct (@collect_tab_raises_only_from_the_handler Offline.outside
                "reports1" ∅ Offline.start w' e
                ltac:(unfold tab_order; simpl; auto) E) as [e0 [evs H]].
    exists e, w', e0, evs. split; [reflexivity | exact H].
Defined.

Section TaskStoreOnTheSite.
Import Sim.

(** X11 on the simulated site: the navigation times out. *)
Lemma failed_task_writes_nothing_witness :
  exists u w',
    scrape_url_async ABC (noon - one_day) (start noon ["goto"] Samples.seeded None ∅)
    = (Ok (u, false), w')
    /\ u = ABC
    /\ w_conn w' = Samples.seeded
    /\ w_scrape_log w' = ∅
    /\ w_log_file w' = None.
Proof.
  destruct (scrape_url_async ABC (noon - one_day) (start noon ["goto"] Samples.seeded None ∅))
    as [[[u [|]]|e] w'] eqn:E.
  - exfalso. vm_compute in E. discriminate E.
  - exists u, w'. split; [reflexivity|].
    exact (@failed_task_writes_nothing Sim.soup Sim.pydantic Sim.outside
             ABC u (noon - one_day) (start noon ["goto"] Samples.seeded None ∅) w' E).
  - exfalso. vm_compute in E. discriminate E.
Defined.

(** X12 on the simulated site: the company is scraped. *)
Lemma succeeded_task_has_stored_and_stamped_witness :
  exists u w' cu t,
    scrape_url_async ABC (noon - one_day) (clean_start []) = (Ok (u, true), w')
    /\ u = ABC
    /\ HttpUrl ABC = Some cu
    /\ length (keyed "url" cu (rows_of "company_company" (w_conn w'))) = 1%nat
    /\ w_scrape_log w' !! ABC = Some (Time t)
    /\ log_times (load_scrape_log (w_log_file w')) !! ABC = Some t.
Proof.
  destruct (scrape_url_async ABC (noon - one_day) (clean_start []))
    as [[[u [|]]|e] w'] eqn:E.
  - destruct (@succeeded_task_has_stored_and_stamped Sim.soup Sim.pydantic Sim.outside
                ABC u (noon - one_day) (clean_start []) w' E)
      as (Hu & cu & t & H1 & H2 & H3 & H4 & _).
    exists u, w', cu, t. repeat split; assumption.
  - exfalso. vm_compute in E. discriminate E.
  - exfalso. vm_compute in E. discriminate E.
Defined.

(** X13 on the simulated site: both companies were scraped two hours ago. *)
Lemma fresh_batch_opens_no_page_witness :
  exists w',
    scrape_all_async [ABC; XYZ]
      (start noon [] ∅
         (Some [(ABC, Micros (noon - hours 2)); (XYZ, Micros (noon - hours 2))]) ∅)
    = Returned [(ABC, false); (XYZ, false)] w'
    /\ w_trace w' = []
    /\ w_conn w' = ∅
    /\ w_log_file w'
       = Some [(ABC, Micros (noon - hours 2)); (XYZ, Micros (noon - hours 2))].
Proof.
  apply (@fresh_batch_opens_no_page Sim.soup Sim.pydantic Sim.outside [ABC; XYZ]
           (start noon [] ∅
              (Some [(ABC, Micros (noon - hours 2)); (XYZ, Micros (noon - hours 2))]) ∅)).
  intros url [<-|[<-|[]]]; exists (noon - hours 2); split; vm_compute; reflexivity.
Defined.

(** X15 on the simulated site: the file holds one time to the second and
    one with a fraction. *)
Lemma text_log_raises_at_the_skip_check_witness :
  exists w',
    scrape_all_async [ABC; XYZ]
      (start noon [] ∅
         (Some [(ABC, Seconds 1699992800); (XYZ, Micros 1699992800250000)]) ∅)
    = Raised TypeError [] w' [XYZ]
    /\ w_trace w' = [].
Proof.
  eexists. split.
  - apply (@text_log_raises_at_the_skip_check Sim.soup Sim.pydantic Sim.outside ABC [XYZ]
             [(ABC, Seconds 1699992800); (XYZ, Micros 1699992800250000)]
             (start noon [] ∅
                (Some [(ABC, Seconds 1699992800); (XYZ, Micros 1699992800250000)]) ∅)).
    + reflexivity.
    + reflexivity.
    + left. reflexivity.
  - reflexivity.
Defined.
End TaskStoreOnTheSite.
